(** * Hook points and the hooked root module of [transformer_lens/hook_points.py]

    A shallow embedding of [HookPoint] and [HookedRootModule].  Python
    objects are records, attribute assignment is a setter, a method that
    mutates [self] is a function from the state before to the outcome paired
    with the state after, and a raised exception is the [Raise] outcome: the
    state reached when the exception left the method is kept, because the
    caller (and a [finally] block) goes on with it. *)

From Stdlib Require Import String Ascii List ZArith Bool Arith Lia.
Import ListNotations.
Local Open Scope string_scope.
Local Open Scope list_scope.
Local Open Scope nat_scope.

Set Implicit Arguments.
Local Set Warnings "-register-all".

(** ** Exceptions and outcomes *)

(** The built-in exceptions the module can raise, with the detail Python
    reports (the message, the missing key or the missing attribute). *)
Inductive exn : Type :=
| ValueError (msg : string)
| KeyError (key : string)
| AttributeError (attr : string)
| IndexError (msg : string)
| TypeError (msg : string)
| RuntimeError (msg : string).

Inductive result (A : Type) : Type :=
| Ok (a : A)
| Raise (e : exn).

Arguments Ok {A} a.
Arguments Raise {A} e.

(** A method over a state [S]: the outcome and the state it leaves. *)
Definition M (S A : Type) : Type := S -> result A * S.

Definition ret {S A : Type} (a : A) : M S A := fun s => (Ok a, s).

Definition raise {S A : Type} (e : exn) : M S A := fun s => (Raise e, s).

Definition bind {S A B : Type} (m : M S A) (k : A -> M S B) : M S B :=
  fun s =>
    match m s with
    | (Ok a, s') => k a s'
    | (Raise e, s') => (Raise e, s')
    end.

Declare Scope py_scope.
Delimit Scope py_scope with py.
Notation "x <- m ;; k" := (bind m (fun x => k))
  (at level 61, m at next level, right associativity) : py_scope.
Notation "m ;;; k" := (bind m (fun _ => k))
  (at level 61, right associativity) : py_scope.

(** Python's [try: body finally: handler]: the handler runs on the state
    the body left, whatever its outcome; an exception of the handler
    replaces the outcome of the body. *)
Definition try_finally {S A : Type} (body : M S A) (handler : M S unit) : M S A :=
  fun s =>
    let '(r, s1) := body s in
    match handler s1 with
    | (Ok _, s2) => (r, s2)
    | (Raise e, s2) => (Raise e, s2)
    end.

(** ** Strings: [str.split(".")] and [int(...)] *)

Definition is_dot (c : ascii) : bool := Ascii.eqb c "."%char.

(** [s.split(".")]: the segments between the dots; never empty. *)
Fixpoint split_dot (s : string) : list string :=
  match s with
  | EmptyString => [EmptyString]
  | String c rest =>
      if is_dot c then EmptyString :: split_dot rest
      else match split_dot rest with
           | [] => [String c EmptyString]
           | seg :: segs => String c seg :: segs
           end
  end.

(** Characters are read as Latin-1 code points.  The white space [int]
    strips: TAB, LF, VT, FF, CR, space, NEL and NBSP. *)
Definition is_space (c : ascii) : bool :=
  let n := nat_of_ascii c in
  ((9 <=? n) && (n <=? 13)) || (n =? 32) || (n =? 133) || (n =? 160).

Definition is_digit (c : ascii) : bool :=
  let n := nat_of_ascii c in (48 <=? n) && (n <=? 57).

Definition digit_val (c : ascii) : Z := Z.of_nat (nat_of_ascii c - 48).

Fixpoint lstrip (cs : list ascii) : list ascii :=
  match cs with
  | c :: rest => if is_space c then lstrip rest else cs
  | [] => []
  end.

Definition strip (cs : list ascii) : list ascii :=
  rev (lstrip (rev (lstrip cs))).

(** The digits of a base-10 literal: digits, with single underscores
    allowed between two digits.  [after_digit] tells whether the previous
    character was a digit. *)
Fixpoint digits (acc : Z) (after_digit : bool) (cs : list ascii) : option Z :=
  match cs with
  | [] => if after_digit then Some acc else None
  | c :: rest =>
      if is_digit c then digits (10 * acc + digit_val c) true rest
      else if Ascii.eqb c "_"%char && after_digit then digits acc false rest
      else None
  end.

(** [int(s)] on a string, base 10: [None] stands for the [ValueError]. *)
Definition py_int (s : string) : option Z :=
  match strip (list_ascii_of_string s) with
  | c :: rest =>
      if Ascii.eqb c "-"%char then option_map Z.opp (digits 0 false rest)
      else if Ascii.eqb c "+"%char then digits 0 false rest
      else digits 0 false (c :: rest)
  | [] => None
  end.

(** ** Dictionaries

    A Python [dict] (and torch's [OrderedDict]) keeps its keys in insertion
    order: an association list with unique keys, where assigning to a
    present key replaces the value in place and assigning to a new key
    appends. *)
Section Dict.
Variables K V : Type.
Variable eqb : K -> K -> bool.

Fixpoint dict_get (k : K) (d : list (K * V)) : option V :=
  match d with
  | [] => None
  | (k', v) :: rest => if eqb k k' then Some v else dict_get k rest
  end.

Fixpoint dict_set (k : K) (v : V) (d : list (K * V)) : list (K * V) :=
  match d with
  | [] => [(k, v)]
  | (k', v') :: rest =>
      if eqb k k' then (k, v) :: rest else (k', v') :: dict_set k v rest
  end.

(** [if k in d: del d[k]] *)
Definition dict_del (k : K) (d : list (K * V)) : list (K * V) :=
  filter (fun e => negb (eqb k (fst e))) d.

Definition keys (d : list (K * V)) : list K := map fst d.
End Dict.

(** ** Tensors and caches *)

(** The content of a tensor: a scalar or a stack of sub-tensors along the
    leading axis.  Integers stand for the numbers; nothing below computes
    with them. *)
Inductive data : Type :=
| Scalar (x : Z)
| Stack (rows : list data).

Record Tensor : Type := { device : string; values : data }.

(** [t.detach()] shares the values and drops the gradient history, which the
    model does not carry. *)
Definition detach (t : Tensor) : Tensor := t.

Definition to (dev : string) (t : Tensor) : Tensor :=
  {| device := dev; values := values t |}.

(** [t[0]] *)
Definition index0 (t : Tensor) : result Tensor :=
  match values t with
  | Stack (row :: _) => Ok {| device := device t; values := row |}
  | Stack [] => Raise (IndexError "index 0 is out of bounds for dimension 0 with size 0")
  | Scalar _ => Raise (IndexError "invalid index of a 0-dim tensor")
  end.

(** A cache is a dict from [hook.name] to a tensor.  The key is what the
    [name] attribute holds, which is [None] until [setup] assigns it. *)
Definition key_eqb (a b : option string) : bool :=
  match a, b with
  | Some x, Some y => String.eqb x y
  | None, None => true
  | _, _ => false
  end.

Definition Cache : Type := list (option string * Tensor).

(** The dicts handed out as caches live in a heap and are referred to by
    their position, so that the hooks that fill a cache and the caller that
    holds it see one object. *)
Definition Heap : Type := list Cache.

Fixpoint heap_store (ref : nat) (k : option string) (v : Tensor) (h : Heap) : Heap :=
  match h, ref with
  | [], _ => []
  | d :: rest, O => dict_set key_eqb k v d :: rest
  | d :: rest, S r => d :: heap_store r k v rest
  end.

Definition heap_alloc : M Heap nat := fun h => (Ok (length h), h ++ [[]]).

(** ** Hooks *)

(** A hook as the user passes it: [fn(activation, hook=hook_point)].  It
    sees the tensor and the hook point's name, may fill caches, may raise,
    and returns a replacement or [None]. *)
Definition hook_fn : Type := Tensor -> option string -> M Heap (option Tensor).

(** A hook as torch stores it: [fn(module, module_input, module_output)]. *)
Definition torch_hook : Type :=
  option string -> Tensor -> Tensor -> M Heap (option Tensor).

(** Which of the module's two hook dicts a [RemovableHandle] points into
    (its [hooks_dict_ref]). *)
Inductive hooks_dict : Type := ForwardHooks | BackwardHooks.

(** [torch.utils.hooks.RemovableHandle]; [id] comes from the class-wide
    counter [RemovableHandle.next_id]. *)
Record RemovableHandle : Type := { hooks_dict_ref : hooks_dict; id : nat }.

Record LensHandle : Type := { hook : RemovableHandle; is_permanent : bool }.

(** ** [class HookPoint(nn.Module)] *)
Module HookPoint.

(** The attributes of a hook point: those [__init__] sets, and the two
    dicts in which [nn.Module] keeps the registered hooks, keyed by the
    handle's id. *)
Record t : Type := {
  name : option string;
  fwd_hooks : list LensHandle;
  bwd_hooks : list LensHandle;
  ctx : list (string * Tensor);
  _forward_hooks : list (nat * torch_hook);
  _backward_hooks : list (nat * torch_hook)
}.

Definition set_name (v : option string) (self : t) : t :=
  {| name := v; fwd_hooks := fwd_hooks self; bwd_hooks := bwd_hooks self;
     ctx := ctx self; _forward_hooks := _forward_hooks self;
     _backward_hooks := _backward_hooks self |}.

Definition set_fwd_hooks (v : list LensHandle) (self : t) : t :=
  {| name := name self; fwd_hooks := v; bwd_hooks := bwd_hooks self;
     ctx := ctx self; _forward_hooks := _forward_hooks self;
     _backward_hooks := _backward_hooks self |}.

Definition set_bwd_hooks (v : list LensHandle) (self : t) : t :=
  {| name := name self; fwd_hooks := fwd_hooks self; bwd_hooks := v;
     ctx := ctx self; _forward_hooks := _forward_hooks self;
     _backward_hooks := _backward_hooks self |}.

Definition set_ctx (v : list (string * Tensor)) (self : t) : t :=
  {| name := name self; fwd_hooks := fwd_hooks self;
     bwd_hooks := bwd_hooks self; ctx := v;
     _forward_hooks := _forward_hooks self;
     _backward_hooks := _backward_hooks self |}.

Definition set__forward_hooks (v : list (nat * torch_hook)) (self : t) : t :=
  {| name := name self; fwd_hooks := fwd_hooks self;
     bwd_hooks := bwd_hooks self; ctx := ctx self; _forward_hooks := v;
     _backward_hooks := _backward_hooks self |}.

Definition set__backward_hooks (v : list (nat * torch_hook)) (self : t) : t :=
  {| name := name self; fwd_hooks := fwd_hooks self;
     bwd_hooks := bwd_hooks self; ctx := ctx self;
     _forward_hooks := _forward_hooks self; _backward_hooks := v |}.

Definition __init__ : t :=
  {| name := None; fwd_hooks := []; bwd_hooks := []; ctx := [];
     _forward_hooks := []; _backward_hooks := [] |}.

(** The state a method of a hook point works on: the class-wide
    [RemovableHandle.next_id] and the hook point itself. *)
Definition state : Type := (nat * t)%type.

(** [nn.Module.register_forward_hook]: a handle with a fresh id, under
    which the hook is stored. *)
Definition register_forward_hook (h : torch_hook) : M state RemovableHandle :=
  fun '(next_id, self) =>
    let handle := {| hooks_dict_ref := ForwardHooks; id := next_id |} in
    (Ok handle,
     (S next_id,
      set__forward_hooks (dict_set Nat.eqb (id handle) h (_forward_hooks self)) self)).

(** [nn.Module.register_full_backward_hook] *)
Definition register_full_backward_hook (h : torch_hook) : M state RemovableHandle :=
  fun '(next_id, self) =>
    let handle := {| hooks_dict_ref := BackwardHooks; id := next_id |} in
    (Ok handle,
     (S next_id,
      set__backward_hooks (dict_set Nat.eqb (id handle) h (_backward_hooks self)) self)).

(** [RemovableHandle.remove], for a handle into one of this module's
    dicts: the entry under the handle's id is deleted if it is there. *)
Definition remove (handle : RemovableHandle) (self : t) : t :=
  match hooks_dict_ref handle with
  | ForwardHooks =>
      set__forward_hooks (dict_del Nat.eqb (id handle) (_forward_hooks self)) self
  | BackwardHooks =>
      set__backward_hooks (dict_del Nat.eqb (id handle) (_backward_hooks self)) self
  end.

(** The wrappers of [add_hook].  [self] of the closure is the module torch
    passes in; of the one-element tuple a backward hook receives as
    [module_output] the model keeps the element. *)
Definition full_hook_fwd (hook : hook_fn) : torch_hook :=
  fun module module_input module_output => hook module_output module.

Definition full_hook_bwd (hook : hook_fn) : torch_hook :=
  fun module module_input module_output => hook module_output module.

Definition append_fwd (handle : LensHandle) : M state unit :=
  fun '(next_id, self) =>
    (Ok tt, (next_id, set_fwd_hooks (fwd_hooks self ++ [handle]) self)).

Definition append_bwd (handle : LensHandle) : M state unit :=
  fun '(next_id, self) =>
    (Ok tt, (next_id, set_bwd_hooks (bwd_hooks self ++ [handle]) self)).

Definition add_hook (hook : hook_fn) (dir : string) (is_permanent : bool)
  : M state unit :=
  if String.eqb dir "fwd" then
    (handle <- register_forward_hook (full_hook_fwd hook) ;;
     append_fwd {| hook := handle; is_permanent := is_permanent |})%py
  else if String.eqb dir "bwd" then
    (handle <- register_full_backward_hook (full_hook_bwd hook) ;;
     append_bwd {| hook := handle; is_permanent := is_permanent |})%py
  else raise (ValueError ("Invalid direction " ++ dir)%string).

Definition add_perma_hook (hook : hook_fn) (dir : string) : M state unit :=
  add_hook hook dir true.

(** The inner function of [remove_hooks]: the handles kept, and the hook
    point after the removed ones were taken out of torch's dicts. *)
Fixpoint _remove_hooks (including_permanent : bool) (handles : list LensHandle)
  (self : t) : list LensHandle * t :=
  match handles with
  | [] => ([], self)
  | handle :: rest =>
      if negb (is_permanent handle) || including_permanent then
        _remove_hooks including_permanent rest (remove (hook handle) self)
      else
        let '(output_handles, self') :=
          _remove_hooks including_permanent rest self in
        (handle :: output_handles, self')
  end.

Definition valid_dir (dir : string) : bool :=
  String.eqb dir "fwd" || String.eqb dir "bwd" || String.eqb dir "both".

Definition remove_hooks (dir : string) (including_permanent : bool)
  : M state unit :=
  fun '(next_id, self) =>
    let self1 :=
      if String.eqb dir "fwd" || String.eqb dir "both" then
        let '(kept, s) := _remove_hooks including_permanent (fwd_hooks self) self in
        set_fwd_hooks kept s
      else self in
    let self2 :=
      if String.eqb dir "bwd" || String.eqb dir "both" then
        let '(kept, s) := _remove_hooks including_permanent (bwd_hooks self1) self1 in
        set_bwd_hooks kept s
      else self1 in
    if negb (valid_dir dir) then
      (Raise (ValueError ("Invalid direction " ++ dir)%string), (next_id, self2))
    else (Ok tt, (next_id, self2)).

Definition clear_context : M state unit :=
  fun '(next_id, self) => (Ok tt, (next_id, set_ctx [] self)).

Definition forward (x : Tensor) : Tensor := x.

(** [nn.Module.__call__]: [forward], then every forward hook in the order
    of [_forward_hooks]; a result that is not [None] replaces the output. *)
Fixpoint call_forward_hooks (hooks : list (nat * torch_hook))
  (module : option string) (input result : Tensor) : M Heap Tensor :=
  match hooks with
  | [] => ret result
  | (_, h) :: rest =>
      (hook_result <- h module input result ;;
       call_forward_hooks rest module input
         (match hook_result with Some r => r | None => result end))%py
  end.

Definition __call__ (self : t) (x : Tensor) : M Heap Tensor :=
  call_forward_hooks (_forward_hooks self) (name self) x (forward x).

(** The full backward hooks of the module when the gradient [g] of its
    output arrives: every hook sees the gradient of the output; a result
    that is not [None] becomes the gradient of the input. *)
Fixpoint call_backward_hooks (hooks : list (nat * torch_hook))
  (module : option string) (res grad_output : Tensor) : M Heap Tensor :=
  match hooks with
  | [] => ret res
  | (_, h) :: rest =>
      (out <- h module res grad_output ;;
       call_backward_hooks rest module
         (match out with Some r => r | None => res end) grad_output)%py
  end.

Definition backward (self : t) (g : Tensor) : M Heap Tensor :=
  call_backward_hooks (_backward_hooks self) (name self) g g.

(** [layer]: [self.name.split(".")] and [int(split_name[1])]. *)
Definition layer (self : t) : result Z :=
  match name self with
  | None => Raise (AttributeError "split")
  | Some n =>
      match split_dot n with
      | _ :: segment :: _ =>
          match py_int segment with
          | Some z => Ok z
          | None => Raise (ValueError "invalid literal for int() with base 10")
          end
      | _ => Raise (IndexError "list index out of range")
      end
  end.

End HookPoint.

(** ** Values whose type the code inspects *)

(** The first component of a [(name, hook)] pair of [run_with_hooks] and the
    [name] of [add_hook]: a [str], or else a Boolean function on names. *)
Inductive target : Type :=
| ByName (name : string)
| ByPredicate (p : string -> bool).

(** The bodies of the three lambdas [add_caching_hooks] writes.  Two of them
    mention [names_filter], the local variable of the enclosing call, which a
    Python closure reads when the lambda is called, not when it is made. *)
Inductive lambda_body : Type :=
| BodyTrue              (* lambda name: True *)
| BodyEqNamesFilter     (* lambda name: name == names_filter *)
| BodyInNamesFilter.    (* lambda name: name in names_filter *)

(** What [names_filter] can hold: what a caller passes ([None], a [str], a
    [list] of names, a function on names) and the lambdas above. *)
Inductive pyvalue : Type :=
| PyNone
| PyStr (s : string)
| PyList (l : list string)
| PyFunction (f : string -> bool)
| PyLambda (body : lambda_body).

(** [name == v] for a [str] on the left: equal strings only. *)
Definition py_eq (name : string) (v : pyvalue) : bool :=
  match v with
  | PyStr s => String.eqb name s
  | _ => false
  end.

Definition is_substring (a b : string) : bool :=
  match String.index 0 a b with
  | Some _ => true
  | None => false
  end.

(** [name in v] *)
Definition py_in (name : string) (v : pyvalue) : result bool :=
  match v with
  | PyList l => Ok (existsb (String.eqb name) l)
  | PyStr s => Ok (is_substring name s)
  | PyNone => Raise (TypeError "argument of type 'NoneType' is not iterable")
  | PyFunction _ | PyLambda _ =>
      Raise (TypeError "argument of type 'function' is not iterable")
  end.

(** [callee(name)], where [names_filter] is what the enclosing local variable
    holds at the time of the call. *)
Definition py_call (callee : pyvalue) (names_filter : pyvalue) (name : string)
  : result bool :=
  match callee with
  | PyFunction f => Ok (f name)
  | PyLambda BodyTrue => Ok true
  | PyLambda BodyEqNamesFilter => Ok (py_eq name names_filter)
  | PyLambda BodyInNamesFilter => py_in name names_filter
  | PyNone => Raise (TypeError "'NoneType' object is not callable")
  | PyStr _ => Raise (TypeError "'str' object is not callable")
  | PyList _ => Raise (TypeError "'list' object is not callable")
  end.

(** [hook_name, hp = key] for a [str] key: a string unpacks into its
    characters, and only one of two characters fits two targets. *)
Definition unpack2 (key : string) : result (string * string) :=
  match key with
  | String a (String b EmptyString) =>
      Ok (String a EmptyString, String b EmptyString)
  | String _ (String _ (String _ _)) =>
      Raise (ValueError "too many values to unpack (expected 2)")
  | _ => Raise (ValueError "not enough values to unpack (expected 2)")
  end.

(** ** [class HookedRootModule(nn.Module)] *)
Module HookedRootModule.

(** A module of the tree, by what the code can tell about it: a hook point
    (the test ["HookPoint" in str(type(module))] of [setup]), a hooked root
    module (the root itself is the first module [named_modules()] yields,
    under the name [""]), or any other [nn.Module]. *)
Inductive nn_module : Type :=
| IsHookPoint (hp : HookPoint.t)
| IsRootModule
| IsOther.

(** The forward pass of the model, as far as hooking is concerned: a
    sequence of computations, each with the map it applies to the gradient
    on the way back, and of calls of hook points, named by their path in
    the module tree. *)
Inductive op : Type :=
| Apply (f : Tensor -> result Tensor) (vjp : Tensor -> Tensor)
| Through (path : string).

(** The root module with what its methods reach.
    [named_modules] is the module tree as [self.named_modules()] lists it:
    every module object once, under its path.  [mod_dict] and [hook_dict]
    map these paths to the very same objects, so they are read off this one
    store; [has_dicts] tells whether [setup] has created the two
    attributes.  [next_id] is [RemovableHandle.next_id], [heap] holds the
    cache dicts, [cuda_is_available] is [torch.cuda.is_available()]. *)
Record t : Type := {
  named_modules : list (string * nn_module);
  has_dicts : bool;
  is_caching : bool;
  cfg : option (option string);
  forward_ops : list op;
  next_id : nat;
  heap : Heap;
  cuda_is_available : bool
}.

Definition set_named_modules (v : list (string * nn_module)) (self : t) : t :=
  {| named_modules := v; has_dicts := has_dicts self;
     is_caching := is_caching self; cfg := cfg self;
     forward_ops := forward_ops self; next_id := next_id self;
     heap := heap self; cuda_is_available := cuda_is_available self |}.

Definition set_has_dicts (v : bool) (self : t) : t :=
  {| named_modules := named_modules self; has_dicts := v;
     is_caching := is_caching self; cfg := cfg self;
     forward_ops := forward_ops self; next_id := next_id self;
     heap := heap self; cuda_is_available := cuda_is_available self |}.

Definition set_is_caching (v : bool) (self : t) : t :=
  {| named_modules := named_modules self; has_dicts := has_dicts self;
     is_caching := v; cfg := cfg self;
     forward_ops := forward_ops self; next_id := next_id self;
     heap := heap self; cuda_is_available := cuda_is_available self |}.

Definition set_next_id (v : nat) (self : t) : t :=
  {| named_modules := named_modules self; has_dicts := has_dicts self;
     is_caching := is_caching self; cfg := cfg self;
     forward_ops := forward_ops self; next_id := v;
     heap := heap self; cuda_is_available := cuda_is_available self |}.

Definition set_heap (v : Heap) (self : t) : t :=
  {| named_modules := named_modules self; has_dicts := has_dicts self;
     is_caching := is_caching self; cfg := cfg self;
     forward_ops := forward_ops self; next_id := next_id self;
     heap := v; cuda_is_available := cuda_is_available self |}.

(** [__init__] of a model with the given module tree, configuration and
    forward pass: only [is_caching] is set. *)
Definition __init__ (tree : list (string * nn_module))
  (config : option (option string)) (ops : list op)
  (next : nat) (h : Heap) (cuda : bool) : t :=
  {| named_modules := tree; has_dicts := false; is_caching := false;
     cfg := config; forward_ops := ops; next_id := next; heap := h;
     cuda_is_available := cuda |}.

Definition assign_name (entry : string * nn_module) : string * nn_module :=
  match entry with
  | (name, IsHookPoint hp) =>
      (name, IsHookPoint (HookPoint.set_name (Some name) hp))
  | other => other
  end.

(** [setup]: every module gets its path as [name] (kept here for hook
    points, whose [name] the code reads), and the two dicts exist. *)
Definition setup : M t unit :=
  fun self =>
    (Ok tt,
     set_has_dicts true
       (set_named_modules (map assign_name (named_modules self)) self)).

Definition hook_points_of (ms : list (string * nn_module))
  : list (string * HookPoint.t) :=
  flat_map (fun entry =>
              match entry with
              | (name, IsHookPoint hp) => [(name, hp)]
              | _ => []
              end) ms.

(** Reading [self.mod_dict] and [self.hook_dict]. *)
Definition mod_dict : M t (list (string * nn_module)) :=
  fun self =>
    if has_dicts self then (Ok (named_modules self), self)
    else (Raise (AttributeError "mod_dict"), self).

Definition hook_dict : M t (list (string * HookPoint.t)) :=
  fun self =>
    if has_dicts self then (Ok (hook_points_of (named_modules self)), self)
    else (Raise (AttributeError "hook_dict"), self).

Definition hook_points : M t (list HookPoint.t) :=
  (d <- hook_dict ;; ret (map snd d))%py.

(** [for name, hp in self.hook_dict.items(): body], for a body that works
    on [hp]: the hook points of the store in order, each left as the body
    left it; an exception ends the loop. *)
Fixpoint for_items (body : string -> M HookPoint.state unit)
  (ms : list (string * nn_module)) (next : nat)
  : result unit * (nat * list (string * nn_module)) :=
  match ms with
  | [] => (Ok tt, (next, []))
  | (name, IsHookPoint hp) :: rest =>
      match body name (next, hp) with
      | (Ok _, (next', hp')) =>
          let '(r, (next'', rest')) := for_items body rest next' in
          (r, (next'', (name, IsHookPoint hp') :: rest'))
      | (Raise e, (next', hp')) =>
          (Raise e, (next', (name, IsHookPoint hp') :: rest))
      end
  | entry :: rest =>
      let '(r, (next', rest')) := for_items body rest next in
      (r, (next', entry :: rest'))
  end.

Definition for_hook_dict_items (body : string -> M HookPoint.state unit)
  : M t unit :=
  fun self =>
    if has_dicts self then
      let '(r, (next, ms)) :=
        for_items body (named_modules self) (next_id self) in
      (r, set_next_id next (set_named_modules ms self))
    else (Raise (AttributeError "hook_dict"), self).

(** [self.mod_dict[name].add_hook(hook, dir=..., is_permanent=...)]: the
    object under [name], which must be there and must be a hook point.  On
    a hooked root module the call binds [hook] to the parameter [name] of
    [HookedRootModule.add_hook] and leaves its parameter [hook] without
    argument; any other module has no [add_hook]. *)
Fixpoint item_add_hook (name : string) (hook : hook_fn) (dir : string)
  (is_permanent : bool) (ms : list (string * nn_module)) (next : nat)
  : result unit * (nat * list (string * nn_module)) :=
  match ms with
  | [] => (Raise (KeyError name), (next, []))
  | (k, m) :: rest =>
      if String.eqb name k then
        match m with
        | IsHookPoint hp =>
            let '(r, (next', hp')) :=
              HookPoint.add_hook hook dir is_permanent (next, hp) in
            (r, (next', (k, IsHookPoint hp') :: rest))
        | IsRootModule =>
            (Raise (TypeError "add_hook() missing 1 required positional argument: 'hook'"),
             (next, ms))
        | IsOther => (Raise (AttributeError "add_hook"), (next, ms))
        end
      else
        let '(r, (next', rest')) :=
          item_add_hook name hook dir is_permanent rest next in
        (r, (next', (k, m) :: rest'))
  end.

Definition mod_dict_add_hook (name : string) (hook : hook_fn) (dir : string)
  (is_permanent : bool) : M t unit :=
  fun self =>
    if has_dicts self then
      let '(r, (next, ms)) :=
        item_add_hook name hook dir is_permanent
          (named_modules self) (next_id self) in
      (r, set_next_id next (set_named_modules ms self))
    else (Raise (AttributeError "mod_dict"), self).

Definition remove_all_hook_fns (direction : string) (including_permanent : bool)
  : M t unit :=
  for_hook_dict_items
    (fun _ => HookPoint.remove_hooks direction including_permanent).

Definition clear_contexts : M t unit :=
  for_hook_dict_items (fun _ => HookPoint.clear_context).

Definition reset_hooks (clear_ctx : bool) (direction : string)
  (including_permanent : bool) : M t unit :=
  ((if clear_ctx then clear_contexts else ret tt) ;;;
   remove_all_hook_fns direction including_permanent ;;;
   (fun self => (Ok tt, set_is_caching false self)))%py.

(** [check_and_add_hook] only forwards to the hook point; [add_hook] calls
    it on [self.mod_dict[name]] or on the matching items of [hook_dict]. *)
Definition add_hook (name : target) (hook : hook_fn) (dir : string)
  (is_permanent : bool) : M t unit :=
  match name with
  | ByName n => mod_dict_add_hook n hook dir is_permanent
  | ByPredicate p =>
      for_hook_dict_items
        (fun hook_point_name =>
           if p hook_point_name then HookPoint.add_hook hook dir is_permanent
           else ret tt)
  end.

Definition add_perma_hook (name : target) (hook : hook_fn) (dir : string)
  : M t unit :=
  add_hook name hook dir true.

(** *** The passes through the model *)

Fixpoint find_module (path : string) (ms : list (string * nn_module))
  : option nn_module :=
  match ms with
  | [] => None
  | (k, m) :: rest => if String.eqb path k then Some m else find_module path rest
  end.

(** One forward pass over the store [ms]: computations are applied, a hook
    point is called ([nn.Module.__call__], which runs its forward hooks).
    A path that does not lead to a hook point is an attribute error of the
    model's own code. *)
Fixpoint run_ops (ops : list op) (ms : list (string * nn_module)) (x : Tensor)
  : M Heap Tensor :=
  match ops with
  | [] => ret x
  | Apply f _ :: rest =>
      match f x with
      | Ok y => run_ops rest ms y
      | Raise e => raise e
      end
  | Through path :: rest =>
      match find_module path ms with
      | Some (IsHookPoint hp) =>
          (y <- HookPoint.__call__ hp x ;; run_ops rest ms y)%py
      | _ => raise (AttributeError path)
      end
  end.

(** [self.forward(...)] and [self(...)] on the model arguments: the root
    module carries no hooks of its own, so calling it is its forward
    pass. *)
Definition forward (x : Tensor) : M t Tensor :=
  fun self =>
    let '(r, h) := run_ops (forward_ops self) (named_modules self) x (heap self) in
    (r, set_heap h self).

(** The way back: the gradient goes through the operations in reverse; at
    a hook point its backward hooks run. *)
Fixpoint run_ops_back (ops : list op) (ms : list (string * nn_module)) (g : Tensor)
  : M Heap Tensor :=
  match ops with
  | [] => ret g
  | Apply _ vjp :: rest => run_ops_back rest ms (vjp g)
  | Through path :: rest =>
      match find_module path ms with
      | Some (IsHookPoint hp) =>
          (g' <- HookPoint.backward hp g ;; run_ops_back rest ms g')%py
      | _ => raise (AttributeError path)
      end
  end.

(** [model_out.backward()]: only for a scalar output, from the gradient 1. *)
Definition backward (model_out : Tensor) : M t unit :=
  fun self =>
    match values model_out with
    | Scalar _ =>
        let ones := {| device := device model_out; values := Scalar 1%Z |} in
        let '(r, h) :=
          run_ops_back (rev (forward_ops self)) (named_modules self) ones
            (heap self) in
        (match r with Ok _ => Ok tt | Raise e => Raise e end, set_heap h self)
    | Stack _ =>
        (Raise (RuntimeError "grad can be implicitly created only for scalar outputs"),
         self)
    end.

(** *** [run_with_hooks] *)

(** The loop over [fwd_hooks]. *)
Fixpoint add_fwd_hooks (fwd_hooks : list (target * hook_fn)) : M t unit :=
  match fwd_hooks with
  | [] => ret tt
  | (ByName name, hook) :: rest =>
      (mod_dict_add_hook name hook "fwd" false ;;; add_fwd_hooks rest)%py
  | (ByPredicate name, hook) :: rest =>
      (for_hook_dict_items
         (fun hook_name =>
            if name hook_name then HookPoint.add_hook hook "fwd" false
            else ret tt) ;;;
       add_fwd_hooks rest)%py
  end.

(** [for hook_name, hp in self.hook_dict: if name(hook_name):
    hp.add_hook(hook, dir="bwd")]: iterating the dict itself yields its
    keys, each key is unpacked into the two loop variables, and [hp] is then
    a [str], which has no [add_hook]. *)
Fixpoint for_keys_bwd (name : string -> bool) (ks : list string) : result unit :=
  match ks with
  | [] => Ok tt
  | key :: rest =>
      match unpack2 key with
      | Ok (hook_name, hp) =>
          if name hook_name then Raise (AttributeError "add_hook")
          else for_keys_bwd name rest
      | Raise e => Raise e
      end
  end.

(** The loop over [bwd_hooks]. *)
Fixpoint add_bwd_hooks (bwd_hooks : list (target * hook_fn)) : M t unit :=
  match bwd_hooks with
  | [] => ret tt
  | (ByName name, hook) :: rest =>
      (mod_dict_add_hook name hook "bwd" false ;;; add_bwd_hooks rest)%py
  | (ByPredicate name, hook) :: rest =>
      (d <- hook_dict ;;
       match for_keys_bwd name (map fst d) with
       | Ok _ => add_bwd_hooks rest
       | Raise e => raise e
       end)%py
  end.

Definition run_with_hooks (model_args : Tensor)
  (fwd_hooks bwd_hooks : list (target * hook_fn))
  (reset_hooks_end clear_ctx : bool) : M t Tensor :=
  try_finally
    (add_fwd_hooks fwd_hooks ;;; add_bwd_hooks bwd_hooks ;;; forward model_args)%py
    (if reset_hooks_end then reset_hooks clear_ctx "both" false else ret tt).

(** *** Caching *)

(** The first lines of [add_caching_hooks]: the device to store on. *)
Definition resolve_device (device : option string) : M t string :=
  fun self =>
    match device with
    | Some d => (Ok d, self)
    | None =>
        match cfg self with
        | None => (Raise (AttributeError "cfg"), self)
        | Some (Some d) => (Ok d, self)
        | Some None =>
            (Ok (if cuda_is_available self then "cuda" else "cpu"), self)
        end
    end.

(** [cache = {}] *)
Definition new_dict : M t nat :=
  fun self =>
    let '(r, h) := heap_alloc (heap self) in (r, set_heap h self).

(** The rebinding of the local [names_filter] by the [if]/[elif] chain. *)
Definition rebind (names_filter : pyvalue) : pyvalue :=
  match names_filter with
  | PyNone => PyLambda BodyTrue
  | PyStr _ => PyLambda BodyEqNamesFilter
  | PyList _ => PyLambda BodyInNamesFilter
  | other => other
  end.

(** The two closures over [cache], [device] and [remove_batch_dim].  The
    right-hand side of the assignment is evaluated before the key. *)
Definition save_hook (cache : nat) (dev : string) (remove_batch_dim : bool)
  : hook_fn :=
  fun tensor hook_name h =>
    if remove_batch_dim then
      match index0 (to dev (detach tensor)) with
      | Ok v => (Ok None, heap_store cache hook_name v h)
      | Raise e => (Raise e, h)
      end
    else (Ok None, heap_store cache hook_name (to dev (detach tensor)) h).

Definition grad_key (hook_name : option string) : result (option string) :=
  match hook_name with
  | Some n => Ok (Some (n ++ "_grad")%string)
  | None =>
      Raise (TypeError "unsupported operand type(s) for +: 'NoneType' and 'str'")
  end.

Definition save_hook_back (cache : nat) (dev : string) (remove_batch_dim : bool)
  : hook_fn :=
  fun tensor hook_name h =>
    match (if remove_batch_dim then index0 (to dev (detach tensor))
           else Ok (to dev (detach tensor))) with
    | Ok v =>
        match grad_key hook_name with
        | Ok k => (Ok None, heap_store cache k v h)
        | Raise e => (Raise e, h)
        end
    | Raise e => (Raise e, h)
    end.

Definition add_caching_hooks (names_filter : pyvalue) (incl_bwd : bool)
  (device : option string) (remove_batch_dim : bool) (cache : option nat)
  : M t nat :=
  (dev <- resolve_device device ;;
   cache' <- match cache with
             | None => new_dict
             | Some c => ret c
             end ;;
   let names_filter' := rebind names_filter in
   (fun self => (Ok tt, set_is_caching true self)) ;;;
   for_hook_dict_items
     (fun name =>
        match py_call names_filter' names_filter' name with
        | Ok true =>
            HookPoint.add_hook (save_hook cache' dev remove_batch_dim) "fwd" false ;;;
            (if incl_bwd then
               HookPoint.add_hook (save_hook_back cache' dev remove_batch_dim)
                 "bwd" false
             else ret tt)
        | Ok false => ret tt
        | Raise e => raise e
        end) ;;;
   ret cache')%py.

Definition run_with_cache (model_args : Tensor) (names_filter : pyvalue)
  (device : option string) (remove_batch_dim incl_bwd : bool)
  (reset_hooks_end clear_ctx : bool) : M t (Tensor * nat) :=
  (cache_dict <- add_caching_hooks names_filter incl_bwd device
                   remove_batch_dim None ;;
   model_out <- forward model_args ;;
   (if incl_bwd then backward model_out else ret tt) ;;;
   (if reset_hooks_end then reset_hooks clear_ctx "both" false else ret tt) ;;;
   ret (model_out, cache_dict))%py.

Definition cache_all (cache : option nat) (incl_bwd : bool)
  (device : option string) (remove_batch_dim : bool) : M t unit :=
  (add_caching_hooks (PyFunction (fun _ => true)) incl_bwd device
     remove_batch_dim cache ;;;
   ret tt)%py.

Definition cache_some (cache : option nat) (names : string -> bool)
  (incl_bwd : bool) (device : option string) (remove_batch_dim : bool)
  : M t unit :=
  (add_caching_hooks (PyFunction names) incl_bwd device remove_batch_dim cache ;;;
   ret tt)%py.

End HookedRootModule.

(** * Vocabulary of the statements *)

(** Whether a direction argument reaches the forward list, the backward
    list. *)
Definition selects_fwd (dir : string) : bool :=
  String.eqb dir "fwd" || String.eqb dir "both".

Definition selects_bwd (dir : string) : bool :=
  String.eqb dir "bwd" || String.eqb dir "both".

(** The handles a removal keeps. *)
Definition kept (including_permanent : bool) (handles : list LensHandle)
  : list LensHandle :=
  filter (fun h => is_permanent h && negb including_permanent) handles.

(** The handles of a list that are permanent. *)
Definition permanent (handles : list LensHandle) : list LensHandle :=
  filter is_permanent handles.


(** The nodes of the registry: the items of [hook_dict], none while the dict
    does not exist. *)
Definition nodes (w : HookedRootModule.t) : list (string * HookPoint.t) :=
  match fst (HookedRootModule.hook_dict w) with
  | Ok d => d
  | Raise _ => []
  end.

(** All hook points of the module tree, in [hook_dict] or not yet. *)
Definition all_hook_points (w : HookedRootModule.t) : list (string * HookPoint.t) :=
  HookedRootModule.hook_points_of (HookedRootModule.named_modules w).

(** The error classes of the interface, as the exceptions the code raises.
    A hook API used before [setup] fails on the missing dict attribute. *)
Definition NotInitialized (e : exn) : Prop :=
  e = AttributeError "mod_dict" \/ e = AttributeError "hook_dict".

(** What [layer] raises on a name that does not parse: no [split] on [None],
    no second segment, a second segment [int] rejects. *)
Definition MalformedName (e : exn) : Prop :=
  e = AttributeError "split"
  \/ e = IndexError "list index out of range"
  \/ e = ValueError "invalid literal for int() with base 10".

(** Two store entries are the same object, with hook points related by [R]. *)
Definition entry_rel (R : HookPoint.t -> HookPoint.t -> Prop)
  (a b : string * HookedRootModule.nn_module) : Prop :=
  fst a = fst b /\
  match snd a, snd b with
  | HookedRootModule.IsHookPoint x, HookedRootModule.IsHookPoint y => R x y
  | HookedRootModule.IsRootModule, HookedRootModule.IsRootModule => True
  | HookedRootModule.IsOther, HookedRootModule.IsOther => True
  | _, _ => False
  end.





(** *** Example data *)

(** A hook that observes and changes nothing. *)
Definition noop : hook_fn := fun _ _ h => (Ok None, h).

(** A hook point with one temporary forward hook, one permanent forward hook
    and one temporary backward hook. *)
Definition example_node : HookPoint.state :=
  snd (HookPoint.add_hook noop "bwd" false
         (snd (HookPoint.add_hook noop "fwd" true
                 (snd (HookPoint.add_hook noop "fwd" false
                         (0, HookPoint.__init__)))))).

(** A model with the hook points [a], [b] and [c] and a linear layer, before
    and after [setup]. *)
Definition example_tree : list (string * HookedRootModule.nn_module) :=
  [("", HookedRootModule.IsRootModule);
   ("a", HookedRootModule.IsHookPoint HookPoint.__init__);
   ("linear", HookedRootModule.IsOther);
   ("b", HookedRootModule.IsHookPoint HookPoint.__init__);
   ("c", HookedRootModule.IsHookPoint HookPoint.__init__)].

Definition example_ops : list HookedRootModule.op :=
  [HookedRootModule.Through "a";
   HookedRootModule.Apply (fun t => Ok t) (fun g => g);
   HookedRootModule.Through "b";
   HookedRootModule.Through "c"].

Definition fresh_model : HookedRootModule.t :=
  HookedRootModule.__init__ example_tree None example_ops 0 [] false.

Definition example_model : HookedRootModule.t :=
  snd (HookedRootModule.setup fresh_model).

Definition example_input : Tensor :=
  {| device := "cpu"; values := Stack [Scalar 5%Z; Scalar 7%Z] |}.

(** The example model with a permanent backward hook on [b] and a temporary
    forward hook on every hook point, registered by hand. *)
Definition hooked_model : HookedRootModule.t :=
  snd (HookedRootModule.add_hook (ByPredicate (fun _ => true)) noop "fwd" false
         (snd (HookedRootModule.add_perma_hook (ByName "b") noop "bwd"
                 example_model))).

(** The example model after [add_caching_hooks] with a function as filter. *)
Definition caching_model : HookedRootModule.t :=
  snd (HookedRootModule.add_caching_hooks (PyFunction (fun _ => true)) false
         (Some "cpu") false None example_model).

(** A hook point without any hook, in the lists and in torch's dicts. *)
Definition no_hooks (hp : HookPoint.t) : Prop :=
  HookPoint.fwd_hooks hp = [] /\ HookPoint.bwd_hooks hp = []
  /\ HookPoint._forward_hooks hp = [] /\ HookPoint._backward_hooks hp = [].

(** What a removal leaves of a list of handles: all of it when the direction
    does not select the list, nothing when permanent hooks are included, the
    permanent handles otherwise. *)
Definition remaining (selected including_permanent : bool)
  (handles : list LensHandle) : list LensHandle :=
  if selected then (if including_permanent then [] else permanent handles)
  else handles.

(** Two states of a hook point with the same permanent bindings. *)
Definition same_permanent (before after : HookPoint.t) : Prop :=
  permanent (HookPoint.fwd_hooks after) = permanent (HookPoint.fwd_hooks before)
  /\ permanent (HookPoint.bwd_hooks after) = permanent (HookPoint.bwd_hooks before).

(** The bindings of a hook point after a removal, from those before. *)
Definition removed_from (dir : string) (including_permanent : bool)
  (before after : HookPoint.t) : Prop :=
  HookPoint.fwd_hooks after =
    remaining (selects_fwd dir) including_permanent (HookPoint.fwd_hooks before)
  /\ HookPoint.bwd_hooks after =
       remaining (selects_bwd dir) including_permanent (HookPoint.bwd_hooks before).

(** A relation between hook points, on named nodes. *)
Definition on_nodes (R : HookPoint.t -> HookPoint.t -> Prop)
  (before after : string * HookPoint.t) : Prop :=
  fst before = fst after /\ R (snd before) (snd after).

(** *** The life of a hook point *)

(** What can happen to a hook point after its creation: the methods that
    change it, and the assignment of its name by [setup].  A call that raises
    leaves the state it reached. *)
Inductive action : Type :=
| ActAddHook (hook : hook_fn) (dir : string) (is_permanent : bool)
| ActRemoveHooks (dir : string) (including_permanent : bool)
| ActSetName (name : option string)
| ActClearContext.

Definition act (st : HookPoint.state) (a : action) : HookPoint.state :=
  match a with
  | ActAddHook h d p => snd (HookPoint.add_hook h d p st)
  | ActRemoveHooks d ip => snd (HookPoint.remove_hooks d ip st)
  | ActSetName n => (fst st, HookPoint.set_name n (snd st))
  | ActClearContext => snd (HookPoint.clear_context st)
  end.

Definition history (acts : list action) (st : HookPoint.state) : HookPoint.state :=
  fold_left act acts st.

(** The forward bindings a sequence of actions leaves, in the order of their
    registration: a forward [add_hook] appends one, a removal that selects
    the forward direction drops the temporary ones, or all of them. *)
Definition bindings_step (bs : list (hook_fn * bool)) (a : action)
  : list (hook_fn * bool) :=
  match a with
  | ActAddHook h d p => if String.eqb d "fwd" then bs ++ [(h, p)] else bs
  | ActRemoveHooks d ip =>
      if selects_fwd d then filter (fun b => snd b && negb ip) bs else bs
  | ActSetName _ => bs
  | ActClearContext => bs
  end.

Definition forward_bindings (acts : list action) : list (hook_fn * bool) :=
  fold_left bindings_step acts [].

(** The pass-through of the interface: each hook in turn receives the current
    value and the node; a result that is not [None] becomes the current
    value; the last current value is returned. *)
Fixpoint thread (hooks : list hook_fn) (node : option string) (v : Tensor)
  : M Heap Tensor :=
  match hooks with
  | [] => ret v
  | h :: rest =>
      (r <- h v node ;;
       thread rest node (match r with Some v' => v' | None => v end))%py
  end.

(** A forward binding with the id of its handle. *)
Record binding : Type := { b_id : nat; b_hook : hook_fn; b_permanent : bool }.

Definition handle_of (b : binding) : LensHandle :=
  {| hook := {| hooks_dict_ref := ForwardHooks; id := b_id b |};
     is_permanent := b_permanent b |}.

Definition entry_of (b : binding) : nat * torch_hook :=
  (b_id b, HookPoint.full_hook_fwd (b_hook b)).

(** The list [fwd_hooks] and torch's [_forward_hooks] are in step: they hold
    the same bindings in the same order, under ids that are distinct and
    already used up; the handles in [bwd_hooks] point into the other dict. *)
Definition in_step (st : HookPoint.state) (bs : list binding) : Prop :=
  HookPoint.fwd_hooks (snd st) = map handle_of bs
  /\ HookPoint._forward_hooks (snd st) = map entry_of bs
  /\ NoDup (map b_id bs)
  /\ Forall (fun b => b_id b < fst st) bs
  /\ Forall (fun h => hooks_dict_ref (hook h) = BackwardHooks)
       (HookPoint.bwd_hooks (snd st)).

Definition keeps (including_permanent : bool) (b : binding) : bool :=
  b_permanent b && negb including_permanent.

Definition plain (b : binding) : hook_fn * bool := (b_hook b, b_permanent b).

(** *** Names that carry a layer index *)

(** Digits in groups: one or more digits, where two digits may be separated
    by one underscore. *)
Inductive digit_groups : list ascii -> Prop :=
| dg_last (c : ascii) : is_digit c = true -> digit_groups [c]
| dg_next (c : ascii) (cs : list ascii) :
    is_digit c = true -> digit_groups cs -> digit_groups (c :: cs)
| dg_sep (c : ascii) (cs : list ascii) :
    is_digit c = true -> digit_groups cs -> digit_groups (c :: "_"%char :: cs).

(** A numeric segment: the text of a decimal integer, that is digits in
    groups, with an optional sign in front and optional white space around.
    ["3"], ["12"], ["-3"], ["1_000"] and [" 7"] are numeric; [""], ["x"],
    ["3a"], ["1__0"] and ["- 3"] are not. *)
Definition numeric (segment : string) : Prop :=
  exists left sign body right,
    list_ascii_of_string segment = left ++ sign ++ body ++ right
    /\ Forall (fun c => is_space c = true) left
    /\ Forall (fun c => is_space c = true) right
    /\ (sign = [] \/ sign = ["+"%char] \/ sign = ["-"%char])
    /\ digit_groups body.

(** The convention ["<prefix>.<layer>.<rest>"]: two or more segments
    between dots, the second of them numeric. *)
Definition follows_convention (name : string) : Prop :=
  exists prefix layer rest,
    split_dot name = prefix :: layer :: rest /\ numeric layer.

(** A hook point as [setup] names it. *)
Definition named (n : string) : HookPoint.t :=
  HookPoint.set_name (Some n) HookPoint.__init__.

(** The keys of a cache of the heap. *)
Definition cache_keys (w : HookedRootModule.t) (cache : nat) : list (option string) :=
  map fst (nth cache (HookedRootModule.heap w) []).

(** How many forward and backward bindings each node of the registry has. *)
Definition binding_counts (w : HookedRootModule.t) : list (string * nat * nat) :=
  map (fun e => (fst e, List.length (HookPoint.fwd_hooks (snd e)),
                 List.length (HookPoint.bwd_hooks (snd e))))
      (nodes w).

Definition only_predicates (hooks : list (target * hook_fn)) : Prop :=
  Forall (fun pair => match fst pair with
                      | ByPredicate _ => True
                      | ByName _ => False
                      end) hooks.

(** A hook that replaces the value by a scalar. *)
Definition replace_with (z : Z) : hook_fn :=
  fun t _ h => (Ok (Some {| device := device t; values := Scalar z |}), h).

(** The example model with a forward pass that fails after the hook point
    [a]. *)
Definition failing_model : HookedRootModule.t :=
  snd (HookedRootModule.setup
         (HookedRootModule.__init__ example_tree None
            [HookedRootModule.Through "a";
             HookedRootModule.Apply
               (fun _ => Raise (RuntimeError "shape mismatch")) (fun g => g);
             HookedRootModule.Through "b"]
            0 [] false)).

(** *** Vocabulary of the further properties *)

(** A handle that a removal with these arguments keeps. *)
Definition is_kept (including_permanent : bool) (h : LensHandle) : Prop :=
  is_permanent h && negb including_permanent = true.

(** Two states of a hook point with the same bindings, in the lists and in
    torch's dicts. *)
Definition same_hooks (before after : HookPoint.t) : Prop :=
  HookPoint.fwd_hooks after = HookPoint.fwd_hooks before
  /\ HookPoint.bwd_hooks after = HookPoint.bwd_hooks before
  /\ HookPoint._forward_hooks after = HookPoint._forward_hooks before
  /\ HookPoint._backward_hooks after = HookPoint._backward_hooks before.

(** The hook point [after] is [before] with one more binding in direction
    [dir], of the given permanence, at the end of the list. *)
Definition gained (dir : string) (is_perm : bool) (before after : HookPoint.t)
  : Prop :=
  HookPoint.name after = HookPoint.name before
  /\ HookPoint.ctx after = HookPoint.ctx before
  /\ exists handle,
      is_permanent handle = is_perm
      /\ ((dir = "fwd"
           /\ HookPoint.fwd_hooks after = HookPoint.fwd_hooks before ++ [handle]
           /\ HookPoint.bwd_hooks after = HookPoint.bwd_hooks before)
          \/ (dir = "bwd"
              /\ HookPoint.bwd_hooks after = HookPoint.bwd_hooks before ++ [handle]
              /\ HookPoint.fwd_hooks after = HookPoint.fwd_hooks before)).

(** A relation between the nodes before and after that may depend on the
    node's key. *)
Definition on_keyed_nodes (R : string -> HookPoint.t -> HookPoint.t -> Prop)
  (before after : string * HookPoint.t) : Prop :=
  fst before = fst after /\ R (fst before) (snd before) (snd after).

(** The permanent bindings of every hook point of the tree are those of
    before. *)
Definition permanent_kept (w w' : HookedRootModule.t) : Prop :=
  Forall2 (on_nodes same_permanent) (all_hook_points w) (all_hook_points w').

(** A name without a dot. *)
Fixpoint dotless (s : string) : bool :=
  match s with
  | EmptyString => true
  | String c rest => negb (is_dot c) && dotless rest
  end.

(** What [layer] makes of a second segment. *)
Definition layer_of_segment (segment : string) : result Z :=
  match py_int segment with
  | Some z => Ok z
  | None => Raise (ValueError "invalid literal for int() with base 10")
  end.

(** What the operations that only register or run hooks leave alone: the
    existence of the two dicts and the permanent bindings. *)
Definition frame (w w' : HookedRootModule.t) : Prop :=
  HookedRootModule.has_dicts w' = HookedRootModule.has_dicts w
  /\ permanent_kept w w'.

Definition same_caching (w w' : HookedRootModule.t) : Prop :=
  HookedRootModule.is_caching w' = HookedRootModule.is_caching w.

(** What a node gains from [add_caching_hooks]: a temporary forward hook,
    and after it a temporary backward hook when gradients are included. *)
Definition caching_gain (incl_bwd : bool) (before after : HookPoint.t) : Prop :=
  if incl_bwd then
    exists mid, gained "fwd" false before mid /\ gained "bwd" false mid after
  else gained "fwd" false before after.

(** The filter [names_filter] stands for the names [accepts] accepts: that
    is what calling the rebound filter gives. *)
Definition filter_accepts (names_filter : pyvalue) (accepts : string -> bool)
  : Prop :=
  forall k,
    py_call (HookedRootModule.rebind names_filter)
      (HookedRootModule.rebind names_filter) k = Ok (accepts k).

(** The body of the loop of [add_caching_hooks], for one name. *)
Definition caching_body (names_filter : pyvalue) (cache : nat) (dev : string)
  (remove_batch_dim incl_bwd : bool) (name : string)
  : M HookPoint.state unit :=
  match py_call (HookedRootModule.rebind names_filter)
          (HookedRootModule.rebind names_filter) name with
  | Ok true =>
      (HookPoint.add_hook (HookedRootModule.save_hook cache dev remove_batch_dim)
         "fwd" false ;;;
       (if incl_bwd
        then HookPoint.add_hook
               (HookedRootModule.save_hook_back cache dev remove_batch_dim)
               "bwd" false
        else ret tt))%py
  | Ok false => ret tt
  | Raise e => raise e
  end.



(** A registry whose hook points carry their path as name and no forward
    hook, as after [setup] on a fresh model. *)
Definition unhooked (w : HookedRootModule.t) : Prop :=
  Forall (fun e => HookPoint.name (snd e) = Some (fst e)
                   /\ HookPoint._forward_hooks (snd e) = [])
    (all_hook_points w).



(** Whether the first component of a [(name, hook)] pair of [run_with_hooks]
    selects the hook point at [path]. *)
Definition target_selects (t : target) (path : string) : bool :=
  match t with
  | ByName n => String.eqb n path
  | ByPredicate p => p path
  end.

(** The hooks of the pairs that select [path], in the order of the list. *)
Definition hooks_at (hooks : list (target * hook_fn)) (path : string)
  : list hook_fn :=
  map snd (filter (fun e => target_selects (fst e) path) hooks).

(** A [str] among the targets is the path of a hook point. *)
Definition names_hook_point (ms : list (string * HookedRootModule.nn_module))
  (t : target) : Prop :=
  match t with
  | ByName n =>
      match HookedRootModule.find_module n ms with
      | Some (HookedRootModule.IsHookPoint _) => True
      | _ => False
      end
  | ByPredicate _ => True
  end.

(** A target that is a [str], the path of a hook point. *)
Definition is_hook_point_name (ms : list (string * HookedRootModule.nn_module))
  (t : target) : Prop :=
  match t with
  | ByName n =>
      match HookedRootModule.find_module n ms with
      | Some (HookedRootModule.IsHookPoint _) => True
      | _ => False
      end
  | ByPredicate _ => False
  end.

(** The forward pass in which the hook point at each path applies the
    hooks [hooks_of] gives for that path. *)
Fixpoint hooked_pass (hooks_of : string -> list hook_fn)
  (ops : list HookedRootModule.op)
  (ms : list (string * HookedRootModule.nn_module)) (x : Tensor)
  : M Heap Tensor :=
  match ops with
  | [] => ret x
  | HookedRootModule.Apply f _ :: rest =>
      match f x with
      | Ok y => hooked_pass hooks_of rest ms y
      | Raise e => raise e
      end
  | HookedRootModule.Through path :: rest =>
      match HookedRootModule.find_module path ms with
      | Some (HookedRootModule.IsHookPoint _) =>
          (y <- thread (hooks_of path) (Some path) x ;;
           hooked_pass hooks_of rest ms y)%py
      | _ => raise (AttributeError path)
      end
  end.

(** The store [ms1] is [ms] with, at each hook point, the forward hooks
    [hooks_of] gives for its path, under ids below [bound]. *)
Definition hooked_as (hooks_of : string -> list hook_fn) (bound : nat)
  (ms ms1 : list (string * HookedRootModule.nn_module)) : Prop :=
  forall path,
    match HookedRootModule.find_module path ms with
    | Some (HookedRootModule.IsHookPoint _) =>
        exists hp',
          HookedRootModule.find_module path ms1
          = Some (HookedRootModule.IsHookPoint hp')
          /\ HookPoint.name hp' = Some path
          /\ map snd (HookPoint._forward_hooks hp')
             = map HookPoint.full_hook_fwd (hooks_of path)
          /\ Forall (fun e => fst e < bound) (HookPoint._forward_hooks hp')
    | other => HookedRootModule.find_module path ms1 = other
    end.

(** The store [ms2] is [ms1] after one forward hook was registered, with an
    id between [next] and [next'], on the hook points [sel] selects. *)
Definition adds (sel : string -> bool) (hook : hook_fn) (next next' : nat)
  (ms1 ms2 : list (string * HookedRootModule.nn_module)) : Prop :=
  next <= next'
  /\ forall path,
      match HookedRootModule.find_module path ms1 with
      | Some (HookedRootModule.IsHookPoint hp) =>
          exists hp',
            HookedRootModule.find_module path ms2
            = Some (HookedRootModule.IsHookPoint hp')
            /\ HookPoint.name hp' = HookPoint.name hp
            /\ (if sel path
                then exists n,
                    next <= n /\ n < next'
                    /\ HookPoint._forward_hooks hp'
                       = dict_set Nat.eqb n (HookPoint.full_hook_fwd hook)
                           (HookPoint._forward_hooks hp)
                else HookPoint._forward_hooks hp' = HookPoint._forward_hooks hp)
      | other => HookedRootModule.find_module path ms2 = other
      end.







(** * Properties *)

(** ** Hook points: removal *)

Section Removal.

Lemma _remove_hooks_kept (ip : bool) (handles : list LensHandle) :
  forall self, fst (HookPoint._remove_hooks ip handles self) = kept ip handles.
Proof.
  induction handles as [|h rest IH]; intro self; simpl; [reflexivity|].
  destruct (is_permanent h), ip; simpl; rewrite ?IH; try reflexivity.
  specialize (IH self).
  destruct (HookPoint._remove_hooks false rest self) as [out self'].
  simpl in *. now rewrite IH.
Qed.

(** Taking handles out touches torch's two dicts only. *)
Lemma _remove_hooks_frame (ip : bool) (handles : list LensHandle) :
  forall self,
    let self' := snd (HookPoint._remove_hooks ip handles self) in
    HookPoint.name self' = HookPoint.name self
    /\ HookPoint.fwd_hooks self' = HookPoint.fwd_hooks self
    /\ HookPoint.bwd_hooks self' = HookPoint.bwd_hooks self
    /\ HookPoint.ctx self' = HookPoint.ctx self.
Proof.
  induction handles as [|h rest IH]; intro self; simpl; [tauto|].
  destruct (negb (is_permanent h) || ip).
  - specialize (IH (HookPoint.remove (hook h) self)). simpl in IH.
    unfold HookPoint.remove in *.
    destruct (hooks_dict_ref (hook h)); simpl in IH; exact IH.
  - specialize (IH self).
    destruct (HookPoint._remove_hooks ip rest self) as [out self'].
    exact IH.
Qed.

Variables (dir : string) (ip : bool) (next : nat) (self : HookPoint.t).

Local Abbreviation after := (snd (snd (HookPoint.remove_hooks dir ip (next, self)))).

Lemma remove_hooks_outcome :
  fst (HookPoint.remove_hooks dir ip (next, self)) =
    if HookPoint.valid_dir dir then Ok tt
    else Raise (ValueError ("Invalid direction " ++ dir)%string).
Proof.
  unfold HookPoint.remove_hooks.
  destruct (HookPoint.valid_dir dir); reflexivity.
Qed.

Lemma remove_hooks_next_id :
  fst (snd (HookPoint.remove_hooks dir ip (next, self))) = next.
Proof.
  unfold HookPoint.remove_hooks.
  destruct (HookPoint.valid_dir dir); reflexivity.
Qed.

Lemma remove_hooks_fwd :
  HookPoint.fwd_hooks after =
    if selects_fwd dir then kept ip (HookPoint.fwd_hooks self)
    else HookPoint.fwd_hooks self.
Proof.
  unfold HookPoint.remove_hooks, selects_fwd.
  pose proof (_remove_hooks_kept ip (HookPoint.fwd_hooks self) self) as K.
  pose proof (_remove_hooks_frame ip (HookPoint.fwd_hooks self) self) as F.
  destruct (HookPoint._remove_hooks ip (HookPoint.fwd_hooks self) self)
    as [k1 s1]. simpl in K, F.
  set (self1 := if (dir =? "fwd")%string || (dir =? "both")%string
                then HookPoint.set_fwd_hooks k1 s1 else self).
  pose proof (_remove_hooks_frame ip (HookPoint.bwd_hooks self1) self1) as F2.
  destruct (HookPoint._remove_hooks ip (HookPoint.bwd_hooks self1) self1)
    as [k2 s2]. simpl in F2.
  assert (E : HookPoint.fwd_hooks self1 =
              if (dir =? "fwd")%string || (dir =? "both")%string
              then kept ip (HookPoint.fwd_hooks self)
              else HookPoint.fwd_hooks self).
  { subst self1. destruct ((dir =? "fwd")%string || (dir =? "both")%string);
      simpl; congruence. }
  destruct (negb (HookPoint.valid_dir dir)); simpl;
    destruct ((dir =? "bwd")%string || (dir =? "both")%string); simpl;
    try exact E; rewrite <- E; tauto.
Qed.

Lemma remove_hooks_bwd :
  HookPoint.bwd_hooks after =
    if selects_bwd dir then kept ip (HookPoint.bwd_hooks self)
    else HookPoint.bwd_hooks self.
Proof.
  unfold HookPoint.remove_hooks, selects_bwd.
  pose proof (_remove_hooks_frame ip (HookPoint.fwd_hooks self) self) as F.
  destruct (HookPoint._remove_hooks ip (HookPoint.fwd_hooks self) self)
    as [k1 s1]. simpl in F.
  set (self1 := if (dir =? "fwd")%string || (dir =? "both")%string
                then HookPoint.set_fwd_hooks k1 s1 else self).
  assert (E : HookPoint.bwd_hooks self1 = HookPoint.bwd_hooks self).
  { subst self1. destruct ((dir =? "fwd")%string || (dir =? "both")%string);
      simpl; tauto. }
  pose proof (_remove_hooks_kept ip (HookPoint.bwd_hooks self1) self1) as K2.
  destruct (HookPoint._remove_hooks ip (HookPoint.bwd_hooks self1) self1)
    as [k2 s2]. simpl in K2.
  destruct (negb (HookPoint.valid_dir dir)); simpl;
    destruct ((dir =? "bwd")%string || (dir =? "both")%string); simpl;
    congruence.
Qed.

Lemma remove_hooks_name : HookPoint.name after = HookPoint.name self.
Proof.
  unfold HookPoint.remove_hooks.
  pose proof (_remove_hooks_frame ip (HookPoint.fwd_hooks self) self) as F.
  destruct (HookPoint._remove_hooks ip (HookPoint.fwd_hooks self) self)
    as [k1 s1]. simpl in F.
  set (self1 := if (dir =? "fwd")%string || (dir =? "both")%string
                then HookPoint.set_fwd_hooks k1 s1 else self).
  assert (E : HookPoint.name self1 = HookPoint.name self).
  { subst self1. destruct ((dir =? "fwd")%string || (dir =? "both")%string);
      simpl; tauto. }
  pose proof (_remove_hooks_frame ip (HookPoint.bwd_hooks self1) self1) as F2.
  destruct (HookPoint._remove_hooks ip (HookPoint.bwd_hooks self1) self1)
    as [k2 s2]. simpl in F2.
  destruct (negb (HookPoint.valid_dir dir)); simpl;
    destruct ((dir =? "bwd")%string || (dir =? "both")%string); simpl;
    try exact E; rewrite <- E; tauto.
Qed.

(** With a direction that is none of the three, the two tests fail and the
    hook point is the one the call received. *)
Lemma remove_hooks_invalid :
  HookPoint.valid_dir dir = false ->
  HookPoint.remove_hooks dir ip (next, self) =
    (Raise (ValueError ("Invalid direction " ++ dir)%string), (next, self)).
Proof.
  intro Hv. unfold HookPoint.remove_hooks.
  rewrite Hv. unfold HookPoint.valid_dir in Hv.
  destruct (String.eqb dir "fwd"), (String.eqb dir "bwd"),
    (String.eqb dir "both"); simpl in Hv; try discriminate.
  reflexivity.
Qed.

End Removal.

(** ** Sequencing *)

Lemma bind_Ok_inv {S A B : Type} (m : M S A) (k : A -> M S B) (s s' : S) (b : B) :
  bind m k s = (Ok b, s') ->
  exists a s1, m s = (Ok a, s1) /\ k a s1 = (Ok b, s').
Proof.
  unfold bind. destruct (m s) as [[a|e] s1]; intro H.
  - now exists a, s1.
  - discriminate.
Qed.

(** ** Loops over the items of [hook_dict] *)

Lemma entry_rel_same (R : HookPoint.t -> HookPoint.t -> Prop) :
  (forall hp, R hp hp) -> forall l, Forall2 (entry_rel R) l l.
Proof.
  intros Hrefl l. induction l as [|[k m] l IHl]; constructor; [|exact IHl].
  split; [reflexivity|]. destruct m; simpl; auto.
Qed.

Section ForItems.

Variable body : string -> M HookPoint.state unit.

(** A relation every run of the body keeps, and every untouched hook point
    satisfies, holds between the store before and after the loop. *)
Lemma for_items_rel (R : HookPoint.t -> HookPoint.t -> Prop) :
  (forall hp, R hp hp) ->
  (forall k c hp, R hp (snd (snd (body k (c, hp))))) ->
  forall ms c,
    Forall2 (entry_rel R) ms (snd (snd (HookedRootModule.for_items body ms c))).
Proof.
  intros Hrefl Hbody.
  pose proof (entry_rel_same R Hrefl) as Hsame.
  induction ms as [|[k m] rest IH]; intro c; simpl; [constructor|].
  destruct m as [hp| |].
  - pose proof (Hbody k c hp) as Hb.
    destruct (body k (c, hp)) as [[u|e] [c' hp']]; simpl in Hb.
    + specialize (IH c').
      destruct (HookedRootModule.for_items body rest c') as [r [c'' rest']].
      simpl in *. constructor; [split; [reflexivity|exact Hb]|exact IH].
    + simpl. constructor; [split; [reflexivity|exact Hb]|apply Hsame].
  - specialize (IH c).
    destruct (HookedRootModule.for_items body rest c) as [r [c' rest']].
    simpl in *. constructor; [split; [reflexivity|exact I]|exact IH].
  - specialize (IH c).
    destruct (HookedRootModule.for_items body rest c) as [r [c' rest']].
    simpl in *. constructor; [split; [reflexivity|exact I]|exact IH].
Qed.

(** A body that always returns and establishes [P] makes the loop return
    with [P] on every hook point. *)
Lemma for_items_post (P : HookPoint.t -> Prop) :
  (forall k c hp, fst (body k (c, hp)) = Ok tt /\ P (snd (snd (body k (c, hp))))) ->
  forall ms c,
    fst (HookedRootModule.for_items body ms c) = Ok tt
    /\ Forall (fun e => P (snd e))
         (HookedRootModule.hook_points_of
            (snd (snd (HookedRootModule.for_items body ms c)))).
Proof.
  intro Hbody.
  induction ms as [|[k m] rest IH]; intro c; simpl; [split; [reflexivity|constructor]|].
  destruct m as [hp| |].
  - destruct (Hbody k c hp) as [Hr Hp].
    destruct (body k (c, hp)) as [[u|e] [c' hp']]; simpl in Hr, Hp;
      [|discriminate].
    specialize (IH c').
    destruct (HookedRootModule.for_items body rest c') as [r [c'' rest']].
    simpl in *. destruct IH as [IH1 IH2].
    split; [exact IH1|constructor; [exact Hp|exact IH2]].
  - specialize (IH c).
    destruct (HookedRootModule.for_items body rest c) as [r [c' rest']].
    exact IH.
  - specialize (IH c).
    destruct (HookedRootModule.for_items body rest c) as [r [c' rest']].
    exact IH.
Qed.

End ForItems.

Lemma hook_points_of_rel (R : HookPoint.t -> HookPoint.t -> Prop) ms ms' :
  Forall2 (entry_rel R) ms ms' ->
  Forall2 (fun a b => fst a = fst b /\ R (snd a) (snd b))
    (HookedRootModule.hook_points_of ms) (HookedRootModule.hook_points_of ms').
Proof.
  induction 1 as [|[k m] [k' m'] l l' [Hk Hm] _ IH]; simpl; [constructor|].
  simpl in Hk, Hm. subst k'.
  destruct m, m'; simpl; try contradiction; try exact IH.
  constructor; [split; [reflexivity|exact Hm]|exact IH].
Qed.

Lemma for_hook_dict_items_has_dicts body w :
  HookedRootModule.has_dicts (snd (HookedRootModule.for_hook_dict_items body w)) =
    HookedRootModule.has_dicts w.
Proof.
  unfold HookedRootModule.for_hook_dict_items.
  destruct (HookedRootModule.has_dicts w) eqn:E; [|exact E].
  destruct (HookedRootModule.for_items body _ _) as [r [c ms]]. exact E.
Qed.

Lemma for_hook_dict_items_is_caching body w :
  HookedRootModule.is_caching (snd (HookedRootModule.for_hook_dict_items body w)) =
    HookedRootModule.is_caching w.
Proof.
  unfold HookedRootModule.for_hook_dict_items.
  destruct (HookedRootModule.has_dicts w); [|reflexivity].
  now destruct (HookedRootModule.for_items body _ _) as [r [c ms]].
Qed.

Lemma for_hook_dict_items_rel body (R : HookPoint.t -> HookPoint.t -> Prop) w :
  (forall hp, R hp hp) ->
  (forall k c hp, R hp (snd (snd (body k (c, hp))))) ->
  Forall2 (fun a b => fst a = fst b /\ R (snd a) (snd b))
    (all_hook_points w)
    (all_hook_points (snd (HookedRootModule.for_hook_dict_items body w))).
Proof.
  intros Hrefl Hbody. unfold all_hook_points. apply hook_points_of_rel.
  unfold HookedRootModule.for_hook_dict_items.
  destruct (HookedRootModule.has_dicts w).
  - pose proof (for_items_rel body R Hrefl Hbody
                  (HookedRootModule.named_modules w) (HookedRootModule.next_id w)) as H.
    destruct (HookedRootModule.for_items body _ _) as [r [c ms]]. exact H.
  - simpl. now apply entry_rel_same.
Qed.

Lemma for_hook_dict_items_post body (P : HookPoint.t -> Prop) w :
  HookedRootModule.has_dicts w = true ->
  (forall k c hp, fst (body k (c, hp)) = Ok tt /\ P (snd (snd (body k (c, hp))))) ->
  fst (HookedRootModule.for_hook_dict_items body w) = Ok tt
  /\ Forall (fun e => P (snd e))
       (all_hook_points (snd (HookedRootModule.for_hook_dict_items body w))).
Proof.
  intros Hd Hbody. unfold all_hook_points, HookedRootModule.for_hook_dict_items.
  rewrite Hd.
  pose proof (for_items_post body P Hbody
                (HookedRootModule.named_modules w) (HookedRootModule.next_id w)) as H.
  destruct (HookedRootModule.for_items body _ _) as [r [c ms]]. exact H.
Qed.

(** ** Resetting the registry *)

Lemma nodes_eq w :
  nodes w = if HookedRootModule.has_dicts w then all_hook_points w else [].
Proof.
  unfold nodes, HookedRootModule.hook_dict, all_hook_points.
  now destruct (HookedRootModule.has_dicts w).
Qed.

Lemma kept_false handles : kept false handles = permanent handles.
Proof.
  unfold kept, permanent. apply filter_ext. intro h. apply andb_true_r.
Qed.

Lemma kept_true handles : kept true handles = [].
Proof.
  unfold kept. induction handles as [|h rest IH]; simpl; [reflexivity|].
  now rewrite andb_false_r.
Qed.




Lemma clear_contexts_returns w :
  HookedRootModule.has_dicts w = true ->
  fst (HookedRootModule.clear_contexts w) = Ok tt.
Proof.
  intro Hd. unfold HookedRootModule.clear_contexts.
  apply (for_hook_dict_items_post (fun _ => HookPoint.clear_context)
           (fun _ => True) w Hd).
  intros k c hp. split; [reflexivity|exact I].
Qed.

(** What [reset_hooks] is made of. *)
Lemma reset_hooks_eq clr dir ip w :
  HookedRootModule.reset_hooks clr dir ip w =
    match (if clr then HookedRootModule.clear_contexts else ret tt) w with
    | (Ok _, w1) =>
        match HookedRootModule.remove_all_hook_fns dir ip w1 with
        | (Ok _, w2) => (Ok tt, HookedRootModule.set_is_caching false w2)
        | (Raise e, w2) => (Raise e, w2)
        end
    | (Raise e, w1) => (Raise e, w1)
    end.
Proof. reflexivity. Qed.

Lemma reset_hooks_has_dicts clr dir ip w :
  HookedRootModule.has_dicts (snd (HookedRootModule.reset_hooks clr dir ip w)) =
    HookedRootModule.has_dicts w.
Proof.
  rewrite reset_hooks_eq.
  assert (H1 : HookedRootModule.has_dicts
                 (snd ((if clr then HookedRootModule.clear_contexts else ret tt) w)) =
               HookedRootModule.has_dicts w).
  { destruct clr; [apply for_hook_dict_items_has_dicts|reflexivity]. }
  destruct ((if clr then HookedRootModule.clear_contexts else ret tt) w)
    as [[u|e] w1]; simpl in H1; [|exact H1].
  pose proof (for_hook_dict_items_has_dicts
                (fun _ => HookPoint.remove_hooks dir ip) w1) as H2.
  fold (HookedRootModule.remove_all_hook_fns dir ip) in H2.
  destruct (HookedRootModule.remove_all_hook_fns dir ip w1) as [[u2|e2] w2];
    simpl in *; congruence.
Qed.


Lemma reset_hooks_is_caching clr dir ip w w' :
  HookedRootModule.reset_hooks clr dir ip w = (Ok tt, w') ->
  HookedRootModule.is_caching w' = false.
Proof.
  rewrite reset_hooks_eq.
  destruct ((if clr then HookedRootModule.clear_contexts else ret tt) w)
    as [[u|e] w1]; [|discriminate].
  destruct (HookedRootModule.remove_all_hook_fns dir ip w1) as [[u2|e2] w2];
    [|discriminate].
  intro H. injection H as <-. reflexivity.
Qed.

Lemma remove_all_hook_fns_is_caching dir ip w :
  HookedRootModule.is_caching (snd (HookedRootModule.remove_all_hook_fns dir ip w)) =
    HookedRootModule.is_caching w.
Proof. apply for_hook_dict_items_is_caching. Qed.

(** ** Permanence *)

Lemma kept_remaining ip handles : kept ip handles = remaining true ip handles.
Proof. destruct ip; [apply kept_true|apply kept_false]. Qed.

Lemma remove_hooks_removed_from dir ip next self :
  removed_from dir ip self (snd (snd (HookPoint.remove_hooks dir ip (next, self)))).
Proof.
  unfold removed_from. rewrite remove_hooks_fwd, remove_hooks_bwd.
  destruct (selects_fwd dir), (selects_bwd dir);
    rewrite ?kept_remaining; split; reflexivity.
Qed.


Lemma same_permanent_refl hp : same_permanent hp hp.
Proof. split; reflexivity. Qed.

Lemma same_permanent_trans a b c :
  same_permanent a b -> same_permanent b c -> same_permanent a c.
Proof. unfold same_permanent. intros [H1 H2] [H3 H4]. split; congruence. Qed.

Lemma Forall2_on_nodes_trans (R1 R2 R3 : HookPoint.t -> HookPoint.t -> Prop) :
  (forall a b c, R1 a b -> R2 b c -> R3 a c) ->
  forall l1 l2 l3,
    Forall2 (on_nodes R1) l1 l2 -> Forall2 (on_nodes R2) l2 l3 ->
    Forall2 (on_nodes R3) l1 l3.
Proof.
  intros Htrans l1 l2 l3 H12. revert l3.
  induction H12 as [|a b l1 l2 [Hk Hr] _ IH]; intros l3 H23;
    inversion H23 as [|b' c l2' l3' [Hk' Hr'] Hrest]; subst; constructor.
  - split; [congruence|eauto].
  - now apply IH.
Qed.

Lemma Forall2_on_nodes_refl (R : HookPoint.t -> HookPoint.t -> Prop) :
  (forall hp, R hp hp) -> forall l, Forall2 (on_nodes R) l l.
Proof.
  intros Hrefl l. induction l; constructor; [now split|assumption].
Qed.


Lemma clear_contexts_same_bindings w :
  Forall2 (on_nodes (fun a b => HookPoint.fwd_hooks b = HookPoint.fwd_hooks a
                                /\ HookPoint.bwd_hooks b = HookPoint.bwd_hooks a))
    (all_hook_points w) (all_hook_points (snd (HookedRootModule.clear_contexts w))).
Proof.
  apply (for_hook_dict_items_rel (fun _ => HookPoint.clear_context)
           (fun a b => HookPoint.fwd_hooks b = HookPoint.fwd_hooks a
                       /\ HookPoint.bwd_hooks b = HookPoint.bwd_hooks a)).
  - now split.
  - intros k c hp. now split.
Qed.




(** With a valid direction [remove_hooks] returns, and the hook point it
    leaves does not depend on the counter. *)
Lemma remove_hooks_valid dir ip next self :
  HookPoint.valid_dir dir = true ->
  fst (HookPoint.remove_hooks dir ip (next, self)) = Ok tt.
Proof. intro Hv. now rewrite remove_hooks_outcome, Hv. Qed.

Section ForItemsTotal.

Variable body : string -> M HookPoint.state unit.
Variable R : HookPoint.t -> HookPoint.t -> Prop.
Hypothesis body_total :
  forall k c hp, fst (body k (c, hp)) = Ok tt /\ R hp (snd (snd (body k (c, hp)))).

(** A body that always returns relates every hook point before the loop to
    the one after. *)
Lemma for_items_total ms :
  forall c,
    fst (HookedRootModule.for_items body ms c) = Ok tt
    /\ Forall2 (on_nodes R) (HookedRootModule.hook_points_of ms)
         (HookedRootModule.hook_points_of
            (snd (snd (HookedRootModule.for_items body ms c)))).
Proof.
  induction ms as [|[k m] rest IH]; intro c; simpl; [split; [reflexivity|constructor]|].
  destruct m as [hp| |].
  - destruct (body_total k c hp) as [Hr Hp].
    destruct (body k (c, hp)) as [[u|e] [c' hp']]; simpl in Hr, Hp;
      [|discriminate].
    specialize (IH c').
    destruct (HookedRootModule.for_items body rest c') as [r [c'' rest']].
    simpl in *. destruct IH as [IH1 IH2].
    split; [exact IH1|constructor; [now split|exact IH2]].
  - specialize (IH c).
    destruct (HookedRootModule.for_items body rest c) as [r [c' rest']].
    exact IH.
  - specialize (IH c).
    destruct (HookedRootModule.for_items body rest c) as [r [c' rest']].
    exact IH.
Qed.

Lemma for_hook_dict_items_total w :
  HookedRootModule.has_dicts w = true ->
  fst (HookedRootModule.for_hook_dict_items body w) = Ok tt
  /\ Forall2 (on_nodes R) (all_hook_points w)
       (all_hook_points (snd (HookedRootModule.for_hook_dict_items body w))).
Proof.
  intro Hd. unfold all_hook_points, HookedRootModule.for_hook_dict_items.
  rewrite Hd.
  pose proof (for_items_total (HookedRootModule.named_modules w)
                (HookedRootModule.next_id w)) as H.
  destruct (HookedRootModule.for_items body _ _) as [r [c ms]]. exact H.
Qed.

End ForItemsTotal.

Lemma reset_hooks_removed_from clr dir ip w :
  HookedRootModule.has_dicts w = true ->
  HookPoint.valid_dir dir = true ->
  fst (HookedRootModule.reset_hooks clr dir ip w) = Ok tt
  /\ Forall2 (on_nodes (removed_from dir ip)) (nodes w)
       (nodes (snd (HookedRootModule.reset_hooks clr dir ip w))).
Proof.
  intros Hd Hv.
  rewrite !nodes_eq, reset_hooks_has_dicts, Hd, reset_hooks_eq.
  assert (H1 : fst ((if clr then HookedRootModule.clear_contexts else ret tt) w) = Ok tt
               /\ HookedRootModule.has_dicts
                    (snd ((if clr then HookedRootModule.clear_contexts else ret tt) w))
                  = true
               /\ Forall2 (on_nodes (fun a b =>
                                       HookPoint.fwd_hooks b = HookPoint.fwd_hooks a
                                       /\ HookPoint.bwd_hooks b = HookPoint.bwd_hooks a))
                    (all_hook_points w)
                    (all_hook_points
                       (snd ((if clr then HookedRootModule.clear_contexts
                              else ret tt) w)))).
  { destruct clr.
    - split; [now apply clear_contexts_returns|].
      split; [|apply clear_contexts_same_bindings].
      unfold HookedRootModule.clear_contexts.
      now rewrite for_hook_dict_items_has_dicts.
    - split; [reflexivity|]. split; [exact Hd|].
      apply Forall2_on_nodes_refl. now split. }
  destruct ((if clr then HookedRootModule.clear_contexts else ret tt) w)
    as [[u|e] w1]; simpl in H1; destruct H1 as (H1 & Hd1 & Hc); [|discriminate].
  pose proof (for_hook_dict_items_total
                (fun _ => HookPoint.remove_hooks dir ip) (removed_from dir ip)
                (fun _ c hp => conj (remove_hooks_valid dir ip c hp Hv)
                                 (remove_hooks_removed_from dir ip c hp))
                w1 Hd1) as [H2 H3].
  fold (HookedRootModule.remove_all_hook_fns dir ip) in H2, H3.
  destruct (HookedRootModule.remove_all_hook_fns dir ip w1) as [[u2|e2] w2];
    simpl in *; [|discriminate].
  split; [reflexivity|].
  eapply Forall2_on_nodes_trans; [|exact Hc|exact H3].
  intros a b c [Hf Hb] [Hf' Hb']. unfold removed_from. now rewrite <- Hf, <- Hb.
Qed.

(** ** The two registries of a hook point stay in step *)

Lemma filter_all {A : Type} (f : A -> bool) (l : list A) :
  (forall x, In x l -> f x = true) -> filter f l = l.
Proof.
  induction l as [|x l IH]; intro H; simpl; [reflexivity|].
  rewrite (H x (or_introl eq_refl)), IH; [reflexivity|].
  intros y Hy. apply H. now right.
Qed.

Lemma dict_del_absent {V : Type} (k : nat) (d : list (nat * V)) :
  ~ In k (map fst d) -> dict_del Nat.eqb k d = d.
Proof.
  intro Hk. apply filter_all. intros [k' v] Hin. simpl.
  apply negb_true_iff, Nat.eqb_neq. intros ->.
  apply Hk. now apply (in_map fst) in Hin.
Qed.

Lemma dict_del_middle {V : Type} (k : nat) (v : V) (p d : list (nat * V)) :
  NoDup (map fst (p ++ (k, v) :: d)) ->
  dict_del Nat.eqb k (p ++ (k, v) :: d) = p ++ d.
Proof.
  intro Hnd. rewrite map_app in Hnd. simpl in Hnd.
  pose proof (NoDup_remove_2 _ _ _ Hnd) as Hk.
  unfold dict_del. rewrite filter_app. simpl. rewrite Nat.eqb_refl. simpl.
  fold (dict_del Nat.eqb k p). fold (dict_del Nat.eqb k d).
  rewrite !dict_del_absent; [reflexivity| |];
    intro Hin; apply Hk, in_or_app; [now right|now left].
Qed.

Lemma dict_set_fresh {V : Type} (k : nat) (v : V) (d : list (nat * V)) :
  ~ In k (map fst d) -> dict_set Nat.eqb k v d = d ++ [(k, v)].
Proof.
  induction d as [|[k' v'] d IH]; intro Hk; simpl; [reflexivity|].
  simpl in Hk. destruct (Nat.eqb_spec k k') as [->|Hne].
  - exfalso. apply Hk. now left.
  - rewrite IH; [reflexivity|]. intro Hin. apply Hk. now right.
Qed.

(** Removing along the forward list: the handles and the entries that stay
    are those of the bindings kept; the backward dict is not touched. *)
Lemma _remove_hooks_in_step (ip : bool) (bs : list binding) :
  forall (p : list (nat * torch_hook)) (self : HookPoint.t),
    HookPoint._forward_hooks self = p ++ map entry_of bs ->
    NoDup (map fst (p ++ map entry_of bs)) ->
    fst (HookPoint._remove_hooks ip (map handle_of bs) self) =
      map handle_of (filter (keeps ip) bs)
    /\ HookPoint._forward_hooks
         (snd (HookPoint._remove_hooks ip (map handle_of bs) self)) =
       p ++ map entry_of (filter (keeps ip) bs)
    /\ HookPoint._backward_hooks
         (snd (HookPoint._remove_hooks ip (map handle_of bs) self)) =
       HookPoint._backward_hooks self.
Proof.
  induction bs as [|b bs IH]; intros p self Hd Hnd.
  - simpl. auto.
  - cbn [map filter HookPoint._remove_hooks].
    change (is_permanent (handle_of b)) with (b_permanent b).
    assert (Hk : keeps ip b = negb (negb (b_permanent b) || ip)).
    { unfold keeps. now destruct (b_permanent b), ip. }
    rewrite Hk. cbn [map] in Hd, Hnd.
    destruct (negb (b_permanent b) || ip); cbn [negb].
    + set (self' := HookPoint.remove (hook (handle_of b)) self).
      assert (Hd' : HookPoint._forward_hooks self' = p ++ map entry_of bs).
      { subst self'. unfold HookPoint.remove. cbn. rewrite Hd.
        now apply dict_del_middle. }
      assert (Hnd' : NoDup (map fst (p ++ map entry_of bs))).
      { rewrite map_app in *. cbn [map] in Hnd.
        now apply NoDup_remove_1 in Hnd. }
      destruct (IH p self' Hd' Hnd') as (H1 & H2 & H3).
      rewrite H1, H2, H3. subst self'. auto.
    + assert (Hd' : HookPoint._forward_hooks self =
                    (p ++ [entry_of b]) ++ map entry_of bs).
      { now rewrite <- app_assoc. }
      assert (Hnd' : NoDup (map fst ((p ++ [entry_of b]) ++ map entry_of bs))).
      { now rewrite <- app_assoc. }
      destruct (IH _ self Hd' Hnd') as (H1 & H2 & H3).
      destruct (HookPoint._remove_hooks ip (map handle_of bs) self)
        as [out self'].
      cbn [fst snd map] in *. rewrite H1, H2, H3, <- app_assoc. auto.
Qed.

(** Removing along the backward list leaves the forward dict alone. *)
Lemma _remove_hooks_backward (ip : bool) (handles : list LensHandle) :
  Forall (fun h => hooks_dict_ref (hook h) = BackwardHooks) handles ->
  forall self,
    HookPoint._forward_hooks (snd (HookPoint._remove_hooks ip handles self)) =
      HookPoint._forward_hooks self.
Proof.
  induction 1 as [|h rest Hh _ IH]; intro self; simpl; [reflexivity|].
  destruct (negb (is_permanent h) || ip).
  - rewrite IH. unfold HookPoint.remove. now rewrite Hh.
  - specialize (IH self).
    now destruct (HookPoint._remove_hooks ip rest self) as [out self'].
Qed.

Lemma NoDup_map_filter {A B : Type} (f : A -> B) (g : A -> bool) (l : list A) :
  NoDup (map f l) -> NoDup (map f (filter g l)).
Proof.
  induction l as [|x l IH]; intro H; simpl; [constructor|].
  simpl in H. inversion H as [|y l' Hx Hl]; subst.
  destruct (g x); simpl; [constructor|]; auto.
  intro Hin. apply Hx. apply in_map_iff in Hin as (z & Hz & Hin).
  apply in_map_iff. exists z. split; [exact Hz|].
  now apply filter_In in Hin.
Qed.

Lemma Forall_filter {A : Type} (P : A -> Prop) (g : A -> bool) (l : list A) :
  Forall P l -> Forall P (filter g l).
Proof.
  intro H. apply Forall_forall. intros x Hx. apply filter_In in Hx as [Hx _].
  revert x Hx. now apply Forall_forall.
Qed.

Lemma kept_handles ip bs :
  kept ip (map handle_of bs) = map handle_of (filter (keeps ip) bs).
Proof.
  unfold kept. induction bs as [|b bs IH]; simpl; [reflexivity|].
  unfold keeps at 1. destruct (b_permanent b && negb ip); simpl; now rewrite IH.
Qed.

Section RemoveInStep.

Variables (dir : string) (ip : bool) (next : nat) (self : HookPoint.t).
Variable bs : list binding.
Hypothesis Hstep : in_step (next, self) bs.

Local Abbreviation after := (snd (snd (HookPoint.remove_hooks dir ip (next, self)))).

Lemma remove_hooks_forward_dict :
  HookPoint._forward_hooks after =
    map entry_of (if selects_fwd dir then filter (keeps ip) bs else bs).
Proof.
  destruct Hstep as (Hf & Hd & Hnd & Hlt & Hb). simpl in Hf, Hd, Hb.
  unfold HookPoint.remove_hooks, selects_fwd.
  assert (Hnd' : NoDup (map fst ([] ++ map entry_of bs))).
  { simpl. rewrite map_map. exact Hnd. }
  pose proof (_remove_hooks_in_step ip bs [] self Hd Hnd') as (H1 & H2 & _).
  pose proof (_remove_hooks_frame ip (map handle_of bs) self) as F.
  rewrite <- Hf in H1, H2, F.
  destruct (HookPoint._remove_hooks ip (HookPoint.fwd_hooks self) self)
    as [k1 s1]. simpl in H1, H2, F.
  set (self1 := if (dir =? "fwd")%string || (dir =? "both")%string
                then HookPoint.set_fwd_hooks k1 s1 else self).
  assert (E : HookPoint._forward_hooks self1 =
              map entry_of (if (dir =? "fwd")%string || (dir =? "both")%string
                            then filter (keeps ip) bs else bs)
              /\ HookPoint.bwd_hooks self1 = HookPoint.bwd_hooks self).
  { subst self1. destruct ((dir =? "fwd")%string || (dir =? "both")%string);
      simpl; [split; [exact H2|tauto]|split; [exact Hd|reflexivity]]. }
  destruct E as [E Eb].
  assert (Hb1 : Forall (fun h => hooks_dict_ref (hook h) = BackwardHooks)
                  (HookPoint.bwd_hooks self1)) by now rewrite Eb.
  pose proof (_remove_hooks_backward ip Hb1 self1) as B.
  destruct (HookPoint._remove_hooks ip (HookPoint.bwd_hooks self1) self1)
    as [k2 s2]. simpl in B.
  destruct (negb (HookPoint.valid_dir dir)); simpl;
    destruct ((dir =? "bwd")%string || (dir =? "both")%string); simpl;
    congruence.
Qed.

Lemma remove_hooks_in_step :
  in_step (snd (HookPoint.remove_hooks dir ip (next, self)))
    (if selects_fwd dir then filter (keeps ip) bs else bs).
Proof.
  pose proof remove_hooks_forward_dict as Hdict.
  destruct Hstep as (Hf & Hd & Hnd & Hlt & Hb). simpl in Hf, Hd, Hb, Hlt.
  unfold in_step.
  rewrite remove_hooks_fwd, remove_hooks_bwd, remove_hooks_next_id, Hdict, Hf.
  split; [destruct (selects_fwd dir); [apply kept_handles|reflexivity]|].
  split; [reflexivity|].
  split; [destruct (selects_fwd dir); [now apply NoDup_map_filter|exact Hnd]|].
  split; [destruct (selects_fwd dir); [now apply Forall_filter|exact Hlt]|].
  destruct (selects_bwd dir); [now apply Forall_filter|exact Hb].
Qed.

End RemoveInStep.

Lemma add_hook_in_step hook dir is_permanent next self bs :
  in_step (next, self) bs ->
  in_step (snd (HookPoint.add_hook hook dir is_permanent (next, self)))
    (if String.eqb dir "fwd"
     then bs ++ [{| b_id := next; b_hook := hook; b_permanent := is_permanent |}]
     else bs).
Proof.
  intros (Hf & Hd & Hnd & Hlt & Hb). simpl in Hf, Hd, Hb, Hlt.
  unfold HookPoint.add_hook.
  destruct (String.eqb dir "fwd").
  - unfold in_step. cbn. rewrite Hf, Hd, !map_app. cbn [map].
    assert (Hfresh : ~ In next (map b_id bs)).
    { intro Hin. apply in_map_iff in Hin as (b & Hb' & Hin).
      rewrite Forall_forall in Hlt. specialize (Hlt b Hin). lia. }
    repeat split.
    + apply dict_set_fresh. now rewrite map_map.
    + apply NoDup_app; [exact Hnd|repeat constructor; simpl; tauto|].
      intros x Hx [<-|[]]. contradiction.
    + apply Forall_app. split; [|repeat constructor].
      eapply Forall_impl; [|exact Hlt]. simpl. intros; lia.
    + exact Hb.
  - destruct (String.eqb dir "bwd").
    + unfold in_step. cbn. repeat split; try assumption.
      * eapply Forall_impl; [|exact Hlt]. simpl. intros; lia.
      * apply Forall_app. split; [exact Hb|repeat constructor].
    + unfold in_step. cbn. repeat split; assumption.
Qed.

Lemma in_step_init next : in_step (next, HookPoint.__init__) [].
Proof. repeat split; constructor. Qed.

Lemma plain_filter ip bs :
  map plain (filter (keeps ip) bs) =
    filter (fun b => snd b && negb ip) (map plain bs).
Proof.
  induction bs as [|b bs IH]; simpl; [reflexivity|].
  unfold keeps at 1. destruct (b_permanent b && negb ip); simpl; now rewrite IH.
Qed.

Lemma act_in_step a st bs :
  in_step st bs ->
  exists bs', in_step (act st a) bs'
              /\ map plain bs' = bindings_step (map plain bs) a.
Proof.
  intro H. destruct st as [next self]. destruct a as [h d p|d ip|n|]; simpl.
  - eexists. split; [apply add_hook_in_step, H|].
    destruct (String.eqb d "fwd"); [now rewrite map_app|reflexivity].
  - eexists. split; [apply remove_hooks_in_step, H|].
    destruct (selects_fwd d); [apply plain_filter|reflexivity].
  - exists bs. split; [exact H|reflexivity].
  - exists bs. split; [exact H|reflexivity].
Qed.

Lemma history_in_step acts :
  forall st bs,
    in_step st bs ->
    exists bs', in_step (history acts st) bs'
                /\ map plain bs' = fold_left bindings_step acts (map plain bs).
Proof.
  induction acts as [|a acts IH]; intros st bs H; simpl.
  - now exists bs.
  - destruct (act_in_step a H) as (bs1 & H1 & E1).
    destruct (IH _ _ H1) as (bs2 & H2 & E2).
    exists bs2. split; [exact H2|]. now rewrite E2, E1.
Qed.

(** Torch's loop over the entries is the pass-through over the hooks. *)
Lemma call_forward_hooks_thread bs node input :
  forall v h,
    HookPoint.call_forward_hooks (map entry_of bs) node input v h =
      thread (map b_hook bs) node v h.
Proof.
  induction bs as [|b bs IH]; intros v h; simpl; [reflexivity|].
  unfold bind, HookPoint.full_hook_fwd.
  destruct (b_hook b v node h) as [[r|e] h']; [apply IH|reflexivity].
Qed.

Lemma in_step_call st bs v h :
  in_step st bs ->
  HookPoint.__call__ (snd st) v h =
    thread (map fst (map plain bs)) (HookPoint.name (snd st)) v h.
Proof.
  intros (_ & Hd & _). unfold HookPoint.__call__. rewrite Hd, map_map.
  apply call_forward_hooks_thread.
Qed.

(** ** Reading integers *)

Lemma digit_not_space c : is_digit c = true -> is_space c = false.
Proof.
  destruct c as [[] [] [] [] [] [] [] []]; vm_compute; congruence.
Qed.

Lemma digit_not_sign c :
  is_digit c = true ->
  Ascii.eqb c "-"%char = false /\ Ascii.eqb c "+"%char = false
  /\ Ascii.eqb c "_"%char = false.
Proof.
  destruct c as [[] [] [] [] [] [] [] []]; vm_compute; intuition congruence.
Qed.

Lemma lstrip_split cs :
  exists l, cs = l ++ lstrip cs /\ Forall (fun c => is_space c = true) l.
Proof.
  induction cs as [|c cs (l & E & Hl)]; simpl.
  - now exists [].
  - destruct (is_space c) eqn:Hc.
    + exists (c :: l). split; [simpl; congruence|now constructor].
    + now exists [].
Qed.

Lemma strip_split cs :
  exists l r,
    cs = l ++ strip cs ++ r
    /\ Forall (fun c => is_space c = true) l
    /\ Forall (fun c => is_space c = true) r.
Proof.
  unfold strip.
  destruct (lstrip_split cs) as (l & E & Hl).
  destruct (lstrip_split (rev (lstrip cs))) as (r & E' & Hr).
  exists l, (rev r). split; [|split; [exact Hl|now apply Forall_rev]].
  rewrite E at 1. f_equal.
  rewrite <- rev_app_distr, <- E'. now rewrite rev_involutive.
Qed.

Lemma lstrip_spaces l cs :
  Forall (fun c => is_space c = true) l -> lstrip (l ++ cs) = lstrip cs.
Proof. induction 1 as [|c l Hc _ IH]; simpl; [reflexivity|now rewrite Hc]. Qed.

Lemma lstrip_solid c cs : is_space c = false -> lstrip (c :: cs) = c :: cs.
Proof. intro H. simpl. now rewrite H. Qed.

(** White space around a text that begins and ends with other characters is
    what [strip] takes away. *)
Lemma strip_core l core r first mid last init :
  Forall (fun c => is_space c = true) l ->
  Forall (fun c => is_space c = true) r ->
  core = first :: mid -> rev core = last :: init ->
  is_space first = false -> is_space last = false ->
  strip (l ++ core ++ r) = core.
Proof.
  intros Hl Hr -> Hlast Hf Hla. unfold strip.
  rewrite lstrip_spaces by assumption.
  change ((first :: mid) ++ r) with (first :: (mid ++ r)).
  rewrite lstrip_solid by assumption.
  change (first :: mid ++ r) with ((first :: mid) ++ r).
  rewrite rev_app_distr, lstrip_spaces by now apply Forall_rev.
  rewrite Hlast, lstrip_solid by assumption.
  rewrite <- Hlast. apply rev_involutive.
Qed.

Lemma rev_last {A : Type} (l : list A) (d : A) :
  l <> [] -> rev l = List.last l d :: rev (removelast l).
Proof.
  intro H. rewrite (app_removelast_last d H) at 1.
  now rewrite rev_app_distr.
Qed.

(** What [digits] accepts, by whether a digit came before. *)
Lemma digits_accepts cs :
  forall acc after_digit z,
    digits acc after_digit cs = Some z ->
    digit_groups cs
    \/ (after_digit = true
        /\ (cs = [] \/ exists cs', cs = "_"%char :: cs' /\ digit_groups cs')).
Proof.
  induction cs as [|c cs IH]; intros acc b z H; simpl in H.
  - destruct b; [right; auto|discriminate].
  - destruct (is_digit c) eqn:Hc.
    + left. apply IH in H as [H|[_ [->|(cs' & -> & H)]]].
      * now apply dg_next.
      * now apply dg_last.
      * now apply dg_sep.
    + destruct (Ascii.eqb_spec c "_"%char) as [->|]; [|discriminate].
      destruct b; [|discriminate]. simpl in H.
      apply IH in H as [H|[Hb _]]; [|discriminate].
      right. split; [reflexivity|]. right. now exists cs.
Qed.

Lemma digit_groups_accepted cs :
  digit_groups cs ->
  forall acc after_digit, exists z, digits acc after_digit cs = Some z.
Proof.
  induction 1 as [c Hc|c cs Hc _ IH|c cs Hc _ IH]; intros acc b; simpl;
    rewrite Hc.
  - eexists. reflexivity.
  - apply IH.
  - simpl. apply IH.
Qed.

Lemma digit_groups_ends cs :
  digit_groups cs ->
  exists first mid last,
    cs = first :: mid /\ rev cs = last :: rev (removelast cs)
    /\ is_digit first = true /\ is_digit last = true.
Proof.
  intro H.
  assert (Hne : cs <> []) by (destruct H; discriminate).
  assert (Hlast : is_digit (List.last cs "0"%char) = true).
  { induction H as [c Hc|c cs Hc H IH|c cs Hc H IH]; [exact Hc| |].
    - destruct cs; [inversion H|]. apply IH. discriminate.
    - destruct cs; [inversion H|]. apply IH. discriminate. }
  destruct cs as [|f mid]; [contradiction|].
  exists f, mid, (List.last (f :: mid) "0"%char).
  split; [reflexivity|]. split; [now apply rev_last|].
  split; [now inversion H|exact Hlast].
Qed.

(** [int] accepts exactly the numeric segments. *)
Lemma py_int_numeric s : (exists z, py_int s = Some z) <-> numeric s.
Proof.
  unfold py_int, numeric. split.
  - intros [z H].
    destruct (strip_split (list_ascii_of_string s)) as (l & r & E & Hl & Hr).
    destruct (strip (list_ascii_of_string s)) as [|c rest]; [discriminate|].
    destruct (Ascii.eqb_spec c "-"%char) as [->|Hm].
    + destruct (digits 0 false rest) as [z'|] eqn:Hd; [|discriminate].
      apply digits_accepts in Hd as [Hd|[? _]]; [|discriminate].
      exists l, ["-"%char], rest, r. split; [exact E|auto 7].
    + destruct (Ascii.eqb_spec c "+"%char) as [->|Hp].
      * apply digits_accepts in H as [Hd|[? _]]; [|discriminate].
        exists l, ["+"%char], rest, r. split; [exact E|auto 7].
      * apply digits_accepts in H as [Hd|[? _]]; [|discriminate].
        exists l, [], (c :: rest), r. split; [exact E|auto 7].
  - intros (l & sign & body & r & E & Hl & Hr & Hsign & Hbody).
    rewrite E.
    destruct (digit_groups_ends Hbody) as (f & mid & la & Ef & El & Hf & Hla).
    destruct (digit_not_sign f Hf) as (Hf1 & Hf2 & _).
    pose proof (digit_not_space f Hf) as Hfs.
    pose proof (digit_not_space la Hla) as Hls.
    destruct Hsign as [-> | [-> | ->]].
    + simpl app.
      rewrite (strip_core Hl Hr Ef El Hfs Hls).
      rewrite Ef, Hf1, Hf2, <- Ef. now apply digit_groups_accepted.
    + assert (E1 : rev ("+"%char :: body) =
                   la :: rev (removelast ("+"%char :: body))).
      { change (rev ("+"%char :: body)) with (rev body ++ ["+"%char]).
        rewrite El. subst body. reflexivity. }
      rewrite (app_assoc ["+"%char] body r).
      rewrite (strip_core (core := ["+"%char] ++ body) Hl Hr
                 eq_refl E1 eq_refl Hls).
      simpl. now apply digit_groups_accepted.
    + assert (E1 : rev ("-"%char :: body) =
                   la :: rev (removelast ("-"%char :: body))).
      { change (rev ("-"%char :: body)) with (rev body ++ ["-"%char]).
        rewrite El. subst body. reflexivity. }
      rewrite (app_assoc ["-"%char] body r).
      rewrite (strip_core (core := ["-"%char] ++ body) Hl Hr
                 eq_refl E1 eq_refl Hls).
      simpl. destruct (digit_groups_accepted Hbody 0%Z false) as [z ->].
      now exists (- z)%Z.
Qed.

(** ** Loops that register nothing *)

(** A body that raises at once stops the loop at the first hook point. *)
Lemma for_items_raise body e :
  (forall k st, body k st = (Raise e, st)) ->
  forall ms c,
    HookedRootModule.for_items body ms c =
      (match HookedRootModule.hook_points_of ms with
       | [] => Ok tt
       | _ => Raise e
       end, (c, ms)).
Proof.
  intro Hbody. induction ms as [|[k m] rest IH]; intro c; simpl; [reflexivity|].
  destruct m as [hp| |]; simpl; rewrite ?Hbody, ?IH; reflexivity.
Qed.

(** A body that does nothing leaves the store as it is. *)
Lemma for_items_skip body :
  (forall k st, body k st = (Ok tt, st)) ->
  forall ms c, HookedRootModule.for_items body ms c = (Ok tt, (c, ms)).
Proof.
  intro Hbody. induction ms as [|[k m] rest IH]; intro c; simpl; [reflexivity|].
  destruct m as [hp| |]; simpl; rewrite ?Hbody, ?IH; reflexivity.
Qed.

(** With a [str] as [names_filter], the rebound lambda compares every name
    with itself, a function: no name matches, and no hook point receives a
    hook. *)
Lemma add_caching_hooks_str_adds_nothing s incl_bwd device rbd cache w :
  HookedRootModule.named_modules
    (snd (HookedRootModule.add_caching_hooks (PyStr s) incl_bwd device rbd cache w))
  = HookedRootModule.named_modules w.
Proof.
  unfold HookedRootModule.add_caching_hooks, HookedRootModule.resolve_device,
    HookedRootModule.new_dict, HookedRootModule.for_hook_dict_items, bind, ret.
  simpl.
  destruct device as [d|]; [|destruct (HookedRootModule.cfg w) as [[d|]|]];
    try reflexivity;
    destruct cache as [c|]; simpl;
    destruct (HookedRootModule.has_dicts w); simpl; try reflexivity;
    rewrite (for_items_skip _ (fun _ st => eq_refl)); reflexivity.
Qed.

(** With a [list], the rebound lambda asks whether the name is in itself:
    the first hook point of the registry ends the call with a [TypeError],
    and no hook point receives a hook. *)
Lemma add_caching_hooks_list_raises l incl_bwd d rbd cache w :
  HookedRootModule.has_dicts w = true ->
  all_hook_points w <> [] ->
  fst (HookedRootModule.add_caching_hooks (PyList l) incl_bwd (Some d) rbd cache w)
  = Raise (TypeError "argument of type 'function' is not iterable")
  /\ HookedRootModule.named_modules
       (snd (HookedRootModule.add_caching_hooks (PyList l) incl_bwd (Some d) rbd
               cache w))
     = HookedRootModule.named_modules w.
Proof.
  intros Hd Hne.
  unfold HookedRootModule.add_caching_hooks, HookedRootModule.resolve_device,
    HookedRootModule.new_dict, HookedRootModule.for_hook_dict_items, bind, ret.
  simpl. unfold all_hook_points in Hne.
  destruct cache as [c|]; simpl; rewrite Hd;
    match goal with
    | |- context [HookedRootModule.for_items ?b ?ms ?c] =>
        rewrite (for_items_raise b
                   (e := TypeError "argument of type 'function' is not iterable")
                   (fun _ _ => eq_refl) ms c)
    end; simpl;
    destruct (HookedRootModule.hook_points_of (HookedRootModule.named_modules w));
    try contradiction; split; reflexivity.
Qed.

(** The loop over [bwd_hooks] never reaches a hook point through a
    predicate: whatever the predicates, the store is as it was. *)
Lemma add_bwd_hooks_predicates_add_nothing bwd_hooks :
  only_predicates bwd_hooks ->
  forall w, snd (HookedRootModule.add_bwd_hooks bwd_hooks w) = w.
Proof.
  induction 1 as [|[[n|p] hook] rest Hp _ IH]; intro w; simpl;
    [reflexivity|contradiction|].
  unfold bind, HookedRootModule.hook_dict.
  destruct (HookedRootModule.has_dicts w); [|reflexivity].
  destruct (HookedRootModule.for_keys_bwd p _); [apply IH|reflexivity].
Qed.

(** * The statements of the specification *)

(** C10.  [remove_hooks] with a direction other than "fwd", "bwd" and "both"
    raises the invalid-direction [ValueError] and leaves the hook point as it
    was: the forward list and the backward list (and everything else) are
    unchanged, although the check comes after the two removal branches. *)
Theorem C10_remove_hooks_invalid_direction (dir : string)
  (including_permanent : bool) (next : nat) (self : HookPoint.t) :
  dir <> "fwd" -> dir <> "bwd" -> dir <> "both" ->
  HookPoint.remove_hooks dir including_permanent (next, self) =
    (Raise (ValueError ("Invalid direction " ++ dir)%string), (next, self))
  /\ HookPoint.fwd_hooks
       (snd (snd (HookPoint.remove_hooks dir including_permanent (next, self)))) =
     HookPoint.fwd_hooks self
  /\ HookPoint.bwd_hooks
       (snd (snd (HookPoint.remove_hooks dir including_permanent (next, self)))) =
     HookPoint.bwd_hooks self.
Proof.
  intros Hf Hb Hboth.
  assert (Hv : HookPoint.valid_dir dir = false).
  { unfold HookPoint.valid_dir.
    apply String.eqb_neq in Hf, Hb, Hboth. now rewrite Hf, Hb, Hboth. }
  rewrite (remove_hooks_invalid dir including_permanent next self Hv).
  repeat split.
Qed.

Lemma C10_witness :
  HookPoint.remove_hooks "sideways" true example_node =
    (Raise (ValueError "Invalid direction sideways"), example_node)
  /\ List.length (HookPoint.fwd_hooks (snd example_node)) = 2
  /\ List.length (HookPoint.bwd_hooks (snd example_node)) = 1.
Proof.
  split; [|split; reflexivity].
  apply (C10_remove_hooks_invalid_direction (dir := "sideways") true
           (fst example_node) (snd example_node)); discriminate.
Defined.

(** C9.  On a registry on which [setup] has not been called, [add_hook] with
    a name or with a predicate fails on the missing dict (the
    not-initialized error) and leaves the registry, and with it every hook
    point, as it was. *)
Theorem C9_add_hook_before_setup (name : target) (hook : hook_fn) (dir : string)
  (is_permanent : bool) (w : HookedRootModule.t) :
  HookedRootModule.has_dicts w = false ->
  exists e,
    HookedRootModule.add_hook name hook dir is_permanent w = (Raise e, w)
    /\ NotInitialized e.
Proof.
  intro Hd. destruct name as [n|p]; simpl.
  - exists (AttributeError "mod_dict").
    unfold HookedRootModule.mod_dict_add_hook. rewrite Hd.
    split; [reflexivity|now left].
  - exists (AttributeError "hook_dict").
    unfold HookedRootModule.for_hook_dict_items. rewrite Hd.
    split; [reflexivity|now right].
Qed.

Lemma C9_witness :
  exists e,
    HookedRootModule.add_hook (ByName "a") noop "fwd" false fresh_model =
      (Raise e, fresh_model)
    /\ NotInitialized e.
Proof.
  apply (C9_add_hook_before_setup (ByName "a") noop "fwd" false fresh_model).
  reflexivity.
Defined.

(** C7, as amended.  When [reset_hooks] returns, [is_caching] is false;
    [remove_all_hook_fns], with any direction and any [including_permanent],
    leaves [is_caching] as it was. *)
Theorem C7_is_caching_after_reset :
  (forall clr dir ip w w',
      HookedRootModule.reset_hooks clr dir ip w = (Ok tt, w') ->
      HookedRootModule.is_caching w' = false)
  /\ (forall dir ip w,
         HookedRootModule.is_caching
           (snd (HookedRootModule.remove_all_hook_fns dir ip w)) =
         HookedRootModule.is_caching w).
Proof.
  split.
  - intros clr dir ip w w'. apply reset_hooks_is_caching.
  - intros dir ip w. apply remove_all_hook_fns_is_caching.
Qed.

Lemma C7_witness :
  HookedRootModule.is_caching caching_model = true
  /\ HookedRootModule.is_caching
       (snd (HookedRootModule.reset_hooks true "both" true caching_model)) = false.
Proof.
  split; [reflexivity|].
  apply (proj1 C7_is_caching_after_reset true "both" true caching_model).
  vm_compute. reflexivity.
Defined.

(** C7, as stated, fails: on the example model after [add_caching_hooks],
    [remove_all_hook_fns("both", including_permanent=True)] returns and
    clears every hook of every node, and [is_caching] is still true. *)
Lemma C7_counterexample :
  fst (HookedRootModule.remove_all_hook_fns "both" true caching_model) = Ok tt
  /\ Forall (fun e => no_hooks (snd e))
       (nodes (snd (HookedRootModule.remove_all_hook_fns "both" true caching_model)))
  /\ List.length
       (nodes (snd (HookedRootModule.remove_all_hook_fns "both" true caching_model))) = 3
  /\ HookedRootModule.is_caching
       (snd (HookedRootModule.remove_all_hook_fns "both" true caching_model)) = true.
Proof.
  split; [reflexivity|]. split; [|split; reflexivity].
  vm_compute. repeat constructor.
Qed.


(** A forward pass that raises: with [reset_hooks_end=True] the exception
    comes out and the hooks registered for the run are gone, while the
    permanent hook registered before stays; with [reset_hooks_end=False] the
    hooks of the run stay as well. *)
Example run_with_hooks_cleans_up_after_exception :
  fst (HookedRootModule.run_with_hooks example_input
         [(ByPredicate (fun _ => true), noop)] [(ByName "c", noop)] true false
         (snd (HookedRootModule.add_perma_hook (ByName "b") noop "fwd"
                 failing_model)))
  = Raise (RuntimeError "shape mismatch")
  /\ binding_counts
       (snd (HookedRootModule.run_with_hooks example_input
               [(ByPredicate (fun _ => true), noop)] [(ByName "c", noop)] true
               false
               (snd (HookedRootModule.add_perma_hook (ByName "b") noop "fwd"
                       failing_model))))
     = [("a", 0, 0); ("b", 1, 0); ("c", 0, 0)]
  /\ binding_counts
       (snd (HookedRootModule.run_with_hooks example_input
               [(ByPredicate (fun _ => true), noop)] [(ByName "c", noop)] false
               false
               (snd (HookedRootModule.add_perma_hook (ByName "b") noop "fwd"
                       failing_model))))
     = [("a", 1, 0); ("b", 2, 0); ("c", 1, 1)].
Proof. repeat split; vm_compute; reflexivity. Qed.





(** C5.  Whatever happened to a hook point since its creation, calling it on
    a value runs the forward hooks it is left with in the order of their
    registration: each receives the current value and the node, a result
    that is not [None] becomes the current value, and the last current value
    is returned; when no forward binding is left, the value comes back as it
    went in. *)
Theorem C5_forward_hooks_in_registration_order (acts : list action) (next : nat)
  (v : Tensor) (h : Heap) :
  HookPoint.__call__ (snd (history acts (next, HookPoint.__init__))) v h =
    thread (map fst (forward_bindings acts))
      (HookPoint.name (snd (history acts (next, HookPoint.__init__)))) v h
  /\ (forward_bindings acts = [] ->
      HookPoint.__call__ (snd (history acts (next, HookPoint.__init__))) v h =
        (Ok v, h)).
Proof.
  destruct (history_in_step acts (in_step_init next)) as (bs & Hstep & E).
  simpl in E. fold (forward_bindings acts) in E.
  assert (Hcall := in_step_call v h Hstep). rewrite E in Hcall.
  split; [exact Hcall|].
  intro Hnone. rewrite Hcall, Hnone. reflexivity.
Qed.

Lemma C5_witness :
  forward_bindings [ActAddHook noop "fwd" false; ActSetName (Some "a");
                    ActRemoveHooks "both" false] = []
  /\ HookPoint.__call__
       (snd (history [ActAddHook noop "fwd" false; ActSetName (Some "a");
                      ActRemoveHooks "both" false] (0, HookPoint.__init__)))
       example_input [] = (Ok example_input, []).
Proof.
  split; [reflexivity|].
  apply (proj2 (C5_forward_hooks_in_registration_order
                  [ActAddHook noop "fwd" false; ActSetName (Some "a");
                   ActRemoveHooks "both" false] 0 example_input [])).
  reflexivity.
Defined.

(** Three hooks on the node [a]: the first replaces the value by 1, the
    second, permanent, stores what it sees in cache 0, the third replaces
    the value by 3.  The call returns 3 and the cache holds 1: the hooks ran
    in the order of their registration, each on the value the one before
    left.  After a removal that spares permanent hooks, the storing hook
    alone runs, on the value that went in. *)
Example hooks_run_in_registration_order :
  HookPoint.__call__
    (snd (history [ActSetName (Some "a");
                   ActAddHook (replace_with 1) "fwd" false;
                   ActAddHook (HookedRootModule.save_hook 0 "cpu" false) "fwd" true;
                   ActAddHook (replace_with 3) "fwd" false]
            (0, HookPoint.__init__)))
    example_input [[]]
  = (Ok {| device := "cpu"; values := Scalar 3 |},
     [[(Some "a", {| device := "cpu"; values := Scalar 1 |})]])
  /\ HookPoint.__call__
       (snd (history [ActSetName (Some "a");
                      ActAddHook (replace_with 1) "fwd" false;
                      ActAddHook (HookedRootModule.save_hook 0 "cpu" false) "fwd" true;
                      ActAddHook (replace_with 3) "fwd" false;
                      ActRemoveHooks "fwd" false]
               (0, HookPoint.__init__)))
       example_input [[]]
     = (Ok example_input, [[(Some "a", example_input)]]).
Proof. split; vm_compute; reflexivity. Qed.

(** C8.  [layer] on the node named "blocks.3.attn" returns 3.  On a node
    whose name is unset, or whose name does not have two or more
    dot-separated segments with a numeric second segment (as "embed" does
    not), it fails with one of the malformed-name errors; on every name that
    does follow the convention it returns.  Numeric is what [int] reads as
    an integer: digits, possibly signed, grouped by underscores or
    surrounded by white space. *)
Theorem C8_layer :
  HookPoint.layer (named "blocks.3.attn") = Ok 3%Z
  /\ (exists e, HookPoint.layer (named "embed") = Raise e /\ MalformedName e)
  /\ (forall self,
         HookPoint.name self = None ->
         exists e, HookPoint.layer self = Raise e /\ MalformedName e)
  /\ (forall self n,
         HookPoint.name self = Some n -> ~ follows_convention n ->
         exists e, HookPoint.layer self = Raise e /\ MalformedName e)
  /\ (forall self n,
         HookPoint.name self = Some n -> follows_convention n ->
         exists z, HookPoint.layer self = Ok z).
Proof.
  split; [reflexivity|].
  split.
  { eexists. split; [reflexivity|]. unfold MalformedName. auto. }
  split.
  { intros self Hn. unfold HookPoint.layer. rewrite Hn.
    eexists. split; [reflexivity|]. unfold MalformedName. auto. }
  split.
  - intros self n Hn Hconv. unfold HookPoint.layer. rewrite Hn.
    destruct (split_dot n) as [|prefix [|segment rest]] eqn:Hs.
    + eexists. split; [reflexivity|]. unfold MalformedName. auto.
    + eexists. split; [reflexivity|]. unfold MalformedName. auto.
    + destruct (py_int segment) as [z|] eqn:Hi.
      * exfalso. apply Hconv. exists prefix, segment, rest.
        split; [exact Hs|]. apply py_int_numeric. now exists z.
      * eexists. split; [reflexivity|]. unfold MalformedName. auto.
  - intros self n Hn (prefix & segment & rest & Hs & Hnum).
    unfold HookPoint.layer. rewrite Hn, Hs.
    apply py_int_numeric in Hnum as [z ->]. now exists z.
Qed.

Lemma C8_witness :
  (exists e, HookPoint.layer HookPoint.__init__ = Raise e /\ MalformedName e)
  /\ (exists e,
         HookPoint.layer (named "blocks.x.attn") = Raise e /\ MalformedName e)
  /\ (exists z, HookPoint.layer (named "blocks.-1_0 .attn") = Ok z).
Proof.
  split; [apply (proj1 (proj2 (proj2 C8_layer)) HookPoint.__init__); reflexivity|].
  split.
  - apply (proj1 (proj2 (proj2 (proj2 C8_layer))) (named "blocks.x.attn")
             "blocks.x.attn"); [reflexivity|].
    intros (prefix & segment & rest & Hs & Hnum).
    vm_compute in Hs. injection Hs as _ <- _.
    apply py_int_numeric in Hnum as [z Hz]. vm_compute in Hz. discriminate.
  - apply (proj2 (proj2 (proj2 (proj2 C8_layer))) (named "blocks.-1_0 .attn")
             "blocks.-1_0 .attn"); [reflexivity|].
    exists "blocks", "-1_0 ", ["attn"]. split; [reflexivity|].
    apply py_int_numeric. eexists. vm_compute. reflexivity.
Defined.

(** C1, at the failing input: the example model with the hook points [a],
    [b] and [c].  With [names_filter=["a", "c"]], [add_caching_hooks] raises
    a [TypeError] at the first hook point and installs no hook.  With
    [names_filter="a"] it returns, but installs no hook either: after the
    forward pass of [run_with_cache] the cache has no key at all, where the
    key [a] is expected. *)
Theorem C1_names_filter_name_or_list :
  fst (HookedRootModule.add_caching_hooks (PyList ["a"; "c"]) false (Some "cpu")
         false None example_model)
  = Raise (TypeError "argument of type 'function' is not iterable")
  /\ binding_counts
       (snd (HookedRootModule.add_caching_hooks (PyList ["a"; "c"]) false
               (Some "cpu") false None example_model))
     = [("a", 0, 0); ("b", 0, 0); ("c", 0, 0)]
  /\ binding_counts
       (snd (HookedRootModule.add_caching_hooks (PyStr "a") false (Some "cpu")
               false None example_model))
     = [("a", 0, 0); ("b", 0, 0); ("c", 0, 0)]
  /\ fst (HookedRootModule.run_with_cache example_input (PyStr "a") (Some "cpu")
            false false false false example_model)
     = Ok (example_input, 0)
  /\ cache_keys
       (snd (HookedRootModule.run_with_cache example_input (PyStr "a")
               (Some "cpu") false false false false example_model)) 0
     = [].
Proof. repeat split; vm_compute; reflexivity. Qed.

(** The same model with the two names given by a function: the hooks are
    installed on [a] and [c], and the forward pass fills the cache with the
    values seen there. *)
Example names_filter_function_caches_matches :
  binding_counts
    (snd (HookedRootModule.add_caching_hooks
            (PyFunction (fun n => existsb (String.eqb n) ["a"; "c"])) false
            (Some "cpu") false None example_model))
  = [("a", 1, 0); ("b", 0, 0); ("c", 1, 0)]
  /\ nth 0 (HookedRootModule.heap
              (snd (HookedRootModule.run_with_cache example_input
                      (PyFunction (fun n => existsb (String.eqb n) ["a"; "c"]))
                      (Some "cpu") false false false false example_model))) []
     = [(Some "a", example_input); (Some "c", example_input)].
Proof. split; vm_compute; reflexivity. Qed.

(** C3, at the failing input: on the example model, [run_with_hooks] with
    the backward pair (always true, a hook) raises a [ValueError] while it
    unpacks the first key of [hook_dict]; no node receives the hook and the
    forward pass does not run.  The model is left exactly as it was. *)
Theorem C3_backward_predicate_not_registered :
  HookedRootModule.run_with_hooks example_input []
    [(ByPredicate (fun _ => true), noop)] false false example_model
  = (Raise (ValueError "not enough values to unpack (expected 2)"), example_model)
  /\ binding_counts example_model = [("a", 0, 0); ("b", 0, 0); ("c", 0, 0)].
Proof. split; vm_compute; reflexivity. Qed.

(** The forward pair on the same model reaches every node it should. *)
Example forward_predicate_registered :
  binding_counts
    (snd (HookedRootModule.run_with_hooks example_input
            [(ByPredicate (fun _ => true), noop)] [] false false example_model))
  = [("a", 1, 0); ("b", 1, 0); ("c", 1, 0)].
Proof. vm_compute. reflexivity. Qed.

(** The backward loop on keys of other lengths: a longer key does not
    unpack; a key of two characters unpacks into its characters, so the
    predicate sees one character and [hp] is a [str]. *)
Example backward_loop_on_other_keys :
  HookedRootModule.for_keys_bwd (fun _ => true) ["blocks.0.hook_resid"]
  = Raise (ValueError "too many values to unpack (expected 2)")
  /\ HookedRootModule.for_keys_bwd (fun _ => true) ["h0"]
     = Raise (AttributeError "add_hook")
  /\ HookedRootModule.for_keys_bwd (fun n => String.eqb n "h0") ["h0"] = Ok tt.
Proof. repeat split. Qed.

(** * Further properties of the code *)

(** ** Hook points *)

Lemma _remove_hooks_all_kept ip handles :
  Forall (is_kept ip) handles ->
  forall self, HookPoint._remove_hooks ip handles self = (handles, self).
Proof.
  induction 1 as [|h rest Hh _ IH]; intro self; [reflexivity|].
  unfold is_kept in Hh. apply andb_true_iff in Hh as [Hp Hi].
  apply negb_true_iff in Hi. cbn [HookPoint._remove_hooks].
  rewrite Hp, Hi in *. cbn [negb orb]. now rewrite IH.
Qed.

Lemma kept_is_kept ip handles : Forall (is_kept ip) (kept ip handles).
Proof.
  unfold kept. apply Forall_forall. intros h Hin.
  now apply filter_In in Hin.
Qed.

Lemma set_fwd_hooks_same self :
  HookPoint.set_fwd_hooks (HookPoint.fwd_hooks self) self = self.
Proof. now destruct self. Qed.

Lemma set_bwd_hooks_same self :
  HookPoint.set_bwd_hooks (HookPoint.bwd_hooks self) self = self.
Proof. now destruct self. Qed.

(** X1.  [remove_hooks] is idempotent: a second call with the same
    arguments has the same outcome and leaves the hook point as the first
    call left it, in the lists and in torch's dicts. *)
Theorem remove_hooks_idempotent (dir : string) (including_permanent : bool)
  (st : HookPoint.state) :
  HookPoint.remove_hooks dir including_permanent
    (snd (HookPoint.remove_hooks dir including_permanent st))
  = HookPoint.remove_hooks dir including_permanent st.
Proof.
  destruct st as [next self].
  pose proof (remove_hooks_fwd dir including_permanent next self) as Hf.
  pose proof (remove_hooks_bwd dir including_permanent next self) as Hb.
  pose proof (remove_hooks_next_id dir including_permanent next self) as Hn.
  pose proof (remove_hooks_outcome dir including_permanent next self) as Ho.
  destruct (HookPoint.remove_hooks dir including_permanent (next, self))
    as [r [next' self']]. simpl in *. subst next' r.
  unfold HookPoint.remove_hooks.
  fold (selects_fwd dir). fold (selects_bwd dir).
  assert (E1 : (if selects_fwd dir
                then let '(k, s) :=
                       HookPoint._remove_hooks including_permanent
                         (HookPoint.fwd_hooks self') self' in
                     HookPoint.set_fwd_hooks k s
                else self') = self').
  { destruct (selects_fwd dir); [|reflexivity].
    rewrite _remove_hooks_all_kept, set_fwd_hooks_same; [reflexivity|].
    rewrite Hf. apply kept_is_kept. }
  rewrite E1.
  assert (E2 : (if selects_bwd dir
                then let '(k, s) :=
                       HookPoint._remove_hooks including_permanent
                         (HookPoint.bwd_hooks self') self' in
                     HookPoint.set_bwd_hooks k s
                else self') = self').
  { destruct (selects_bwd dir); [|reflexivity].
    rewrite _remove_hooks_all_kept, set_bwd_hooks_same; [reflexivity|].
    rewrite Hb. apply kept_is_kept. }
  rewrite E2.
  destruct (HookPoint.valid_dir dir); reflexivity.
Qed.

Lemma thread_app hooks1 hooks2 node v h :
  thread (hooks1 ++ hooks2) node v h =
    bind (thread hooks1 node v) (thread hooks2 node) h.
Proof.
  revert v h. induction hooks1 as [|hk rest IH]; intros v h; simpl;
    [reflexivity|].
  unfold bind in *. destruct (hk v node h) as [[r|e] h']; [|reflexivity].
  apply IH.
Qed.

Lemma add_hook_name hook dir is_perm st :
  HookPoint.name (snd (snd (HookPoint.add_hook hook dir is_perm st))) =
    HookPoint.name (snd st).
Proof.
  destruct st as [next self]. unfold HookPoint.add_hook.
  destruct (String.eqb dir "fwd"); [reflexivity|].
  destruct (String.eqb dir "bwd"); reflexivity.
Qed.

(** X2.  On a hook point with any past, a forward hook just added runs
    after all the forward hooks that were there, on the value they
    produce: the call is the call of before, followed by the new hook. *)
Theorem added_forward_hook_runs_last (acts : list action) (next : nat)
  (hook : hook_fn) (is_perm : bool) (v : Tensor) (h : Heap) :
  HookPoint.__call__
    (snd (snd (HookPoint.add_hook hook "fwd" is_perm
                 (history acts (next, HookPoint.__init__))))) v h
  = (v' <- HookPoint.__call__ (snd (history acts (next, HookPoint.__init__))) v ;;
     r <- hook v' (HookPoint.name (snd (history acts (next, HookPoint.__init__)))) ;;
     ret (match r with Some v'' => v'' | None => v' end))%py h.
Proof.
  destruct (history_in_step acts (in_step_init next)) as (bs & Hstep & _).
  destruct (history acts (next, HookPoint.__init__)) as [n self] eqn:E.
  assert (Hstep' : in_step (snd (HookPoint.add_hook hook "fwd" is_perm (n, self)))
                     (bs ++ [{| b_id := n; b_hook := hook;
                                b_permanent := is_perm |}]))
    by exact (add_hook_in_step hook "fwd" is_perm Hstep).
  rewrite (in_step_call v h Hstep'), add_hook_name.
  rewrite !map_app, thread_app. simpl snd.
  pose proof (in_step_call v h Hstep) as Hc. simpl snd in Hc.
  unfold bind. rewrite Hc.
  destruct (thread (map fst (map plain bs)) (HookPoint.name self) v h)
    as [[v'|e] h']; reflexivity.
Qed.

(** ** Names *)

Lemma hook_points_of_assign_name ms :
  HookedRootModule.hook_points_of (map HookedRootModule.assign_name ms) =
    map (fun e => (fst e, HookPoint.set_name (Some (fst e)) (snd e)))
      (HookedRootModule.hook_points_of ms).
Proof.
  induction ms as [|[k m] rest IH]; simpl; [reflexivity|].
  destruct m; simpl; rewrite ?IH; reflexivity.
Qed.

Lemma assign_name_twice ms :
  map HookedRootModule.assign_name (map HookedRootModule.assign_name ms) =
    map HookedRootModule.assign_name ms.
Proof.
  rewrite map_map. apply map_ext. intros [k m]. now destruct m.
Qed.

(** X3.  [setup] makes every hook point of the module tree a node of the
    registry, in the order of the tree, under its path; the node's [name] is
    that path, so that [layer] of a node is decided by its key, and nothing
    else about the hook point changes.  Calling [setup] again changes
    nothing. *)
Theorem setup_names_the_nodes (w : HookedRootModule.t) :
  nodes (snd (HookedRootModule.setup w)) =
    map (fun e => (fst e, HookPoint.set_name (Some (fst e)) (snd e)))
      (all_hook_points w)
  /\ Forall (fun e => HookPoint.name (snd e) = Some (fst e)
                      /\ HookPoint.layer (snd e) = HookPoint.layer (named (fst e)))
       (nodes (snd (HookedRootModule.setup w)))
  /\ snd (HookedRootModule.setup (snd (HookedRootModule.setup w))) =
     snd (HookedRootModule.setup w).
Proof.
  assert (E : nodes (snd (HookedRootModule.setup w)) =
              map (fun e => (fst e, HookPoint.set_name (Some (fst e)) (snd e)))
                (all_hook_points w)).
  { rewrite nodes_eq. simpl. unfold all_hook_points. simpl.
    apply hook_points_of_assign_name. }
  split; [exact E|]. split.
  - rewrite E. apply Forall_forall. intros e Hin.
    apply in_map_iff in Hin as ([k hp] & <- & _). now split.
  - unfold HookedRootModule.setup, HookedRootModule.set_has_dicts,
      HookedRootModule.set_named_modules. simpl.
    now rewrite assign_name_twice.
Qed.

Lemma split_dot_dotless p : dotless p = true -> split_dot p = [p].
Proof.
  induction p as [|c p IH]; simpl; [reflexivity|].
  intro H. apply andb_true_iff in H as [Hc Hp].
  apply negb_true_iff in Hc. now rewrite Hc, IH.
Qed.

Lemma split_dot_prefix p s :
  dotless p = true -> split_dot (p ++ String "." s) = p :: split_dot s.
Proof.
  induction p as [|c p IH]; simpl; [reflexivity|].
  intro H. apply andb_true_iff in H as [Hc Hp].
  apply negb_true_iff in Hc. now rewrite Hc, IH.
Qed.

(** X4.  [layer] reads the second dot-separated segment of the name and
    nothing else: whatever the first segment is (it need not be "blocks")
    and whatever follows the second dot, the result is what [int] makes of
    the second segment; a name without a dot has no second segment and
    gives [IndexError]. *)
Theorem layer_reads_second_segment (prefix segment : string) :
  dotless prefix = true -> dotless segment = true ->
  HookPoint.layer (named (prefix ++ String "." segment)) = layer_of_segment segment
  /\ (forall rest,
         HookPoint.layer (named (prefix ++ String "." (segment ++ String "." rest)))
         = layer_of_segment segment)
  /\ HookPoint.layer (named prefix) = Raise (IndexError "list index out of range").
Proof.
  intros Hp Hs. unfold HookPoint.layer, named, layer_of_segment. simpl.
  rewrite !split_dot_prefix by assumption.
  rewrite (split_dot_dotless _ Hs), (split_dot_dotless _ Hp).
  split; [reflexivity|]. split; [|reflexivity].
  intro rest. now rewrite !split_dot_prefix by assumption.
Qed.

Lemma layer_reads_second_segment_witness :
  HookPoint.layer (named "decoder.12") = Ok 12%Z
  /\ HookPoint.layer (named "decoder.12.mlp.hook_post") = Ok 12%Z
  /\ HookPoint.layer (named "decoder") = Raise (IndexError "list index out of range").
Proof.
  pose proof (layer_reads_second_segment "decoder" "12" eq_refl eq_refl)
    as (H1 & H2 & H3).
  split; [exact H1|]. split; [exact (H2 "mlp.hook_post")|exact H3].
Defined.

(** ** Registering through the root module *)

Section ForItemsKeyed.

Variable body : string -> M HookPoint.state unit.
Variable R : string -> HookPoint.t -> HookPoint.t -> Prop.
Hypothesis body_total :
  forall k c hp,
    fst (body k (c, hp)) = Ok tt /\ R k hp (snd (snd (body k (c, hp)))).

Lemma for_items_keyed ms :
  forall c,
    fst (HookedRootModule.for_items body ms c) = Ok tt
    /\ Forall2 (on_keyed_nodes R) (HookedRootModule.hook_points_of ms)
         (HookedRootModule.hook_points_of
            (snd (snd (HookedRootModule.for_items body ms c)))).
Proof.
  induction ms as [|[k m] rest IH]; intro c; simpl; [split; [reflexivity|constructor]|].
  destruct m as [hp| |].
  - destruct (body_total k c hp) as [Hr Hp].
    destruct (body k (c, hp)) as [[u|e] [c' hp']]; simpl in Hr, Hp;
      [|discriminate].
    specialize (IH c').
    destruct (HookedRootModule.for_items body rest c') as [r [c'' rest']].
    simpl in *. destruct IH as [IH1 IH2].
    split; [exact IH1|constructor; [now split|exact IH2]].
  - specialize (IH c).
    destruct (HookedRootModule.for_items body rest c) as [r [c' rest']].
    exact IH.
  - specialize (IH c).
    destruct (HookedRootModule.for_items body rest c) as [r [c' rest']].
    exact IH.
Qed.

Lemma for_hook_dict_items_keyed w :
  HookedRootModule.has_dicts w = true ->
  fst (HookedRootModule.for_hook_dict_items body w) = Ok tt
  /\ Forall2 (on_keyed_nodes R) (nodes w)
       (nodes (snd (HookedRootModule.for_hook_dict_items body w))).
Proof.
  intro Hd. rewrite !nodes_eq, for_hook_dict_items_has_dicts, Hd.
  unfold all_hook_points, HookedRootModule.for_hook_dict_items. rewrite Hd.
  pose proof (for_items_keyed (HookedRootModule.named_modules w)
                (HookedRootModule.next_id w)) as H.
  destruct (HookedRootModule.for_items body _ _) as [r [c ms]]. exact H.
Qed.

End ForItemsKeyed.

Lemma add_hook_gained hook dir is_perm next self :
  dir = "fwd" \/ dir = "bwd" ->
  fst (HookPoint.add_hook hook dir is_perm (next, self)) = Ok tt
  /\ fst (snd (HookPoint.add_hook hook dir is_perm (next, self))) = S next
  /\ gained dir is_perm self
       (snd (snd (HookPoint.add_hook hook dir is_perm (next, self)))).
Proof.
  intros [-> | ->]; cbn; (split; [reflexivity|]); (split; [reflexivity|]);
    unfold gained; cbn; (split; [reflexivity|]); (split; [reflexivity|]).
  - exists {| hook := {| hooks_dict_ref := ForwardHooks; id := next |};
             is_permanent := is_perm |}.
    split; [reflexivity|]. left. auto.
  - exists {| hook := {| hooks_dict_ref := BackwardHooks; id := next |};
             is_permanent := is_perm |}.
    split; [reflexivity|]. right. auto.
Qed.

Lemma add_hook_invalid hook dir is_perm st :
  dir <> "fwd" -> dir <> "bwd" ->
  HookPoint.add_hook hook dir is_perm st =
    (Raise (ValueError ("Invalid direction " ++ dir)%string), st).
Proof.
  intros Hf Hb. unfold HookPoint.add_hook.
  apply String.eqb_neq in Hf, Hb. now rewrite Hf, Hb.
Qed.

Lemma world_same w :
  HookedRootModule.set_next_id (HookedRootModule.next_id w)
    (HookedRootModule.set_named_modules (HookedRootModule.named_modules w) w) = w.
Proof. now destruct w. Qed.

(** What [mod_dict[name].add_hook(...)] does to the store. *)
Lemma item_add_hook_spec name hook dir is_perm ms :
  forall next,
    match HookedRootModule.find_module name ms with
    | None =>
        HookedRootModule.item_add_hook name hook dir is_perm ms next =
          (Raise (KeyError name), (next, ms))
    | Some HookedRootModule.IsOther =>
        HookedRootModule.item_add_hook name hook dir is_perm ms next =
          (Raise (AttributeError "add_hook"), (next, ms))
    | Some HookedRootModule.IsRootModule =>
        HookedRootModule.item_add_hook name hook dir is_perm ms next =
          (Raise (TypeError "add_hook() missing 1 required positional argument: 'hook'"),
           (next, ms))
    | Some (HookedRootModule.IsHookPoint hp) =>
        let r := HookPoint.add_hook hook dir is_perm (next, hp) in
        let r' := HookedRootModule.item_add_hook name hook dir is_perm ms next in
        fst r' = fst r /\ fst (snd r') = fst (snd r)
        /\ HookedRootModule.find_module name (snd (snd r')) =
           Some (HookedRootModule.IsHookPoint (snd (snd r)))
        /\ forall k, k <> name ->
                     HookedRootModule.find_module k (snd (snd r')) =
                     HookedRootModule.find_module k ms
    end.
Proof.
  induction ms as [|[k m] rest IH]; intro next; simpl; [reflexivity|].
  destruct (String.eqb_spec name k) as [->|Hne].
  - destruct m as [hp| |]; try reflexivity.
    destruct (HookPoint.add_hook hook dir is_perm (next, hp)) as [r [n hp']].
    simpl. rewrite String.eqb_refl. repeat split.
    intros k' Hk. apply String.eqb_neq in Hk. now rewrite Hk.
  - specialize (IH next).
    destruct (HookedRootModule.find_module name rest) as [[hp| |]|];
      try (rewrite IH; reflexivity).
    destruct (HookedRootModule.item_add_hook name hook dir is_perm rest next)
      as [r' [n' rest']].
    simpl in *. apply String.eqb_neq in Hne. rewrite Hne.
    destruct IH as (H1 & H2 & H3 & H4). repeat split; try assumption.
    intros k' Hk. destruct (String.eqb k' k); [reflexivity|now apply H4].
Qed.

(** X5.  [add_hook] of the root module with a [str]: an unknown name gives
    [KeyError], the name of a module that is not a hook point gives
    [AttributeError] (or [TypeError] for a hooked root module), and in each
    of these cases the registry is left as it was.  On the name of a hook
    point the call is [HookPoint.add_hook] on that hook point, with its
    outcome, and no other module of the tree is touched. *)
Theorem add_hook_by_name (n : string) (hook : hook_fn) (dir : string)
  (is_perm : bool) (w : HookedRootModule.t) :
  HookedRootModule.has_dicts w = true ->
  match HookedRootModule.find_module n (HookedRootModule.named_modules w) with
  | None =>
      HookedRootModule.add_hook (ByName n) hook dir is_perm w =
        (Raise (KeyError n), w)
  | Some HookedRootModule.IsOther =>
      HookedRootModule.add_hook (ByName n) hook dir is_perm w =
        (Raise (AttributeError "add_hook"), w)
  | Some HookedRootModule.IsRootModule =>
      HookedRootModule.add_hook (ByName n) hook dir is_perm w =
        (Raise (TypeError "add_hook() missing 1 required positional argument: 'hook'"),
         w)
  | Some (HookedRootModule.IsHookPoint hp) =>
      let node := HookPoint.add_hook hook dir is_perm
                    (HookedRootModule.next_id w, hp) in
      let w' := snd (HookedRootModule.add_hook (ByName n) hook dir is_perm w) in
      fst (HookedRootModule.add_hook (ByName n) hook dir is_perm w) = fst node
      /\ HookedRootModule.next_id w' = fst (snd node)
      /\ HookedRootModule.find_module n (HookedRootModule.named_modules w') =
         Some (HookedRootModule.IsHookPoint (snd (snd node)))
      /\ forall k, k <> n ->
                   HookedRootModule.find_module k (HookedRootModule.named_modules w') =
                   HookedRootModule.find_module k (HookedRootModule.named_modules w)
  end.
Proof.
  intro Hd. simpl. unfold HookedRootModule.mod_dict_add_hook. rewrite Hd.
  pose proof (item_add_hook_spec n hook dir is_perm
                (HookedRootModule.named_modules w) (HookedRootModule.next_id w))
    as H.
  destruct (HookedRootModule.find_module n (HookedRootModule.named_modules w))
    as [[hp| |]|]; try (rewrite H; now rewrite world_same).
  destruct (HookedRootModule.item_add_hook n hook dir is_perm _ _)
    as [r' [n' ms']].
  exact H.
Qed.

Lemma add_hook_by_name_witness :
  HookedRootModule.add_hook (ByName "blocks.0.hook_q") noop "fwd" false
    example_model = (Raise (KeyError "blocks.0.hook_q"), example_model)
  /\ HookedRootModule.add_hook (ByName "linear") noop "fwd" false example_model
     = (Raise (AttributeError "add_hook"), example_model)
  /\ fst (HookedRootModule.add_hook (ByName "b") noop "bwd" true example_model)
     = Ok tt.
Proof.
  split; [exact (add_hook_by_name "blocks.0.hook_q" noop "fwd" false
                   example_model eq_refl)|].
  split; [exact (add_hook_by_name "linear" noop "fwd" false
                   example_model eq_refl)|].
  exact (proj1 (add_hook_by_name "b" noop "bwd" true example_model eq_refl)).
Defined.

(** X6.  [add_hook] of the root module with a predicate, in direction "fwd"
    or "bwd": the call returns, every node whose name satisfies the
    predicate has gained exactly one binding of the given permanence at the
    end of its list in that direction, and every other node is as it was;
    no match is not an error. *)
Theorem add_hook_by_predicate (p : string -> bool) (hook : hook_fn) (dir : string)
  (is_perm : bool) (w : HookedRootModule.t) :
  HookedRootModule.has_dicts w = true ->
  dir = "fwd" \/ dir = "bwd" ->
  fst (HookedRootModule.add_hook (ByPredicate p) hook dir is_perm w) = Ok tt
  /\ Forall2
       (on_keyed_nodes (fun k before after =>
                          if p k then gained dir is_perm before after
                          else after = before))
       (nodes w)
       (nodes (snd (HookedRootModule.add_hook (ByPredicate p) hook dir is_perm w))).
Proof.
  intros Hd Hdir. simpl.
  apply for_hook_dict_items_keyed; [|exact Hd].
  intros k c hp. destruct (p k).
  - destruct (add_hook_gained hook is_perm c hp Hdir) as (H1 & _ & H3).
    now split.
  - now split.
Qed.

Lemma add_hook_by_predicate_witness :
  fst (HookedRootModule.add_hook (ByPredicate (fun k => String.eqb k "a")) noop
         "fwd" true example_model) = Ok tt
  /\ binding_counts
       (snd (HookedRootModule.add_hook (ByPredicate (fun k => String.eqb k "a"))
               noop "fwd" true example_model))
     = [("a", 1, 0); ("b", 0, 0); ("c", 0, 0)].
Proof.
  split; [|reflexivity].
  exact (proj1 (add_hook_by_predicate (fun k => String.eqb k "a") noop true
                  example_model eq_refl (or_introl eq_refl))).
Defined.

(** ** What a sequence of steps keeps *)

Lemma bind_Raise_inv {S A B : Type} (m : M S A) (k : A -> M S B) (s s' : S) (e : exn) :
  bind m k s = (Raise e, s') ->
  m s = (Raise e, s') \/ exists a s1, m s = (Ok a, s1) /\ k a s1 = (Raise e, s').
Proof.
  unfold bind. destruct (m s) as [[a|e'] s1]; intro H.
  - right. now exists a, s1.
  - left. injection H as -> ->. reflexivity.
Qed.

Section Keeps.

Variable St : Type.
Variable P : St -> St -> Prop.
Hypothesis P_refl : forall s, P s s.
Hypothesis P_trans : forall a b c, P a b -> P b c -> P a c.

Lemma keeps_bind {A B : Type} (m : M St A) (k : A -> M St B) :
  (forall s, P s (snd (m s))) -> (forall a s, P s (snd (k a s))) ->
  forall s, P s (snd (bind m k s)).
Proof.
  intros Hm Hk s. unfold bind. specialize (Hm s).
  destruct (m s) as [[a|e] s1]; simpl in Hm; [|exact Hm].
  eapply P_trans; [exact Hm|apply Hk].
Qed.


End Keeps.

Lemma permanent_kept_refl w : permanent_kept w w.
Proof. apply Forall2_on_nodes_refl, same_permanent_refl. Qed.

Lemma permanent_kept_trans a b c :
  permanent_kept a b -> permanent_kept b c -> permanent_kept a c.
Proof. apply Forall2_on_nodes_trans, same_permanent_trans. Qed.

Lemma frame_refl w : frame w w.
Proof. split; [reflexivity|apply permanent_kept_refl]. Qed.

Lemma frame_trans a b c : frame a b -> frame b c -> frame a c.
Proof.
  intros [H1 H2] [H3 H4]. split; [congruence|].
  eapply permanent_kept_trans; eassumption.
Qed.

Lemma same_caching_refl w : same_caching w w.
Proof. reflexivity. Qed.

Lemma same_caching_trans a b c :
  same_caching a b -> same_caching b c -> same_caching a c.
Proof. unfold same_caching. congruence. Qed.

Lemma add_hook_temporary_same_permanent hook dir st :
  same_permanent (snd st) (snd (snd (HookPoint.add_hook hook dir false st))).
Proof.
  destruct st as [next self]. unfold HookPoint.add_hook.
  destruct (String.eqb dir "fwd"); [|destruct (String.eqb dir "bwd")];
    cbn; unfold same_permanent, permanent; cbn;
    rewrite ?filter_app; cbn; rewrite ?app_nil_r; split; reflexivity.
Qed.

Lemma item_add_hook_rel (R : HookPoint.t -> HookPoint.t -> Prop)
  name hook dir is_perm :
  (forall hp, R hp hp) ->
  (forall c hp, R hp (snd (snd (HookPoint.add_hook hook dir is_perm (c, hp))))) ->
  forall ms next,
    Forall2 (entry_rel R) ms
      (snd (snd (HookedRootModule.item_add_hook name hook dir is_perm ms next))).
Proof.
  intros Hrefl Hadd.
  pose proof (entry_rel_same R Hrefl) as Hsame.
  induction ms as [|[k m] rest IH]; intro next; simpl; [constructor|].
  destruct (String.eqb name k).
  - destruct m as [hp| |]; simpl; try apply Hsame.
    specialize (Hadd next hp).
    destruct (HookPoint.add_hook hook dir is_perm (next, hp)) as [r [n hp']].
    simpl in *. constructor; [now split|apply Hsame].
  - specialize (IH next).
    destruct (HookedRootModule.item_add_hook name hook dir is_perm rest next)
      as [r [n rest']].
    simpl in *. constructor; [|exact IH].
    split; [reflexivity|]. destruct m; simpl; auto.
Qed.

Lemma frame_for_hook_dict_items body :
  (forall k c hp, same_permanent hp (snd (snd (body k (c, hp))))) ->
  forall w, frame w (snd (HookedRootModule.for_hook_dict_items body w)).
Proof.
  intros Hbody w. split; [apply for_hook_dict_items_has_dicts|].
  apply for_hook_dict_items_rel; [apply same_permanent_refl|exact Hbody].
Qed.

Lemma frame_mod_dict_add_hook name hook dir w :
  frame w (snd (HookedRootModule.mod_dict_add_hook name hook dir false w)).
Proof.
  unfold HookedRootModule.mod_dict_add_hook.
  destruct (HookedRootModule.has_dicts w) eqn:Hd; [|apply frame_refl].
  pose proof (item_add_hook_rel same_permanent name hook dir false
                same_permanent_refl
                (fun c hp => add_hook_temporary_same_permanent hook dir (c, hp))
                (HookedRootModule.named_modules w) (HookedRootModule.next_id w))
    as H.
  destruct (HookedRootModule.item_add_hook name hook dir false _ _)
    as [r [n ms]].
  split; [reflexivity|]. unfold permanent_kept, all_hook_points. simpl in *.
  now apply hook_points_of_rel.
Qed.

Lemma frame_same_modules w w' :
  HookedRootModule.named_modules w' = HookedRootModule.named_modules w ->
  HookedRootModule.has_dicts w' = HookedRootModule.has_dicts w ->
  frame w w'.
Proof.
  intros Hm Hd. split; [exact Hd|].
  unfold permanent_kept, all_hook_points. rewrite Hm.
  apply Forall2_on_nodes_refl, same_permanent_refl.
Qed.

Lemma frame_forward x w : frame w (snd (HookedRootModule.forward x w)).
Proof.
  unfold HookedRootModule.forward.
  destruct (HookedRootModule.run_ops _ _ _ _) as [r h].
  now apply frame_same_modules.
Qed.

Lemma frame_backward out w : frame w (snd (HookedRootModule.backward out w)).
Proof.
  unfold HookedRootModule.backward.
  destruct (values out); [|apply frame_refl].
  destruct (HookedRootModule.run_ops_back _ _ _ _) as [r h].
  now apply frame_same_modules.
Qed.

Lemma frame_add_fwd_hooks fwd_hooks :
  forall w, frame w (snd (HookedRootModule.add_fwd_hooks fwd_hooks w)).
Proof.
  induction fwd_hooks as [|[[n|p] hook] rest IH]; intro w; simpl;
    [apply frame_refl| |].
  - apply (keeps_bind frame frame_trans); [|intros _; exact IH].
    intro s. apply frame_mod_dict_add_hook.
  - apply (keeps_bind frame frame_trans); [|intros _; exact IH].
    apply frame_for_hook_dict_items. intros k c hp.
    destruct (p k); [apply (add_hook_temporary_same_permanent hook "fwd" (c, hp))|].
    apply same_permanent_refl.
Qed.

Lemma frame_add_bwd_hooks bwd_hooks :
  forall w, frame w (snd (HookedRootModule.add_bwd_hooks bwd_hooks w)).
Proof.
  induction bwd_hooks as [|[[n|p] hook] rest IH]; intro w; simpl;
    [apply frame_refl| |].
  - apply (keeps_bind frame frame_trans); [|intros _; exact IH].
    intro s. apply frame_mod_dict_add_hook.
  - apply (keeps_bind frame frame_trans).
    + intro s. unfold HookedRootModule.hook_dict.
      destruct (HookedRootModule.has_dicts s); apply frame_refl.
    + intros d s. destruct (HookedRootModule.for_keys_bwd p (map fst d));
        [apply IH|apply frame_refl].
Qed.



Lemma frame_add_caching_hooks nf incl_bwd device rbd cache w :
  frame w (snd (HookedRootModule.add_caching_hooks nf incl_bwd device rbd cache w)).
Proof.
  unfold HookedRootModule.add_caching_hooks.
  apply (keeps_bind frame frame_trans).
  { intro s. unfold HookedRootModule.resolve_device.
    destruct device; [apply frame_refl|].
    destruct (HookedRootModule.cfg s) as [[d|]|]; apply frame_refl. }
  intros dev. apply (keeps_bind frame frame_trans).
  { intro s. destruct cache; [apply frame_refl|].
    unfold HookedRootModule.new_dict. now apply frame_same_modules. }
  intros c. apply (keeps_bind frame frame_trans);
    [intro s; now apply frame_same_modules|].
  intros _. apply (keeps_bind frame frame_trans); [|intros _ s; apply frame_refl].
  apply frame_for_hook_dict_items. intros k n hp.
  destruct (py_call _ _ k) as [[|]|e]; try apply same_permanent_refl.
  unfold bind.
  pose proof (add_hook_temporary_same_permanent
                (HookedRootModule.save_hook c dev rbd) "fwd" (n, hp)) as H1.
  destruct (HookPoint.add_hook (HookedRootModule.save_hook c dev rbd) "fwd" false
              (n, hp)) as [[u|e] st1]; [|exact H1].
  destruct incl_bwd; [|exact H1].
  eapply same_permanent_trans; [exact H1|].
  apply (add_hook_temporary_same_permanent _ "bwd" st1).
Qed.



(** ** The caching flag *)

Lemma same_caching_mod_dict_add_hook name hook dir is_perm w :
  same_caching w (snd (HookedRootModule.mod_dict_add_hook name hook dir is_perm w)).
Proof.
  unfold HookedRootModule.mod_dict_add_hook, same_caching.
  destruct (HookedRootModule.has_dicts w); [|reflexivity].
  now destruct (HookedRootModule.item_add_hook name hook dir is_perm _ _)
    as [r [n ms]].
Qed.

Lemma same_caching_forward x w :
  same_caching w (snd (HookedRootModule.forward x w)).
Proof.
  unfold HookedRootModule.forward, same_caching.
  now destruct (HookedRootModule.run_ops _ _ _ _) as [r h].
Qed.

Lemma same_caching_backward out w :
  same_caching w (snd (HookedRootModule.backward out w)).
Proof.
  unfold HookedRootModule.backward, same_caching.
  destruct (values out); [|reflexivity].
  now destruct (HookedRootModule.run_ops_back _ _ _ _) as [r h].
Qed.

Lemma same_caching_add_fwd_hooks fwd_hooks :
  forall w, same_caching w (snd (HookedRootModule.add_fwd_hooks fwd_hooks w)).
Proof.
  induction fwd_hooks as [|[[n|p] hook] rest IH]; intro w; simpl;
    [reflexivity| |].
  - apply (keeps_bind same_caching same_caching_trans); [|intros _; exact IH].
    intro s. apply same_caching_mod_dict_add_hook.
  - apply (keeps_bind same_caching same_caching_trans); [|intros _; exact IH].
    intro s. apply for_hook_dict_items_is_caching.
Qed.

Lemma same_caching_add_bwd_hooks bwd_hooks :
  forall w, same_caching w (snd (HookedRootModule.add_bwd_hooks bwd_hooks w)).
Proof.
  induction bwd_hooks as [|[[n|p] hook] rest IH]; intro w; simpl;
    [reflexivity| |].
  - apply (keeps_bind same_caching same_caching_trans); [|intros _; exact IH].
    intro s. apply same_caching_mod_dict_add_hook.
  - apply (keeps_bind same_caching same_caching_trans).
    + intro s. unfold HookedRootModule.hook_dict.
      destruct (HookedRootModule.has_dicts s); reflexivity.
    + intros d s. destruct (HookedRootModule.for_keys_bwd p (map fst d));
        [apply IH|reflexivity].
Qed.

Lemma run_with_hooks_body_keeps x fwd_hooks bwd_hooks w :
  let w1 := snd ((HookedRootModule.add_fwd_hooks fwd_hooks ;;;
                  HookedRootModule.add_bwd_hooks bwd_hooks ;;;
                  HookedRootModule.forward x)%py w) in
  frame w w1 /\ same_caching w w1.
Proof.
  split.
  - apply (keeps_bind frame frame_trans); [apply frame_add_fwd_hooks|].
    intros _. apply (keeps_bind frame frame_trans); [apply frame_add_bwd_hooks|].
    intros _ s. apply frame_forward.
  - apply (keeps_bind same_caching same_caching_trans);
      [apply same_caching_add_fwd_hooks|].
    intros _. apply (keeps_bind same_caching same_caching_trans);
      [apply same_caching_add_bwd_hooks|].
    intros _ s. apply same_caching_forward.
Qed.

Lemma reset_both_returns clr w :
  HookedRootModule.has_dicts w = true ->
  fst (HookedRootModule.reset_hooks clr "both" false w) = Ok tt.
Proof.
  intro Hd. now apply (reset_hooks_removed_from clr "both" false w Hd).
Qed.

Lemma add_caching_hooks_sets_flag nf incl_bwd device rbd cache w dev :
  fst (HookedRootModule.resolve_device device w) = Ok dev ->
  HookedRootModule.is_caching
    (snd (HookedRootModule.add_caching_hooks nf incl_bwd device rbd cache w))
  = true.
Proof.
  intro Hdev. unfold HookedRootModule.add_caching_hooks.
  unfold bind at 1.
  assert (Hs : snd (HookedRootModule.resolve_device device w) = w).
  { unfold HookedRootModule.resolve_device. destruct device; [reflexivity|].
    destruct (HookedRootModule.cfg w) as [[d|]|]; reflexivity. }
  destruct (HookedRootModule.resolve_device device w) as [[d|e] w0];
    simpl in Hdev, Hs; [|discriminate]. subst w0.
  unfold bind at 1.
  destruct (match cache with
            | Some c => ret c
            | None => HookedRootModule.new_dict
            end w) as [[c|e] w1] eqn:Ec.
  2:{ destruct cache; discriminate. }
  unfold bind at 1. unfold bind at 1.
  match goal with
  | |- context [HookedRootModule.for_hook_dict_items ?b ?s] =>
      pose proof (for_hook_dict_items_is_caching b s) as Hc;
      destruct (HookedRootModule.for_hook_dict_items b s) as [[u|e] w2]
  end; simpl in Hc |- *; exact Hc.
Qed.

(** X8.  The caching flag after the scoped operations, on a registry after
    [setup].  [run_with_hooks] with [reset_hooks_end=True] switches
    [is_caching] off, whatever it was and however the run ended, and with
    [reset_hooks_end=False] leaves it as it was.  [run_with_cache] has no
    [finally]: when it raises, given a device, [is_caching] is left true;
    so it is when the call returns with [reset_hooks_end=False]. *)
Theorem is_caching_after_scoped_operations (w : HookedRootModule.t) :
  HookedRootModule.has_dicts w = true ->
  (forall x fwd_hooks bwd_hooks clr,
      HookedRootModule.is_caching
        (snd (HookedRootModule.run_with_hooks x fwd_hooks bwd_hooks true clr w))
      = false)
  /\ (forall x fwd_hooks bwd_hooks clr,
         HookedRootModule.is_caching
           (snd (HookedRootModule.run_with_hooks x fwd_hooks bwd_hooks false clr w))
         = HookedRootModule.is_caching w)
  /\ (forall x nf d rbd incl_bwd reset clr e w',
         HookedRootModule.run_with_cache x nf (Some d) rbd incl_bwd reset clr w
         = (Raise e, w') ->
         HookedRootModule.is_caching w' = true)
  /\ (forall x nf device rbd incl_bwd clr r w',
         HookedRootModule.run_with_cache x nf device rbd incl_bwd false clr w
         = (Ok r, w') ->
         HookedRootModule.is_caching w' = true).
Proof.
  intro Hd. split; [|split; [|split]].
  - intros x fwd_hooks bwd_hooks clr.
    unfold HookedRootModule.run_with_hooks, try_finally.
    destruct (run_with_hooks_body_keeps x fwd_hooks bwd_hooks w) as [[Hd1 _] _].
    destruct (bind _ _ w) as [r w1]. simpl in Hd1. rewrite Hd in Hd1.
    pose proof (reset_both_returns clr w1 Hd1) as Hr.
    destruct (HookedRootModule.reset_hooks clr "both" false w1) as [[[]|e] w2] eqn:E;
      [|discriminate].
    simpl. exact (reset_hooks_is_caching _ _ _ _ E).
  - intros x fwd_hooks bwd_hooks clr.
    unfold HookedRootModule.run_with_hooks, try_finally.
    destruct (run_with_hooks_body_keeps x fwd_hooks bwd_hooks w) as [_ Hc].
    destruct (bind _ _ w) as [r w1]. exact Hc.
  - intros x nf d rbd incl_bwd reset clr e w' H.
    unfold HookedRootModule.run_with_cache in H.
    pose proof (add_caching_hooks_sets_flag nf incl_bwd (Some d) rbd None w
                  (dev := d) eq_refl) as Hflag.
    pose proof (frame_add_caching_hooks nf incl_bwd (Some d) rbd None w)
      as [Hd1 _].
    apply bind_Raise_inv in H as [H|(c & w1 & H1 & H)].
    { now rewrite H in Hflag. }
    rewrite H1 in Hflag, Hd1. simpl in Hflag, Hd1.
    pose proof (same_caching_forward x w1) as Hc2.
    pose proof (frame_forward x w1) as [Hd2 _].
    apply bind_Raise_inv in H as [H|(out & w2 & H2 & H)].
    { rewrite H in Hc2. simpl in Hc2. unfold same_caching in Hc2. congruence. }
    rewrite H2 in Hc2, Hd2. simpl in Hc2, Hd2. unfold same_caching in Hc2.
    assert (Hb : same_caching w2
                   (snd ((if incl_bwd then HookedRootModule.backward out
                          else ret tt) w2))
                 /\ HookedRootModule.has_dicts
                      (snd ((if incl_bwd then HookedRootModule.backward out
                             else ret tt) w2))
                    = HookedRootModule.has_dicts w2).
    { destruct incl_bwd; [|now split].
      split; [apply same_caching_backward|apply frame_backward]. }
    destruct Hb as [Hc3 Hd3]. unfold same_caching in Hc3.
    apply bind_Raise_inv in H as [H|(u & w3 & H3 & H)].
    { rewrite H in Hc3. simpl in Hc3. congruence. }
    rewrite H3 in Hc3, Hd3. simpl in Hc3, Hd3.
    apply bind_Raise_inv in H as [H|(u' & w4 & H4 & H)]; [|discriminate].
    destruct reset; [|discriminate].
    assert (Hd' : HookedRootModule.has_dicts w3 = true) by congruence.
    pose proof (reset_both_returns clr w3 Hd') as Hr.
    rewrite H in Hr. discriminate.
  - intros x nf device rbd incl_bwd clr r w' H.
    unfold HookedRootModule.run_with_cache in H.
    apply bind_Ok_inv in H as (c & w1 & H1 & H).
    assert (Hflag : HookedRootModule.is_caching w1 = true).
    { assert (Hdev : exists dev,
                 fst (HookedRootModule.resolve_device device w) = Ok dev).
      { unfold HookedRootModule.add_caching_hooks in H1.
        apply bind_Ok_inv in H1 as (dev & w0 & H0 & _).
        exists dev. now rewrite H0. }
      destruct Hdev as [dev Hdev].
      pose proof (add_caching_hooks_sets_flag nf incl_bwd device rbd None w Hdev)
        as Hf.
      now rewrite H1 in Hf. }
    apply bind_Ok_inv in H as (out & w2 & H2 & H).
    pose proof (same_caching_forward x w1) as Hc2. rewrite H2 in Hc2.
    apply bind_Ok_inv in H as (u & w3 & H3 & H).
    assert (Hc3 : same_caching w2 w3).
    { destruct incl_bwd; [|injection H3 as _ <-; reflexivity].
      pose proof (same_caching_backward out w2) as Hb. now rewrite H3 in Hb. }
    apply bind_Ok_inv in H as (u' & w4 & H4 & H).
    injection H4 as _ <-. injection H as _ <-.
    unfold same_caching in *. simpl in *. congruence.
Qed.

Lemma is_caching_after_scoped_operations_witness :
  HookedRootModule.is_caching
    (snd (HookedRootModule.run_with_hooks example_input [] [] true false
            caching_model)) = false
  /\ HookedRootModule.is_caching
       (snd (HookedRootModule.run_with_cache example_input PyNone (Some "cpu")
               false false true false failing_model)) = true.
Proof.
  split.
  - exact (proj1 (is_caching_after_scoped_operations caching_model eq_refl)
             example_input [] [] false).
  - apply (proj1 (proj2 (proj2 (is_caching_after_scoped_operations
                                  failing_model eq_refl)))
             example_input PyNone "cpu" false false true false
             (RuntimeError "shape mismatch")).
    vm_compute. reflexivity.
Defined.

(** ** Directions and contexts across the registry *)

Lemma remove_all_hook_fns_invalid dir ip w :
  HookedRootModule.has_dicts w = true ->
  HookPoint.valid_dir dir = false ->
  HookedRootModule.remove_all_hook_fns dir ip w =
    (match all_hook_points w with
     | [] => Ok tt
     | _ => Raise (ValueError ("Invalid direction " ++ dir)%string)
     end, w).
Proof.
  intros Hd Hv.
  unfold HookedRootModule.remove_all_hook_fns,
    HookedRootModule.for_hook_dict_items, all_hook_points.
  rewrite Hd.
  rewrite (for_items_raise (fun _ => HookPoint.remove_hooks dir ip)
             (e := ValueError ("Invalid direction " ++ dir)%string)).
  - now rewrite world_same.
  - intros k [c hp]. now apply remove_hooks_invalid.
Qed.

Lemma clear_contexts_same_hooks w :
  Forall2 (on_nodes same_hooks) (all_hook_points w)
    (all_hook_points (snd (HookedRootModule.clear_contexts w))).
Proof.
  apply (for_hook_dict_items_rel (fun _ => HookPoint.clear_context) same_hooks).
  - intro hp. repeat split.
  - intros k c hp. repeat split.
Qed.

Lemma Forall2_nonempty {A B : Type} (R : A -> B -> Prop) l l' :
  Forall2 R l l' -> l <> [] -> l' <> [].
Proof. intros H Hl. destruct H; [contradiction|discriminate]. Qed.

(** X9.  The direction is only checked by the hook points.  On a registry
    after [setup] that has a hook point, [remove_all_hook_fns] with a
    direction other than "fwd", "bwd" and "both" raises [ValueError] and
    changes nothing; [reset_hooks] raises it too, after the contexts were
    cleared if that was asked, and does not reach the reset of
    [is_caching]: the flag and every binding are as before.  On a registry
    without hook points the same calls return. *)
Theorem invalid_direction_across_registry (dir : string) (ip : bool)
  (w : HookedRootModule.t) :
  HookedRootModule.has_dicts w = true ->
  HookPoint.valid_dir dir = false ->
  (all_hook_points w <> [] ->
   HookedRootModule.remove_all_hook_fns dir ip w =
     (Raise (ValueError ("Invalid direction " ++ dir)%string), w)
   /\ forall clr,
       fst (HookedRootModule.reset_hooks clr dir ip w) =
         Raise (ValueError ("Invalid direction " ++ dir)%string)
       /\ HookedRootModule.is_caching
            (snd (HookedRootModule.reset_hooks clr dir ip w)) =
          HookedRootModule.is_caching w
       /\ Forall2 (on_nodes same_hooks) (all_hook_points w)
            (all_hook_points (snd (HookedRootModule.reset_hooks clr dir ip w))))
  /\ (all_hook_points w = [] ->
      HookedRootModule.remove_all_hook_fns dir ip w = (Ok tt, w)
      /\ forall clr, fst (HookedRootModule.reset_hooks clr dir ip w) = Ok tt).
Proof.
  intros Hd Hv.
  pose proof (remove_all_hook_fns_invalid dir ip w Hd Hv) as Hrm.
  assert (Hclear : forall clr : bool,
             let r := (if clr then HookedRootModule.clear_contexts else ret tt) w in
             fst r = Ok tt
             /\ HookedRootModule.has_dicts (snd r) = true
             /\ HookedRootModule.is_caching (snd r) = HookedRootModule.is_caching w
             /\ Forall2 (on_nodes same_hooks) (all_hook_points w)
                  (all_hook_points (snd r))).
  { intros [|]; simpl.
    - split; [now apply clear_contexts_returns|].
      split; [unfold HookedRootModule.clear_contexts;
              now rewrite for_hook_dict_items_has_dicts|].
      split; [apply for_hook_dict_items_is_caching|].
      apply clear_contexts_same_hooks.
    - repeat split; try assumption.
      apply Forall2_on_nodes_refl. intro hp. repeat split. }
  split.
  - intro Hne. split.
    + rewrite Hrm. destruct (all_hook_points w); [contradiction|reflexivity].
    + intro clr. rewrite reset_hooks_eq.
      destruct (Hclear clr) as (H1 & Hd1 & Hc1 & Hh1).
      destruct ((if clr then HookedRootModule.clear_contexts else ret tt) w)
        as [[u|e] w1]; simpl in *; [|discriminate].
      rewrite (remove_all_hook_fns_invalid dir ip w1 Hd1 Hv).
      pose proof (Forall2_nonempty Hh1 Hne) as Hne1.
      destruct (all_hook_points w1) eqn:E1; [contradiction|].
      split; [reflexivity|]. split; [exact Hc1|].
      simpl snd. rewrite E1. exact Hh1.
  - intro Hnone. split.
    + now rewrite Hrm, Hnone.
    + intro clr. rewrite reset_hooks_eq.
      destruct (Hclear clr) as (H1 & Hd1 & Hc1 & Hh1).
      destruct ((if clr then HookedRootModule.clear_contexts else ret tt) w)
        as [[u|e] w1]; simpl in *; [|discriminate].
      rewrite (remove_all_hook_fns_invalid dir ip w1 Hd1 Hv).
      rewrite Hnone in Hh1. inversion Hh1. reflexivity.
Qed.

Lemma invalid_direction_across_registry_witness :
  HookedRootModule.remove_all_hook_fns "forward" true caching_model =
    (Raise (ValueError "Invalid direction forward"), caching_model)
  /\ HookedRootModule.is_caching
       (snd (HookedRootModule.reset_hooks true "forward" true caching_model))
     = true.
Proof.
  destruct (proj1 (invalid_direction_across_registry "forward" true
                     caching_model eq_refl eq_refl))
    as [H1 H2]; [discriminate|].
  split; [exact H1|]. exact (proj1 (proj2 (H2 true))).
Defined.

(** X10.  [clear_contexts] on a registry after [setup] returns and replaces
    the context of every node by an empty one; nothing else of any node
    changes, its hooks included. *)
Theorem clear_contexts_clears_all (w : HookedRootModule.t) :
  HookedRootModule.has_dicts w = true ->
  fst (HookedRootModule.clear_contexts w) = Ok tt
  /\ Forall2 (on_nodes (fun before after => after = HookPoint.set_ctx [] before))
       (nodes w) (nodes (snd (HookedRootModule.clear_contexts w))).
Proof.
  intro Hd. rewrite !nodes_eq. unfold HookedRootModule.clear_contexts.
  rewrite for_hook_dict_items_has_dicts, Hd.
  apply for_hook_dict_items_total; [|exact Hd].
  intros k c hp. now split.
Qed.

Lemma clear_contexts_clears_all_witness :
  fst (HookedRootModule.clear_contexts hooked_model) = Ok tt
  /\ binding_counts (snd (HookedRootModule.clear_contexts hooked_model)) =
     binding_counts hooked_model.
Proof.
  split; [|reflexivity].
  exact (proj1 (clear_contexts_clears_all hooked_model eq_refl)).
Defined.

(** ** Before [setup] *)

Lemma has_dicts_run_with_hooks_body x fwd_hooks bwd_hooks w :
  HookedRootModule.has_dicts
    (snd ((HookedRootModule.add_fwd_hooks fwd_hooks ;;;
           HookedRootModule.add_bwd_hooks bwd_hooks ;;;
           HookedRootModule.forward x)%py w))
  = HookedRootModule.has_dicts w.
Proof. apply (run_with_hooks_body_keeps x fwd_hooks bwd_hooks w). Qed.

Lemma reset_hooks_before_setup clr dir ip w :
  HookedRootModule.has_dicts w = false ->
  HookedRootModule.reset_hooks clr dir ip w = (Raise (AttributeError "hook_dict"), w).
Proof.
  intro Hd. rewrite reset_hooks_eq.
  unfold HookedRootModule.clear_contexts, HookedRootModule.remove_all_hook_fns,
    HookedRootModule.for_hook_dict_items, ret.
  destruct clr; now rewrite Hd.
Qed.

(** X11.  On a registry on which [setup] has not been called, the other
    hook operations of the root module fail on the missing [hook_dict] as
    well.  [remove_all_hook_fns], [clear_contexts] and [reset_hooks] change
    nothing.  [add_caching_hooks], given a device and a cache, fails after it
    has set [is_caching], which stays true.  [run_with_hooks] with
    [reset_hooks_end=True] always ends in that error, raised by the
    [finally] block: without hooks the forward pass has run by then and its
    result is lost. *)
Theorem hook_operations_before_setup (w : HookedRootModule.t) :
  HookedRootModule.has_dicts w = false ->
  (forall dir ip,
      HookedRootModule.remove_all_hook_fns dir ip w =
        (Raise (AttributeError "hook_dict"), w))
  /\ HookedRootModule.clear_contexts w = (Raise (AttributeError "hook_dict"), w)
  /\ (forall clr dir ip,
         HookedRootModule.reset_hooks clr dir ip w =
           (Raise (AttributeError "hook_dict"), w))
  /\ (forall nf incl_bwd d rbd c,
         HookedRootModule.add_caching_hooks nf incl_bwd (Some d) rbd (Some c) w =
           (Raise (AttributeError "hook_dict"),
            HookedRootModule.set_is_caching true w))
  /\ (forall x fwd_hooks bwd_hooks clr,
         fst (HookedRootModule.run_with_hooks x fwd_hooks bwd_hooks true clr w) =
           Raise (AttributeError "hook_dict"))
  /\ (forall x clr,
         HookedRootModule.run_with_hooks x [] [] true clr w =
           (Raise (AttributeError "hook_dict"),
            snd (HookedRootModule.forward x w))).
Proof.
  intro Hd.
  split.
  { intros dir ip. unfold HookedRootModule.remove_all_hook_fns,
      HookedRootModule.for_hook_dict_items. now rewrite Hd. }
  split.
  { unfold HookedRootModule.clear_contexts,
      HookedRootModule.for_hook_dict_items. now rewrite Hd. }
  split; [intros; now apply reset_hooks_before_setup|].
  split.
  { intros nf incl_bwd d rbd c.
    unfold HookedRootModule.add_caching_hooks, HookedRootModule.resolve_device,
      HookedRootModule.for_hook_dict_items, bind, ret. simpl.
    now rewrite Hd. }
  split.
  - intros x fwd_hooks bwd_hooks clr.
    unfold HookedRootModule.run_with_hooks, try_finally.
    pose proof (has_dicts_run_with_hooks_body x fwd_hooks bwd_hooks w) as H1.
    destruct (bind _ _ w) as [r w1]. simpl in H1. rewrite Hd in H1.
    now rewrite (reset_hooks_before_setup clr "both" false w1 H1).
  - intros x clr.
    unfold HookedRootModule.run_with_hooks, try_finally. simpl.
    unfold bind, ret.
    pose proof (frame_forward x w) as [H1 _].
    destruct (HookedRootModule.forward x w) as [r w1]. simpl in *.
    rewrite Hd in H1.
    now rewrite (reset_hooks_before_setup clr "both" false w1 H1).
Qed.

Lemma hook_operations_before_setup_witness :
  HookedRootModule.reset_hooks true "both" false fresh_model =
    (Raise (AttributeError "hook_dict"), fresh_model)
  /\ fst (HookedRootModule.run_with_hooks example_input [] [] true false
            fresh_model) = Raise (AttributeError "hook_dict").
Proof.
  pose proof (hook_operations_before_setup fresh_model eq_refl)
    as (_ & _ & H3 & _ & H5 & _).
  split; [exact (H3 true "both" false)|exact (H5 example_input [] [] false)].
Defined.

(** ** Caching *)

Lemma bind_ext {S A B : Type} (m : M S A) (k1 k2 : A -> M S B) (s : S) :
  (forall a s', k1 a s' = k2 a s') -> bind m k1 s = bind m k2 s.
Proof.
  intro H. unfold bind. destruct (m s) as [[a|e] s']; [apply H|reflexivity].
Qed.

Lemma for_items_ext body1 body2 :
  (forall k st, body1 k st = body2 k st) ->
  forall ms c,
    HookedRootModule.for_items body1 ms c = HookedRootModule.for_items body2 ms c.
Proof.
  intro H. induction ms as [|[k m] rest IH]; intro c; simpl; [reflexivity|].
  destruct m as [hp| |]; rewrite ?H; try now rewrite IH.
  destruct (body2 k (c, hp)) as [[u|e] [c' hp']]; [now rewrite IH|reflexivity].
Qed.

Lemma for_hook_dict_items_ext body1 body2 w :
  (forall k st, body1 k st = body2 k st) ->
  HookedRootModule.for_hook_dict_items body1 w =
    HookedRootModule.for_hook_dict_items body2 w.
Proof.
  intro H. unfold HookedRootModule.for_hook_dict_items.
  now rewrite (for_items_ext body1 body2 H).
Qed.

(** Two filters that accept the same names install the same hooks. *)
Lemma add_caching_hooks_filter_ext nf1 nf2 accepts incl_bwd device rbd cache w :
  filter_accepts nf1 accepts -> filter_accepts nf2 accepts ->
  HookedRootModule.add_caching_hooks nf1 incl_bwd device rbd cache w =
    HookedRootModule.add_caching_hooks nf2 incl_bwd device rbd cache w.
Proof.
  intros H1 H2. unfold HookedRootModule.add_caching_hooks.
  apply bind_ext. intros dev s1. apply bind_ext. intros c s2.
  apply bind_ext. intros _ s3. unfold bind at 1 3.
  rewrite (for_hook_dict_items_ext _
             (fun name =>
                match py_call (HookedRootModule.rebind nf2)
                        (HookedRootModule.rebind nf2) name with
                | Ok true =>
                    (HookPoint.add_hook (HookedRootModule.save_hook c dev rbd)
                       "fwd" false ;;;
                     (if incl_bwd
                      then HookPoint.add_hook
                             (HookedRootModule.save_hook_back c dev rbd) "bwd" false
                      else ret tt))%py
                | Ok false => ret tt
                | Raise e => raise e
                end) s3); [reflexivity|].
  intros k st. now rewrite H1, H2.
Qed.

(** X12.  The deprecated [cache_all] is [add_caching_hooks] with the default
    filter and the given cache: both leave the same state, and fail or
    return together. *)
Theorem cache_all_is_default_filter (cache : option nat) (incl_bwd : bool)
  (device : option string) (rbd : bool) (w : HookedRootModule.t) :
  snd (HookedRootModule.cache_all cache incl_bwd device rbd w) =
    snd (HookedRootModule.add_caching_hooks PyNone incl_bwd device rbd cache w)
  /\ fst (HookedRootModule.cache_all cache incl_bwd device rbd w) =
     match fst (HookedRootModule.add_caching_hooks PyNone incl_bwd device rbd
                  cache w) with
     | Ok _ => Ok tt
     | Raise e => Raise e
     end.
Proof.
  unfold HookedRootModule.cache_all, bind.
  rewrite (add_caching_hooks_filter_ext (nf1 := PyFunction (fun _ => true))
             (nf2 := PyNone) (accepts := fun _ => true));
    [|intro k; reflexivity|intro k; reflexivity].
  destruct (HookedRootModule.add_caching_hooks PyNone incl_bwd device rbd cache w)
    as [[c|e] w1]; split; reflexivity.
Qed.

Lemma caching_body_gain (accepts : string -> bool) names_filter c dev rbd
  incl_bwd :
  filter_accepts names_filter accepts ->
  forall k next hp,
    fst (caching_body names_filter c dev rbd incl_bwd k (next, hp)) = Ok tt
    /\ (if accepts k
        then caching_gain incl_bwd hp
               (snd (snd (caching_body names_filter c dev rbd incl_bwd k
                            (next, hp))))
        else snd (snd (caching_body names_filter c dev rbd incl_bwd k
                         (next, hp))) = hp).
Proof.
  intros Hf k next hp. unfold caching_body. rewrite Hf.
  destruct (accepts k); [|now split].
  unfold bind.
  destruct (add_hook_gained (HookedRootModule.save_hook c dev rbd) false next hp
              (or_introl eq_refl)) as (H1 & H2 & H3).
  destruct (HookPoint.add_hook (HookedRootModule.save_hook c dev rbd) "fwd" false
              (next, hp)) as [[u|e] [n1 hp1]]; simpl in H1, H2, H3;
    [|discriminate].
  unfold caching_gain. destruct incl_bwd; [|now split].
  destruct (add_hook_gained (HookedRootModule.save_hook_back c dev rbd) false
              n1 hp1 (or_intror eq_refl)) as (H4 & H5 & H6).
  split; [exact H4|]. now exists hp1.
Qed.

(** The cache and the registry on which the loop of [add_caching_hooks]
    starts. *)
Lemma add_caching_hooks_unfold names_filter incl_bwd dev rbd cache w :
  HookedRootModule.add_caching_hooks names_filter incl_bwd (Some dev) rbd cache w
  = let c := match cache with
             | Some c => c
             | None => List.length (HookedRootModule.heap w)
             end in
    let w0 := HookedRootModule.set_is_caching true
                (match cache with
                 | Some _ => w
                 | None =>
                     HookedRootModule.set_heap (HookedRootModule.heap w ++ [[]]) w
                 end) in
    match HookedRootModule.for_hook_dict_items
            (caching_body names_filter c dev rbd incl_bwd) w0 with
    | (Ok _, w2) => (Ok c, w2)
    | (Raise e, w2) => (Raise e, w2)
    end.
Proof.
  unfold caching_body, HookedRootModule.add_caching_hooks,
    HookedRootModule.resolve_device, HookedRootModule.new_dict, heap_alloc,
    bind, ret.
  destruct cache as [c|]; cbv zeta;
    match goal with
    | |- context [HookedRootModule.for_hook_dict_items ?b ?s] =>
        destruct (HookedRootModule.for_hook_dict_items b s) as [[u|e] w2]
    end; reflexivity.
Qed.

(** X13.  [add_caching_hooks] on a registry after [setup], with a device
    and a filter that accepts names (none, or a function): the call returns
    the cache it was given, or a new one, sets [is_caching], and every node
    whose name the filter accepts has gained one temporary forward hook (and
    after it one temporary backward hook with [incl_bwd]); every other node
    is as it was. *)
Theorem add_caching_hooks_installs (names_filter : pyvalue)
  (accepts : string -> bool) (incl_bwd : bool) (dev : string) (rbd : bool)
  (cache : option nat) (w : HookedRootModule.t) :
  HookedRootModule.has_dicts w = true ->
  filter_accepts names_filter accepts ->
  fst (HookedRootModule.add_caching_hooks names_filter incl_bwd (Some dev) rbd
         cache w)
  = Ok (match cache with Some c => c | None => List.length (HookedRootModule.heap w) end)
  /\ HookedRootModule.is_caching
       (snd (HookedRootModule.add_caching_hooks names_filter incl_bwd (Some dev)
               rbd cache w)) = true
  /\ Forall2
       (on_keyed_nodes (fun k before after =>
                          if accepts k then caching_gain incl_bwd before after
                          else after = before))
       (nodes w)
       (nodes (snd (HookedRootModule.add_caching_hooks names_filter incl_bwd
                      (Some dev) rbd cache w))).
Proof.
  intros Hd Hf.
  split; [|split;
           [exact (add_caching_hooks_sets_flag names_filter incl_bwd (Some dev)
                     rbd cache w (dev := dev) eq_refl)|]];
    rewrite add_caching_hooks_unfold; cbv zeta;
    match goal with
    | |- context [HookedRootModule.for_hook_dict_items (caching_body _ ?c _ _ _) ?s] =>
        assert (Hs : HookedRootModule.has_dicts s = true)
          by (destruct cache; exact Hd);
        destruct (for_hook_dict_items_keyed
                    (caching_body names_filter c dev rbd incl_bwd)
                    (fun k before after =>
                       if accepts k then caching_gain incl_bwd before after
                       else after = before)
                    (caching_body_gain c dev rbd incl_bwd Hf) s Hs) as [H1 H2];
        assert (Hn : nodes s = nodes w)
          by (rewrite !nodes_eq; destruct cache; reflexivity);
        rewrite Hn in H2;
        destruct (HookedRootModule.for_hook_dict_items
                    (caching_body names_filter c dev rbd incl_bwd) s)
          as [[u|e] w2]
    end; [reflexivity|discriminate|exact H2|discriminate].
Qed.

Lemma add_caching_hooks_installs_witness :
  fst (HookedRootModule.add_caching_hooks
         (PyFunction (fun n => String.eqb n "b")) true (Some "cpu") false None
         example_model) = Ok 0
  /\ binding_counts
       (snd (HookedRootModule.add_caching_hooks
               (PyFunction (fun n => String.eqb n "b")) true (Some "cpu") false
               None example_model))
     = [("a", 0, 0); ("b", 1, 1); ("c", 0, 0)].
Proof.
  split; [|reflexivity].
  apply (add_caching_hooks_installs
           (names_filter := PyFunction (fun n => String.eqb n "b"))
           (accepts := fun n => String.eqb n "b") true "cpu" false None
           example_model eq_refl).
  intro k. reflexivity.
Defined.

(** ** What the cache holds after [run_with_cache] *)









Lemma for_hook_dict_items_heap body w :
  HookedRootModule.heap (snd (HookedRootModule.for_hook_dict_items body w)) =
    HookedRootModule.heap w.
Proof.
  unfold HookedRootModule.for_hook_dict_items.
  destruct (HookedRootModule.has_dicts w); [|reflexivity].
  now destruct (HookedRootModule.for_items body _ _) as [r [c ms]].
Qed.

Lemma reset_hooks_heap clr dir ip w :
  HookedRootModule.heap (snd (HookedRootModule.reset_hooks clr dir ip w)) =
    HookedRootModule.heap w.
Proof.
  unfold HookedRootModule.reset_hooks, HookedRootModule.clear_contexts,
    HookedRootModule.remove_all_hook_fns, bind.
  destruct clr.
  - pose proof (for_hook_dict_items_heap (fun _ => HookPoint.clear_context) w) as H1.
    destruct (HookedRootModule.for_hook_dict_items
                (fun _ => HookPoint.clear_context) w) as [[u|e] w1];
      simpl in H1; [|exact H1].
    pose proof (for_hook_dict_items_heap
                  (fun _ => HookPoint.remove_hooks dir ip) w1) as H2.
    destruct (HookedRootModule.for_hook_dict_items
                (fun _ => HookPoint.remove_hooks dir ip) w1) as [[u'|e] w2];
      simpl in H2 |- *; congruence.
  - unfold ret.
    pose proof (for_hook_dict_items_heap
                  (fun _ => HookPoint.remove_hooks dir ip) w) as H2.
    destruct (HookedRootModule.for_hook_dict_items
                (fun _ => HookPoint.remove_hooks dir ip) w) as [[u'|e] w2];
      simpl in H2 |- *; congruence.
Qed.





(** ** What [run_with_hooks] runs *)

Lemma find_module_hook_point_In path ms hp :
  HookedRootModule.find_module path ms = Some (HookedRootModule.IsHookPoint hp) ->
  In (path, hp) (HookedRootModule.hook_points_of ms).
Proof.
  induction ms as [|[k m] rest IH]; simpl; [discriminate|].
  destruct (String.eqb_spec path k) as [->|Hne].
  - intro H. injection H as ->. simpl. now left.
  - intro H. apply in_or_app. right. now apply IH.
Qed.

Lemma hooked_as_init ms bound :
  Forall (fun e => HookPoint.name (snd e) = Some (fst e)
                   /\ HookPoint._forward_hooks (snd e) = [])
    (HookedRootModule.hook_points_of ms) ->
  hooked_as (fun _ => []) bound ms ms.
Proof.
  intros Hu path.
  destruct (HookedRootModule.find_module path ms) as [[hp| |]|] eqn:E;
    try reflexivity.
  apply find_module_hook_point_In in E.
  rewrite Forall_forall in Hu. destruct (Hu _ E) as [Hn Hh]. simpl in Hn, Hh.
  exists hp. rewrite Hh. repeat split; [exact Hn|constructor].
Qed.

Lemma hooked_as_ext H1 H2 bound ms ms1 :
  (forall path, H1 path = H2 path) ->
  hooked_as H1 bound ms ms1 -> hooked_as H2 bound ms ms1.
Proof.
  intros He H path. specialize (H path). rewrite <- He. exact H.
Qed.

Lemma hooked_as_step H sel hook next next' ms ms1 ms2 :
  hooked_as H next ms ms1 ->
  adds sel hook next next' ms1 ms2 ->
  hooked_as (fun path => H path ++ (if sel path then [hook] else [])) next' ms ms2.
Proof.
  intros Hh [Hle Ha] path. specialize (Hh path). specialize (Ha path).
  destruct (HookedRootModule.find_module path ms) as [[hp| |]|].
  - destruct Hh as (hp1 & E1 & Hn & Hm & Hb). rewrite E1 in Ha.
    destruct Ha as (hp2 & E2 & Hn2 & Hs). exists hp2.
    split; [exact E2|]. split; [congruence|].
    destruct (sel path).
    + destruct Hs as (n & Hn1 & Hn3 & Hs). rewrite Hs.
      rewrite dict_set_fresh.
      * rewrite !map_app, Hm. split; [reflexivity|].
        apply Forall_app. split.
        -- eapply Forall_impl; [|exact Hb]. simpl. intros a Ha'. lia.
        -- constructor; [simpl; lia|constructor].
      * intro Hin. apply in_map_iff in Hin. destruct Hin as (e & He & Hin).
        rewrite Forall_forall in Hb. specialize (Hb e Hin). lia.
    + rewrite Hs, app_nil_r. split; [exact Hm|].
      eapply Forall_impl; [|exact Hb]. simpl. intros a Ha'. lia.
  - rewrite Hh in Ha. exact Ha.
  - rewrite Hh in Ha. exact Ha.
  - rewrite Hh in Ha. exact Ha.
Qed.

Lemma for_items_adds (p : string -> bool) (hook : hook_fn) :
  forall ms next,
    fst (HookedRootModule.for_items
           (fun k => if p k then HookPoint.add_hook hook "fwd" false else ret tt)
           ms next) = Ok tt
    /\ adds p hook next
         (fst (snd (HookedRootModule.for_items
                      (fun k => if p k then HookPoint.add_hook hook "fwd" false
                                else ret tt) ms next)))
         ms
         (snd (snd (HookedRootModule.for_items
                      (fun k => if p k then HookPoint.add_hook hook "fwd" false
                                else ret tt) ms next))).
Proof.
  induction ms as [|[k m] rest IH]; intro next.
  - split; [reflexivity|]. split; [apply Nat.le_refl|]. intro path. reflexivity.
  - destruct m as [hp| |].
    + simpl. destruct (p k) eqn:Ep.
      * cbn. specialize (IH (S next)).
        destruct (HookedRootModule.for_items _ rest (S next)) as [r [n2 rest']].
        simpl in IH. destruct IH as [IH1 [IH2 IH3]].
        split; [exact IH1|]. split; [simpl; lia|]. intro path. simpl.
        destruct (String.eqb_spec path k) as [->|Hne].
        -- eexists. split; [reflexivity|]. split; [reflexivity|].
           rewrite Ep. exists next. repeat split; [lia|simpl; lia].
        -- specialize (IH3 path).
           destruct (HookedRootModule.find_module path rest) as [[hp0| |]|];
             try exact IH3.
           destruct IH3 as (hp' & E & Hn & Hs). exists hp'.
           split; [exact E|]. split; [exact Hn|].
           destruct (p path); [|exact Hs].
           destruct Hs as (n & Hn1 & Hn2 & Hs). exists n.
           repeat split; [lia|exact Hn2|exact Hs].
      * cbn. specialize (IH next).
        destruct (HookedRootModule.for_items _ rest next) as [r [n2 rest']].
        simpl in IH. destruct IH as [IH1 [IH2 IH3]].
        split; [exact IH1|]. split; [exact IH2|]. intro path. simpl.
        destruct (String.eqb_spec path k) as [->|Hne].
        -- exists hp. rewrite Ep. repeat split.
        -- exact (IH3 path).
    + simpl. specialize (IH next).
      destruct (HookedRootModule.for_items _ rest next) as [r [n2 rest']].
      simpl in IH. destruct IH as [IH1 [IH2 IH3]].
      split; [exact IH1|]. split; [exact IH2|]. intro path. simpl.
      destruct (String.eqb path k); [reflexivity|exact (IH3 path)].
    + simpl. specialize (IH next).
      destruct (HookedRootModule.for_items _ rest next) as [r [n2 rest']].
      simpl in IH. destruct IH as [IH1 [IH2 IH3]].
      split; [exact IH1|]. split; [exact IH2|]. intro path. simpl.
      destruct (String.eqb path k); [reflexivity|exact (IH3 path)].
Qed.

Lemma item_add_hook_adds n hook ms hp :
  HookedRootModule.find_module n ms = Some (HookedRootModule.IsHookPoint hp) ->
  forall next,
    fst (HookedRootModule.item_add_hook n hook "fwd" false ms next) = Ok tt
    /\ adds (String.eqb n) hook next
         (fst (snd (HookedRootModule.item_add_hook n hook "fwd" false ms next)))
         ms
         (snd (snd (HookedRootModule.item_add_hook n hook "fwd" false ms next))).
Proof.
  intros E next. pose proof (item_add_hook_spec n hook "fwd" false ms next) as H.
  rewrite E in H. cbv zeta in H.
  destruct (HookedRootModule.item_add_hook n hook "fwd" false ms next)
    as [r [n2 ms2]].
  cbn in H. destruct H as (H1 & H2 & H3 & H4). subst r n2.
  split; [reflexivity|]. split; [simpl; lia|]. intro path. simpl.
  destruct (String.eqb_spec n path) as [<-|Hne].
  - rewrite E. eexists. split; [exact H3|]. split; [reflexivity|].
    exists next. repeat split; lia.
  - rewrite (H4 path) by congruence.
    destruct (HookedRootModule.find_module path ms) as [[hp0| |]|];
      try reflexivity.
    exists hp0. repeat split.
Qed.

Lemma hooks_at_cons t hook rest path :
  hooks_at ((t, hook) :: rest) path
  = (if target_selects t path then [hook] else []) ++ hooks_at rest path.
Proof.
  unfold hooks_at. simpl. now destruct (target_selects t path).
Qed.

Lemma add_fwd_hooks_hooked ms :
  forall fwd_hooks H w1,
    Forall (fun e => names_hook_point ms (fst e)) fwd_hooks ->
    HookedRootModule.has_dicts w1 = true ->
    hooked_as H (HookedRootModule.next_id w1) ms (HookedRootModule.named_modules w1) ->
    exists w2,
      HookedRootModule.add_fwd_hooks fwd_hooks w1 = (Ok tt, w2)
      /\ HookedRootModule.has_dicts w2 = true
      /\ HookedRootModule.heap w2 = HookedRootModule.heap w1
      /\ HookedRootModule.forward_ops w2 = HookedRootModule.forward_ops w1
      /\ hooked_as (fun path => H path ++ hooks_at fwd_hooks path)
           (HookedRootModule.next_id w2) ms (HookedRootModule.named_modules w2).
Proof.
  induction fwd_hooks as [|[t hook] rest IH]; intros H w1 Ht Hd Hh.
  - exists w1. repeat split; try assumption.
    eapply hooked_as_ext; [|exact Hh]. intro path. simpl.
    now rewrite app_nil_r.
  - apply Forall_cons_iff in Ht. destruct Ht as [Ht Hrest]. simpl in Ht.
    destruct t as [n|p].
    + simpl. unfold bind at 1. unfold HookedRootModule.mod_dict_add_hook.
      rewrite Hd.
      assert (exists hp1,
                 HookedRootModule.find_module n (HookedRootModule.named_modules w1)
                 = Some (HookedRootModule.IsHookPoint hp1)) as [hp1 E1].
      { specialize (Hh n). unfold names_hook_point in Ht.
        destruct (HookedRootModule.find_module n ms) as [[hp| |]|];
          try contradiction.
        destruct Hh as (hp' & E & _). now exists hp'. }
      destruct (item_add_hook_adds n hook (HookedRootModule.named_modules w1) E1
                  (HookedRootModule.next_id w1)) as [Hr Ha].
      destruct (HookedRootModule.item_add_hook n hook "fwd" false
                  (HookedRootModule.named_modules w1)
                  (HookedRootModule.next_id w1)) as [r [n2 ms2]].
      simpl in Hr, Ha. subst r.
      destruct (IH (fun path => H path ++ (if String.eqb n path then [hook] else []))
                  (HookedRootModule.set_next_id n2
                     (HookedRootModule.set_named_modules ms2 w1))
                  Hrest Hd (hooked_as_step Hh Ha))
        as (w2 & E2 & Hd2 & Hheap & Hops & Hh2).
      exists w2. rewrite E2. repeat split; try assumption.
      eapply hooked_as_ext; [|exact Hh2]. intro path. cbv beta.
      rewrite hooks_at_cons. simpl. now rewrite app_assoc.
    + simpl. unfold bind at 1. unfold HookedRootModule.for_hook_dict_items.
      rewrite Hd.
      destruct (for_items_adds p hook (HookedRootModule.named_modules w1)
                  (HookedRootModule.next_id w1)) as [Hr Ha].
      destruct (HookedRootModule.for_items _ (HookedRootModule.named_modules w1)
                  (HookedRootModule.next_id w1)) as [r [n2 ms2]].
      simpl in Hr, Ha. subst r.
      destruct (IH (fun path => H path ++ (if p path then [hook] else []))
                  (HookedRootModule.set_next_id n2
                     (HookedRootModule.set_named_modules ms2 w1))
                  Hrest Hd (hooked_as_step Hh Ha))
        as (w2 & E2 & Hd2 & Hheap & Hops & Hh2).
      exists w2. rewrite E2. repeat split; try assumption.
      eapply hooked_as_ext; [|exact Hh2]. intro path. cbv beta.
      rewrite hooks_at_cons. simpl. now rewrite app_assoc.
Qed.

Lemma call_forward_hooks_hooks name input :
  forall hooks l v h,
    map snd l = map HookPoint.full_hook_fwd hooks ->
    HookPoint.call_forward_hooks l name input v h = thread hooks name v h.
Proof.
  induction hooks as [|hook rest IH]; intros l v h Hm.
  - destruct l; [reflexivity|discriminate].
  - destruct l as [|[i th] l]; [discriminate|].
    simpl in Hm. injection Hm as Hth Hl. subst th. simpl.
    unfold bind, HookPoint.full_hook_fwd.
    destruct (hook v name h) as [[r|e] h']; [now apply IH|reflexivity].
Qed.

Lemma run_ops_hooked H bound ms ms1 :
  hooked_as H bound ms ms1 ->
  forall ops x h,
    HookedRootModule.run_ops ops ms1 x h = hooked_pass H ops ms x h.
Proof.
  intro Hh. induction ops as [|[f vjp|path] rest IH]; intros x h.
  - reflexivity.
  - simpl. destruct (f x) as [y|e]; [apply IH|reflexivity].
  - simpl. specialize (Hh path).
    destruct (HookedRootModule.find_module path ms) as [[hp| |]|].
    + destruct Hh as (hp' & E & Hn & Hm & _). rewrite E.
      unfold bind, HookPoint.__call__. rewrite Hn.
      rewrite (call_forward_hooks_hooks (Some path) x (H path) _
                 (HookPoint.forward x) h Hm).
      unfold HookPoint.forward.
      destruct (thread (H path) (Some path) x h) as [[y|e] h'];
        [apply IH|reflexivity].
    + rewrite Hh. reflexivity.
    + rewrite Hh. reflexivity.
    + rewrite Hh. reflexivity.
Qed.

Lemma item_add_hook_bwd_hooked H n hook ms ms1 hp next :
  HookedRootModule.find_module n ms1 = Some (HookedRootModule.IsHookPoint hp) ->
  hooked_as H next ms ms1 ->
  fst (HookedRootModule.item_add_hook n hook "bwd" false ms1 next) = Ok tt
  /\ hooked_as H
       (fst (snd (HookedRootModule.item_add_hook n hook "bwd" false ms1 next)))
       ms (snd (snd (HookedRootModule.item_add_hook n hook "bwd" false ms1 next))).
Proof.
  intros E Hh.
  pose proof (item_add_hook_spec n hook "bwd" false ms1 next) as Hs.
  rewrite E in Hs. cbv zeta in Hs.
  destruct (HookedRootModule.item_add_hook n hook "bwd" false ms1 next)
    as [r [n2 ms2]].
  cbn in Hs. destruct Hs as (H1 & H2 & H3 & H4). subst r n2.
  split; [reflexivity|]. simpl. intro path. specialize (Hh path).
  destruct (String.eqb_spec n path) as [<-|Hne].
  - destruct (HookedRootModule.find_module n ms) as [[hp0| |]|].
    + destruct Hh as (hp1 & E1 & Hn & Hm & Hb).
      rewrite E in E1. injection E1 as <-.
      eexists. split; [exact H3|]. repeat split; trivial.
      eapply Forall_impl; [|exact Hb]. simpl. intros a Ha. lia.
    + congruence.
    + congruence.
    + congruence.
  - rewrite (H4 path) by congruence.
    destruct (HookedRootModule.find_module path ms) as [[hp0| |]|];
      try exact Hh.
    destruct Hh as (hp1 & E1 & Hn & Hm & Hb). exists hp1. repeat split; trivial.
    eapply Forall_impl; [|exact Hb]. simpl. intros a Ha. lia.
Qed.

Lemma add_bwd_hooks_hooked ms H :
  forall bwd_hooks w1,
    Forall (fun e => is_hook_point_name ms (fst e)) bwd_hooks ->
    HookedRootModule.has_dicts w1 = true ->
    hooked_as H (HookedRootModule.next_id w1) ms (HookedRootModule.named_modules w1) ->
    exists w2,
      HookedRootModule.add_bwd_hooks bwd_hooks w1 = (Ok tt, w2)
      /\ HookedRootModule.has_dicts w2 = true
      /\ HookedRootModule.heap w2 = HookedRootModule.heap w1
      /\ HookedRootModule.forward_ops w2 = HookedRootModule.forward_ops w1
      /\ hooked_as H (HookedRootModule.next_id w2) ms
           (HookedRootModule.named_modules w2).
Proof.
  induction bwd_hooks as [|[t hook] rest IH]; intros w1 Ht Hd Hh.
  - exists w1. repeat split; assumption.
  - apply Forall_cons_iff in Ht. destruct Ht as [Ht Hrest].
    unfold is_hook_point_name in Ht. simpl in Ht.
    destruct t as [n|p]; [|contradiction].
    simpl. unfold bind at 1. unfold HookedRootModule.mod_dict_add_hook.
    rewrite Hd.
    assert (exists hp1,
               HookedRootModule.find_module n (HookedRootModule.named_modules w1)
               = Some (HookedRootModule.IsHookPoint hp1)) as [hp1 E1].
    { specialize (Hh n).
      destruct (HookedRootModule.find_module n ms) as [[hp| |]|];
        try contradiction.
      destruct Hh as (hp' & E & _). now exists hp'. }
    destruct (@item_add_hook_bwd_hooked H n hook ms _ hp1 _ E1 Hh) as [Hr Ha].
    destruct (HookedRootModule.item_add_hook n hook "bwd" false
                (HookedRootModule.named_modules w1)
                (HookedRootModule.next_id w1)) as [r [n2 ms2]].
    simpl in Hr, Ha. subst r.
    destruct (IH (HookedRootModule.set_next_id n2
                    (HookedRootModule.set_named_modules ms2 w1))
                Hrest Hd Ha)
      as (w2 & E2 & Hd2 & Hheap & Hops & Hh2).
    exists w2. rewrite E2. repeat split; assumption.
Qed.

(** X15.  [run_with_hooks] on a registry after [setup] whose hook points
    carry their path as name and no forward hook, with forward hooks whose
    [str] targets are paths of hook points and backward hooks given by such
    paths: the call returns, or raises, what the forward pass does in which
    every hook point applies the forward hooks of the pairs that select it,
    by name or by predicate, in the order of the list, each hook seeing the
    hook point's name and the value the hooks before it left, a result
    other than [None] replacing the value; the backward hooks take no part
    in it; the caches are left as that pass leaves them. *)
Theorem run_with_hooks_applies_forward_hooks
  (fwd_hooks bwd_hooks : list (target * hook_fn)) (x : Tensor)
  (reset_hooks_end clear_ctx : bool) (w : HookedRootModule.t) :
  HookedRootModule.has_dicts w = true ->
  unhooked w ->
  Forall (fun e => names_hook_point (HookedRootModule.named_modules w) (fst e))
    fwd_hooks ->
  Forall (fun e => is_hook_point_name (HookedRootModule.named_modules w) (fst e))
    bwd_hooks ->
  fst (HookedRootModule.run_with_hooks x fwd_hooks bwd_hooks reset_hooks_end
         clear_ctx w)
  = fst (hooked_pass (hooks_at fwd_hooks) (HookedRootModule.forward_ops w)
           (HookedRootModule.named_modules w) x (HookedRootModule.heap w))
  /\ HookedRootModule.heap
       (snd (HookedRootModule.run_with_hooks x fwd_hooks bwd_hooks
               reset_hooks_end clear_ctx w))
     = snd (hooked_pass (hooks_at fwd_hooks) (HookedRootModule.forward_ops w)
              (HookedRootModule.named_modules w) x (HookedRootModule.heap w)).
Proof.
  intros Hd Hu Ht Hb.
  destruct (add_fwd_hooks_hooked (H := fun _ => []) w Ht Hd
              (hooked_as_init (HookedRootModule.named_modules w)
                 (HookedRootModule.next_id w) Hu))
    as (w2 & E2 & Hd2 & Hheap & Hops & Hh2).
  destruct (add_bwd_hooks_hooked w2 Hb Hd2 Hh2)
    as (w3 & E3 & Hd3 & Hheap3 & Hops3 & Hh3).
  unfold HookedRootModule.run_with_hooks, try_finally.
  unfold bind at 1 3. rewrite E2. unfold bind. rewrite E3.
  unfold HookedRootModule.forward. rewrite Hops3, Hheap3, Hops, Hheap.
  rewrite (run_ops_hooked Hh3). cbn beta.
  change (fun path : string => [] ++ hooks_at fwd_hooks path)
    with (hooks_at fwd_hooks).
  destruct (hooked_pass (hooks_at fwd_hooks) (HookedRootModule.forward_ops w)
              (HookedRootModule.named_modules w) x (HookedRootModule.heap w))
    as [r h'].
  destruct reset_hooks_end.
  - match goal with
    | |- context [HookedRootModule.reset_hooks clear_ctx "both" false ?s] =>
        pose proof (reset_both_returns clear_ctx s Hd3) as Hr;
        pose proof (reset_hooks_heap clear_ctx "both" false s) as Hh;
        destruct (HookedRootModule.reset_hooks clear_ctx "both" false s)
          as [[u|e] w4]
    end; simpl in Hr, Hh; [|discriminate].
    split; [reflexivity|exact Hh].
  - split; reflexivity.
Qed.

Lemma run_with_hooks_applies_forward_hooks_witness :
  fst (HookedRootModule.run_with_hooks example_input
         [(ByPredicate (fun _ => true), replace_with 1);
          (ByName "b", replace_with 2)]
         [(ByName "c", replace_with 3)] true false example_model)
  = Ok {| device := "cpu"; values := Scalar 1 |}.
Proof.
  assert (Hu : unhooked example_model) by (repeat constructor).
  assert (Ht : Forall
                 (fun e : target * hook_fn =>
                    names_hook_point
                      (HookedRootModule.named_modules example_model) (fst e))
                 [(ByPredicate (fun _ => true), replace_with 1);
                  (ByName "b", replace_with 2)])
    by (repeat constructor).
  assert (Hb : Forall
                 (fun e : target * hook_fn =>
                    is_hook_point_name
                      (HookedRootModule.named_modules example_model) (fst e))
                 [(ByName "c", replace_with 3)])
    by (repeat constructor).
  exact (proj1 (run_with_hooks_applies_forward_hooks example_input true false
                  (w := example_model) eq_refl Hu Ht Hb)).
Defined.

(** ** The device of the caches *)

(** X16.  Without a [device], [add_caching_hooks] and [run_with_cache] take
    it from [self.cfg].  A root module without [cfg] fails with
    [AttributeError] before anything is changed: no cache is made, no hook
    is added and [is_caching] is not set.  With [cfg.device] set, the call
    is the call with that device; with [cfg.device] unset it is the call
    with "cuda" when cuda is available and with "cpu" otherwise. *)
Theorem caching_device_defaults (names_filter : pyvalue) (incl_bwd rbd : bool)
  (w : HookedRootModule.t) :
  let default :=
    match HookedRootModule.cfg w with
    | Some (Some d) => Some d
    | Some None =>
        Some (if HookedRootModule.cuda_is_available w then "cuda" else "cpu")
    | None => None
    end in
  match default with
  | None =>
      (forall cache,
          HookedRootModule.add_caching_hooks names_filter incl_bwd None rbd cache w
          = (Raise (AttributeError "cfg"), w))
      /\ (forall x reset clr,
             HookedRootModule.run_with_cache x names_filter None rbd incl_bwd
               reset clr w
             = (Raise (AttributeError "cfg"), w))
  | Some d =>
      (forall cache,
          HookedRootModule.add_caching_hooks names_filter incl_bwd None rbd cache w
          = HookedRootModule.add_caching_hooks names_filter incl_bwd (Some d) rbd
              cache w)
      /\ (forall x reset clr,
             HookedRootModule.run_with_cache x names_filter None rbd incl_bwd
               reset clr w
             = HookedRootModule.run_with_cache x names_filter (Some d) rbd
                 incl_bwd reset clr w)
  end.
Proof.
  assert (Hnone :
            HookedRootModule.cfg w = None ->
            forall cache,
              HookedRootModule.add_caching_hooks names_filter incl_bwd None rbd
                cache w
              = (Raise (AttributeError "cfg"), w)).
  { intros E cache. unfold HookedRootModule.add_caching_hooks. unfold bind at 1.
    unfold HookedRootModule.resolve_device. now rewrite E. }
  assert (Hsome :
            forall d,
              HookedRootModule.resolve_device None w = (Ok d, w) ->
              forall cache,
                HookedRootModule.add_caching_hooks names_filter incl_bwd None rbd
                  cache w
                = HookedRootModule.add_caching_hooks names_filter incl_bwd
                    (Some d) rbd cache w).
  { intros d E cache. unfold HookedRootModule.add_caching_hooks.
    unfold bind at 1 5. now rewrite E. }
  cbv zeta. unfold HookedRootModule.run_with_cache.
  destruct (HookedRootModule.cfg w) as [[d|]|] eqn:E.
  - assert (Er : HookedRootModule.resolve_device None w = (Ok d, w))
      by (unfold HookedRootModule.resolve_device; now rewrite E).
    split; [exact (Hsome d Er)|]. intros x reset clr.
    unfold bind at 1 5. now rewrite (Hsome d Er).
  - assert (Er : HookedRootModule.resolve_device None w
                 = (Ok (if HookedRootModule.cuda_is_available w
                        then "cuda" else "cpu"), w))
      by (unfold HookedRootModule.resolve_device; now rewrite E).
    split; [exact (Hsome _ Er)|]. intros x reset clr.
    unfold bind at 1 5. now rewrite (Hsome _ Er).
  - split; [exact (Hnone eq_refl)|]. intros x reset clr.
    unfold bind at 1. now rewrite (Hnone eq_refl).
Qed.

(** ** Directions [add_hook] does not know *)

Lemma for_items_guard (p : string -> bool) (e : exn) body :
  (forall k st, body k st = if p k then (Raise e, st) else (Ok tt, st)) ->
  forall ms c,
    HookedRootModule.for_items body ms c
    = (if existsb (fun n => p (fst n)) (HookedRootModule.hook_points_of ms)
       then Raise e else Ok tt, (c, ms)).
Proof.
  intro Hb. induction ms as [|[k m] rest IH]; intro c; [reflexivity|].
  destruct m as [hp| |]; simpl; rewrite ?Hb, ?IH; try reflexivity.
  destruct (p k); simpl; [reflexivity|]. now rewrite IH.
Qed.

(** X17.  [add_hook] knows the directions "fwd" and "bwd" only; "both",
    which [remove_hooks] takes, is not one of them.  With any other
    direction a hook point raises [ValueError] and registers nothing.  The
    root module with a predicate, after [setup], raises it when some node
    satisfies the predicate and returns when none does, and leaves the
    registry as it was in both cases. *)
Theorem add_hook_unknown_direction (hook : hook_fn) (dir : string)
  (is_perm : bool) :
  dir <> "fwd" -> dir <> "bwd" ->
  (forall st,
      HookPoint.add_hook hook dir is_perm st
      = (Raise (ValueError ("Invalid direction " ++ dir)%string), st))
  /\ (forall p w,
         HookedRootModule.has_dicts w = true ->
         HookedRootModule.add_hook (ByPredicate p) hook dir is_perm w
         = (if existsb (fun n => p (fst n)) (nodes w)
            then Raise (ValueError ("Invalid direction " ++ dir)%string)
            else Ok tt, w)).
Proof.
  intros Hf Hb. split; [intro st; now apply add_hook_invalid|].
  intros p w Hd. rewrite nodes_eq, Hd. unfold all_hook_points.
  unfold HookedRootModule.add_hook, HookedRootModule.for_hook_dict_items.
  rewrite Hd.
  rewrite (for_items_guard p
             (ValueError ("Invalid direction " ++ dir)%string)).
  - now rewrite world_same.
  - intros k st. destruct (p k); [now apply add_hook_invalid|reflexivity].
Qed.

Lemma add_hook_unknown_direction_witness :
  HookPoint.add_hook noop "both" false example_node
  = (Raise (ValueError "Invalid direction both"), example_node)
  /\ HookedRootModule.add_hook (ByPredicate (fun n => String.eqb n "c")) noop
       "both" true hooked_model
     = (Raise (ValueError "Invalid direction both"), hooked_model).
Proof.
  assert (Hf : "both" <> "fwd") by discriminate.
  assert (Hb : "both" <> "bwd") by discriminate.
  destruct (add_hook_unknown_direction noop false Hf Hb) as [H1 _].
  destruct (add_hook_unknown_direction noop true Hf Hb) as [_ H2].
  split; [exact (H1 example_node)|].
  exact (H2 (fun n => String.eqb n "c") hooked_model eq_refl).
Defined.

(** ** Gradients and batch removal in the cache *)








